(** * Noter: the CRUD contract of the record handlers and of the client adapter

    A shallow embedding of the Lambda handlers under [aws_codes/]
    (CreateNote, UpdateNote, DeleteNote, NoteById, GetAllNotes) and of
    the client service [services/api.ts] (the adapter and its in-memory
    mock store), followed by the properties of the request/response
    contract.  A handler is a program that awaits the commands it sends
    to the record store; the store may reject a command, and the commands
    of handlers that run side by side may be served in any order. *)

From Stdlib Require Import ZArith String Ascii.
From stdpp Require Import gmap strings list pretty.

Set Warnings "-register-all".
Local Open Scope string_scope.
Local Open Scope Z_scope.

(** ** JavaScript values *)

Module JS.

(** The JSON-shaped fragment of JavaScript values the handlers see.  A
    number [JNum n] is an integer-valued number; an object is the ordered
    list of its own enumerable properties. *)
Inductive JSValue : Type :=
| JUndefined
| JNull
| JBool (b : bool)
| JNum (n : Z)
| JStr (s : string)
| JArr (xs : list JSValue)
| JObj (fields : list (string * JSValue)).

(** An object literal, as the list of its properties in insertion order. *)
Definition Obj : Type := list (string * JSValue).

(** [!!v]: ToBoolean. *)
Definition truthy (v : JSValue) : bool :=
  match v with
  | JUndefined | JNull => false
  | JBool b => b
  | JNum n => negb (n =? 0)
  | JStr s => negb (String.eqb s "")
  | JArr _ | JObj _ => true
  end.

(** [v === undefined]. *)
Definition is_undefined (v : JSValue) : bool :=
  match v with JUndefined => true | _ => false end.

(** [v === s] for a string [s]: strict equality never coerces. *)
Definition strict_eq_str (v : JSValue) (s : string) : bool :=
  match v with JStr s' => String.eqb s' s | _ => false end.

(** [o[k]] on an object literal; a missing property reads as [undefined]. *)
Fixpoint obj_get (k : string) (o : Obj) : JSValue :=
  match o with
  | [] => JUndefined
  | (k', v) :: o' => if String.eqb k' k then v else obj_get k o'
  end.

(** [o[k] = v]: an existing property keeps its position, a new one is
    appended. *)
Fixpoint obj_set (k : string) (v : JSValue) (o : Obj) : Obj :=
  match o with
  | [] => [(k, v)]
  | (k', v') :: o' =>
      if String.eqb k' k then (k, v) :: o' else (k', v') :: obj_set k v o'
  end.

(** [{...dst, ...src}]: the properties of [src] are assigned onto [dst]
    from left to right. *)
Definition spread (src : Obj) (dst : Obj) : Obj :=
  fold_left (fun acc kv => obj_set (fst kv) (snd kv) acc) src dst.

Definition keys (o : Obj) : list string := map fst o.

(** [v.k] for the property names [title] and [content], which no
    prototype defines: only an object can carry them. *)
Definition prop (k : string) (v : JSValue) : JSValue :=
  match v with
  | JObj o => obj_get k o
  | _ => JUndefined
  end.

(** *** Exceptions and promises *)

(** A thrown [Error] (or a rejected promise) is identified by its
    [message], the only part of it the handlers inspect. *)
Inductive Result (A : Type) : Type :=
| Ok (a : A)
| Throw (message : string).
Arguments Ok {A} a.
Arguments Throw {A} message.

(** Destructuring [const { title, content } = v] throws a [TypeError] on
    [null] and [undefined]; the text is V8's. *)
Definition TypeError_destructure (name what : string) : string :=
  "Cannot destructure property 'title' of '" ++ name ++ "' as it is "
  ++ what ++ ".".

(** [const { title, content } = v], where [name] is the variable that
    holds [v]. *)
Definition destructure_title_content (name : string) (v : JSValue)
  : Result (JSValue * JSValue) :=
  match v with
  | JUndefined => Throw (TypeError_destructure name "undefined")
  | JNull => Throw (TypeError_destructure name "null")
  | _ => Ok (prop "title" v, prop "content" v)
  end.

(** *** JSON.stringify *)

Definition dquote : ascii := "034"%char.
Definition backslash : ascii := "092"%char.

Definition hex_digit (n : N) : ascii :=
  ascii_of_N (if (n <? 10)%N then 48 + n else 87 + n)%N.

(** QuoteJSONString on one code unit. *)
Definition escape_char (c : ascii) : string :=
  let n := N_of_ascii c in
  if (n =? 34)%N then String backslash (String dquote "")
  else if (n =? 92)%N then String backslash (String backslash "")
  else if (n =? 8)%N then String backslash "b"
  else if (n =? 12)%N then String backslash "f"
  else if (n =? 10)%N then String backslash "n"
  else if (n =? 13)%N then String backslash "r"
  else if (n =? 9)%N then String backslash "t"
  else if (n <? 32)%N then
    String backslash
      ("u00" ++ String (hex_digit (n / 16)) (String (hex_digit (n mod 16)) ""))
  else String c "".

Fixpoint escape (s : string) : string :=
  match s with
  | EmptyString => ""
  | String c s' => escape_char c ++ escape s'
  end.

Definition quote (s : string) : string :=
  String dquote (escape s ++ String dquote "").

Definition join_comma (parts : list string) : string :=
  match parts with
  | [] => ""
  | p :: ps => fold_left (fun acc q => acc ++ "," ++ q) ps p
  end.

(** [JSON.stringify v]: [None] is the result [undefined].  Inside an
    array [undefined] prints as [null]; inside an object a property whose
    value is [undefined] is left out. *)
Fixpoint JSON_stringify (v : JSValue) : option string :=
  match v with
  | JUndefined => None
  | JNull => Some "null"
  | JBool true => Some "true"
  | JBool false => Some "false"
  | JNum n => Some (pretty n)
  | JStr s => Some (quote s)
  | JArr xs =>
      Some ("[" ++ join_comma
                     (map (fun x => default "null" (JSON_stringify x)) xs)
                ++ "]")
  | JObj o =>
      Some ("{" ++ join_comma
                     (omap (fun kv =>
                              match JSON_stringify (snd kv) with
                              | Some s => Some (quote (fst kv) ++ ":" ++ s)
                              | None => None
                              end) o)
                ++ "}")
  end.

End JS.
Export JS.

(** ** The record store

    The DynamoDB table [noter_db], keyed by the string attribute [id], and
    the five document-client commands the handlers send.  The table is
    the only state.  A handler is a program that awaits one command after
    the other and may throw and catch an [Error]; between two awaits of one
    invocation the store may serve the commands of other invocations.

    [docClient.send(command)] resolves with the output of the command or
    rejects with an [Error].  Whether it rejects is not for the handlers to
    say: the document client refuses a value it cannot marshall, the store
    refuses a key or an item over its size limits, a request may be
    throttled, the store may be out of reach.  The semantics takes this as
    a parameter, [rejects]; [limits] below is the instance of a store that
    is up and has the documented limits.  A command the store serves
    reads and writes the one table of the model: a lookup sees every write
    served before it.  An item is the list of its attributes in the order
    in which they were first written; the store promises no order, and
    the order shows only in the text of a serialised item. *)

Module DynamoDB.

Abbreviation Table := (gmap string Obj).

Inductive Command : Type :=
| Get (id : string)
| Put (Item : Obj)
| Update (id : string) (sets : Obj)
| Delete (id : string)
| Scan.

(** [rejects command db = Some message]: on the table [db],
    [docClient.send(command)] rejects with an [Error] of that message. *)
Definition Rejects : Type := Command -> Table -> option string.

(** An [async] function of the handlers.  Each [Await...] is one
    [await docClient.send(...)]: the command's parameters, and what the
    function goes on to do with the settled promise. *)
Inductive Prog (A : Type) : Type :=
| Ret (a : A)
| Raise (message : string)
| AwaitGet (id : string) (k : Result (option Obj) -> Prog A)
| AwaitPut (Item : Obj) (k : Result unit -> Prog A)
| AwaitUpdate (id : string) (sets : Obj) (k : Result Obj -> Prog A)
| AwaitDelete (id : string) (k : Result unit -> Prog A)
| AwaitScan (k : Result (list Obj) -> Prog A).
Arguments Ret {A} a.
Arguments Raise {A} message.
Arguments AwaitGet {A} id k.
Arguments AwaitPut {A} Item k.
Arguments AwaitUpdate {A} id sets k.
Arguments AwaitDelete {A} id k.
Arguments AwaitScan {A} k.

Definition ret {A} (a : A) : Prog A := Ret a.

Definition throw {A} (message : string) : Prog A := Raise message.

(** [await promise] outside a [try]: the value of a fulfilled promise, the
    error of a rejected one thrown. *)
Definition settled {A} (r : Result A) : Prog A :=
  match r with
  | Ok a => Ret a
  | Throw message => Raise message
  end.

Fixpoint bind {A B} (c : Prog A) (k : A -> Prog B) : Prog B :=
  match c with
  | Ret a => k a
  | Raise message => Raise message
  | AwaitGet id k0 => AwaitGet id (fun r => bind (k0 r) k)
  | AwaitPut Item k0 => AwaitPut Item (fun r => bind (k0 r) k)
  | AwaitUpdate id sets k0 => AwaitUpdate id sets (fun r => bind (k0 r) k)
  | AwaitDelete id k0 => AwaitDelete id (fun r => bind (k0 r) k)
  | AwaitScan k0 => AwaitScan (fun r => bind (k0 r) k)
  end.

(** [try { c } catch (err) { handle err.message }] *)
Fixpoint try_catch {A} (c : Prog A) (handle : string -> Prog A) : Prog A :=
  match c with
  | Ret a => Ret a
  | Raise message => handle message
  | AwaitGet id k0 => AwaitGet id (fun r => try_catch (k0 r) handle)
  | AwaitPut Item k0 => AwaitPut Item (fun r => try_catch (k0 r) handle)
  | AwaitUpdate id sets k0 =>
      AwaitUpdate id sets (fun r => try_catch (k0 r) handle)
  | AwaitDelete id k0 => AwaitDelete id (fun r => try_catch (k0 r) handle)
  | AwaitScan k0 => AwaitScan (fun r => try_catch (k0 r) handle)
  end.

Declare Scope db_scope.
Delimit Scope db_scope with db.
Notation "'let*' x ':=' c 'in' k" := (bind c (fun x => k))
  (at level 10, x name, c at level 100, k at level 200) : db_scope.
Notation "c ';;' k" := (bind c (fun _ => k))
  (at level 100, k at level 200, right associativity) : db_scope.

(** [await docClient.send(new GetCommand({ Key: { id } }))]: the
    output's [Item], if any. *)
Definition GetCommand (id : string) : Prog (option Obj) := AwaitGet id settled.

(** [await docClient.send(new PutCommand({ Item }))] *)
Definition PutCommand (Item : Obj) : Prog unit := AwaitPut Item settled.

(** [await docClient.send(new UpdateCommand({ Key: { id },
    UpdateExpression: 'SET a = :a, ...', ReturnValues: 'ALL_NEW' }))], with
    the expression and its attribute values given as the list [sets] of
    assignments: the output's [Attributes]. *)
Definition UpdateCommand (id : string) (sets : Obj) : Prog Obj :=
  AwaitUpdate id sets settled.

(** [await docClient.send(new DeleteCommand({ Key: { id } }))] *)
Definition DeleteCommand (id : string) : Prog unit := AwaitDelete id settled.

(** [await docClient.send(new ScanCommand({ TableName }))]: the output's
    [Items]. *)
Definition ScanCommand : Prog (list Obj) := AwaitScan settled.

(** *** What the store does with a command *)

Section Store.
Variable rejects : Rejects.

(** A command the store serves has the effect [effect] and the output
    [output]; a rejected one leaves the table as it is. *)
Definition send {R} (command : Command) (output : R) (effect : Table)
    (db : Table) : Result R * Table :=
  match rejects command db with
  | Some message => (Throw message, db)
  | None => (Ok output, effect)
  end.

(** The item the table holds under the key, if any. *)
Definition send_get (id : string) (db : Table) : Result (option Obj) * Table :=
  send (Get id) (db !! id) db db.

(** The item replaces whatever the table holds under the item's key; an
    item without a string key is never stored. *)
Definition send_put (Item : Obj) (db : Table) : Result unit * Table :=
  match obj_get "id" Item with
  | JStr id => send (Put Item) tt (<[id := Item]> db) db
  | _ =>
      (Throw "One or more parameter values were invalid: Missing the key id in the item",
       db)
  end.

(** The assignments are applied to the item under the key; an update of
    an absent key creates the item from the key, for the command carries
    no condition.  The output is the whole item after the update. *)
Definition send_update (id : string) (sets : Obj) (db : Table)
  : Result Obj * Table :=
  let Key : Obj := [("id", JStr id)] in
  let Attributes := spread sets (default Key (db !! id)) in
  send (Update id sets) Attributes (<[id := Attributes]> db) db.

Definition send_delete (id : string) (db : Table) : Result unit * Table :=
  send (Delete id) tt (delete id db) db.

(** The notes of the table in the order of the store, for a table that
    one page of a scan holds. *)
Definition send_scan (db : Table) : Result (list Obj) * Table :=
  send Scan (map snd (map_to_list db)) db db.

(** One invocation served with no other in between: the result of the
    program and the table it leaves. *)
Fixpoint serve {A} (c : Prog A) (db : Table) : Result A * Table :=
  match c with
  | Ret a => (Ok a, db)
  | Raise message => (Throw message, db)
  | AwaitGet id k => let (r, db') := send_get id db in serve (k r) db'
  | AwaitPut Item k => let (r, db') := send_put Item db in serve (k r) db'
  | AwaitUpdate id sets k =>
      let (r, db') := send_update id sets db in serve (k r) db'
  | AwaitDelete id k => let (r, db') := send_delete id db in serve (k r) db'
  | AwaitScan k => let (r, db') := send_scan db in serve (k r) db'
  end.

(** One invocation taken to its next await: the store serves the command
    the program waits for.  A program that has returned or thrown stays
    as it is. *)
Definition advance {A} (c : Prog A) (db : Table) : Prog A * Table :=
  match c with
  | Ret _ | Raise _ => (c, db)
  | AwaitGet id k => let (r, db') := send_get id db in (k r, db')
  | AwaitPut Item k => let (r, db') := send_put Item db in (k r, db')
  | AwaitUpdate id sets k => let (r, db') := send_update id sets db in (k r, db')
  | AwaitDelete id k => let (r, db') := send_delete id db in (k r, db')
  | AwaitScan k => let (r, db') := send_scan db in (k r, db')
  end.

(** Invocations served side by side.  [pool] holds the invocations in
    flight, [schedule] names, step by step, the one whose pending command
    the store serves next. *)
Fixpoint interleave {A} (schedule : list nat) (pool : list (Prog A))
    (db : Table) : list (Prog A) * Table :=
  match schedule with
  | [] => (pool, db)
  | i :: schedule' =>
      match pool !! i with
      | Some c =>
          let (c', db') := advance c db in
          interleave schedule' (<[i := c']> pool) db'
      | None => interleave schedule' pool db
      end
  end.

End Store.

(** *** The limits of the document client and of the store *)

(** The size in bytes of the UTF-8 encoding of a text of code units below
    256. *)
Fixpoint utf8_size (s : string) : N :=
  match s with
  | EmptyString => 0
  | String c s' => (if N_of_ascii c <? 128 then 1 else 2) + utf8_size s'
  end%N.

Definition MAX_SAFE_INTEGER : Z := 9007199254740991.

(** The document client marshalls every value of a command before it
    sends the command, and throws on a number outside the safe range and
    on [undefined]. *)
Fixpoint marshall (v : JSValue) : option string :=
  match v with
  | JUndefined =>
      Some "Pass options.removeUndefinedValues=true to remove undefined values from map/array/set."
  | JNull | JBool _ | JStr _ => None
  | JNum n =>
      if MAX_SAFE_INTEGER <? n then
        Some ("Number " ++ pretty n
              ++ " is greater than Number.MAX_SAFE_INTEGER. Use BigInt.")
      else if n <? - MAX_SAFE_INTEGER then
        Some ("Number " ++ pretty n
              ++ " is lesser than Number.MIN_SAFE_INTEGER. Use BigInt.")
      else None
  | JArr xs =>
      (fix each (xs : list JSValue) : option string :=
         match xs with
         | [] => None
         | x :: xs' =>
             match marshall x with
             | Some message => Some message
             | None => each xs'
             end
         end) xs
  | JObj o =>
      (fix each (o : list (string * JSValue)) : option string :=
         match o with
         | [] => None
         | kv :: o' =>
             match marshall (snd kv) with
             | Some message => Some message
             | None => each o'
             end
         end) o
  end.

(** The size of an attribute value as the store counts it: a text by its
    bytes, a number by its digits, [null] and a boolean as one byte, a list
    or a map with three bytes of its own and one more for each element. *)
Fixpoint value_size (v : JSValue) : N :=
  match v with
  | JUndefined => 0
  | JNull | JBool _ => 1
  | JNum n => (N.of_nat (String.length (pretty (Z.abs n))) + 1) / 2 + 1
  | JStr s => utf8_size s
  | JArr xs =>
      3 + (fix each (xs : list JSValue) : N :=
             match xs with
             | [] => 0
             | x :: xs' => 1 + value_size x + each xs'
             end) xs
  | JObj o =>
      3 + (fix each (o : list (string * JSValue)) : N :=
             match o with
             | [] => 0
             | kv :: o' => 1 + utf8_size (fst kv) + value_size (snd kv) + each o'
             end) o
  end%N.

(** The size of an item: the names and the values of its attributes. *)
Fixpoint item_size (Item : Obj) : N :=
  match Item with
  | [] => 0
  | kv :: Item' => utf8_size (fst kv) + value_size (snd kv) + item_size Item'
  end%N.

(** A partition key is at most 2048 bytes, an item at most 400 KB. *)
Definition MAX_KEY_SIZE : N := 2048.
Definition MAX_ITEM_SIZE : N := 409600.

Definition key_too_long : string :=
  "One or more parameter values were invalid: Size of hashkey has exceeded the maximum size limit of2048 bytes".

Definition item_too_large : string :=
  "Item size has exceeded the maximum allowed size".

Definition key_rejection (id : string) : option string :=
  if (utf8_size id =? 0)%N then
    Some "One or more parameter values are not valid. The AttributeValue for a key attribute cannot contain an empty string value. Key: id"
  else if (MAX_KEY_SIZE <? utf8_size id)%N then Some key_too_long
  else None.

(** The rejections of a store that is up and not throttled: those of the
    client's marshalling, then those of the store's size limits. *)
Definition limits : Rejects :=
  fun command db =>
    match command with
    | Get id | Delete id => key_rejection id
    | Put Item =>
        match marshall (JObj Item) with
        | Some message => Some message
        | None =>
            match obj_get "id" Item with
            | JStr id =>
                match key_rejection id with
                | Some message => Some message
                | None =>
                    if (MAX_ITEM_SIZE <? item_size Item)%N
                    then Some item_too_large
                    else None
                end
            | _ =>
                Some "One or more parameter values were invalid: Missing the key id in the item"
            end
        end
    | Update id sets =>
        match marshall (JObj sets) with
        | Some message => Some message
        | None =>
            match key_rejection id with
            | Some message => Some message
            | None =>
                let Key : Obj := [("id", JStr id)] in
                if (MAX_ITEM_SIZE <? item_size (spread sets (default Key (db !! id))))%N
                then Some "Item size to update has exceeded the maximum allowed size"
                else None
            end
        end
    | Scan => None
    end.

End DynamoDB.
Export DynamoDB.

Local Open Scope db_scope.

(** ** API Gateway events and responses *)

Module Event.
(** The fields of the proxy event the handlers read.  [pathParameters]
    and [body] may be [null]. *)
Record t : Type := mk {
  httpMethod : string;
  pathParameters : option (gmap string string);
  body : option string
}.

(** [event.pathParameters.id] when [!event.pathParameters ||
    !event.pathParameters.id] is false: a non-empty string. *)
Definition path_id (event : t) : option string :=
  match pathParameters event with
  | None => None
  | Some params =>
      match params !! "id" with
      | Some id => if String.eqb id "" then None else Some id
      | None => None
      end
  end.

(** [event.body] when [!event.body] is false. *)
Definition present_body (event : t) : option string :=
  match body event with
  | Some text => if String.eqb text "" then None else Some text
  | None => None
  end.
End Event.

Module Response.
Record t : Type := mk {
  statusCode : Z;
  headers : Obj;
  body : option string
}.
End Response.

(** The response helper module; every [index.js] carries the same copy. *)
Module responseHelper.

Definition cors_headers : Obj :=
  [("Access-Control-Allow-Origin", JStr "*");
   ("Access-Control-Allow-Credentials", JBool true)].

Definition success (data : JSValue) (statusCode : Z) : Response.t :=
  {| Response.statusCode := statusCode;
     Response.headers := cors_headers;
     Response.body := JSON_stringify data |}.

Definition error (message : string) (statusCode : Z) : Response.t :=
  {| Response.statusCode := statusCode;
     Response.headers := cors_headers;
     Response.body := JSON_stringify (JObj [("error", JStr message)]) |}.

Definition cors : Response.t :=
  {| Response.statusCode := 200;
     Response.headers :=
       [("Access-Control-Allow-Origin", JStr "*");
        ("Access-Control-Allow-Headers",
         JStr "Content-Type,X-Amz-Date,Authorization,X-Api-Key,X-Amz-Security-Token");
        ("Access-Control-Allow-Methods", JStr "GET,POST,PUT,DELETE,OPTIONS");
        ("Access-Control-Allow-Credentials", JBool true)];
     Response.body := Some "" |}.

End responseHelper.

(** What one Lambda invocation reads from its runtime: the value of
    [new Date().toISOString()] and the value of [uuidv4()].  Each
    handler evaluates either at most once. *)
Record Runtime : Type := {
  toISOString : string;
  uuidv4 : string
}.

(** ** NoteById/src/index.js *)

Module NoteById.

(** [dbService.getNoteById]: [data.Item || null]. *)
Definition getNoteById (noteId : string) : Prog JSValue :=
  if String.eqb noteId "" then throw "Note ID is required"
  else
    let* Item := GetCommand noteId in
    ret (match Item with Some item => JObj item | None => JNull end).

Definition handler (event : Event.t) : Prog Response.t :=
  if String.eqb (Event.httpMethod event) "OPTIONS" then
    ret responseHelper.cors
  else
    match Event.path_id event with
    | None => ret (responseHelper.error "Note ID is required" 400)
    | Some noteId =>
        try_catch
          (let* note := getNoteById noteId in
           if negb (truthy note) then
             ret (responseHelper.error "Note not found" 404)
           else ret (responseHelper.success note 200))
          (fun message =>
             if String.eqb message "Note ID is required" then
               ret (responseHelper.error message 400)
             else ret (responseHelper.error message 500))
    end.

End NoteById.

(** ** DeleteNote/src/index.js *)

Module DeleteNote.

(** [dbService.noteExists]: [!!data.Item]. *)
Definition noteExists (noteId : string) : Prog bool :=
  let* Item := GetCommand noteId in
  ret (match Item with Some _ => true | None => false end).

(** [dbService.deleteNote]. *)
Definition deleteNote (noteId : string) : Prog unit :=
  if String.eqb noteId "" then throw "Note ID is required"
  else
    let* exists_ := noteExists noteId in
    if negb exists_ then throw "Note not found"
    else DeleteCommand noteId.

Definition handler (event : Event.t) : Prog Response.t :=
  if String.eqb (Event.httpMethod event) "OPTIONS" then
    ret responseHelper.cors
  else
    match Event.path_id event with
    | None => ret (responseHelper.error "Note ID is required" 400)
    | Some noteId =>
        try_catch
          (deleteNote noteId;;
           ret (responseHelper.success
                  (JObj [("message", JStr "Note deleted successfully")]) 204))
          (fun message =>
             if String.eqb message "Note ID is required" then
               ret (responseHelper.error message 400)
             else if String.eqb message "Note not found" then
               ret (responseHelper.error message 404)
             else ret (responseHelper.error message 500))
    end.

End DeleteNote.

(** ** CreateNote/src/index.js *)

Module CreateNote.

(** [dbService.createNote]. *)
Definition createNote (rt : Runtime) (noteData : JSValue) : Prog Obj :=
  match destructure_title_content "noteData" noteData with
  | Throw message => throw message
  | Ok (title, content) =>
      if negb (truthy title) then throw "Title is required"
      else
        let timestamp := toISOString rt in
        let noteId := uuidv4 rt in
        let newNote : Obj :=
          [("id", JStr noteId);
           ("title", title);
           ("content", if truthy content then content else JStr "");
           ("createdAt", JStr timestamp);
           ("updatedAt", JStr timestamp)] in
        PutCommand newNote;;
        ret newNote
  end.

Section Handler.
(** [JSON.parse]: [None] stands for a thrown [SyntaxError]. *)
Variable JSON_parse : string -> option JSValue.

Definition handler (rt : Runtime) (event : Event.t) : Prog Response.t :=
  if String.eqb (Event.httpMethod event) "OPTIONS" then
    ret responseHelper.cors
  else
    match Event.present_body event with
    | None => ret (responseHelper.error "Request body is missing" 400)
    | Some text =>
        match JSON_parse text with
        | None => ret (responseHelper.error "Invalid JSON in request body" 400)
        | Some requestBody =>
            try_catch
              (let* newNote := createNote rt requestBody in
               ret (responseHelper.success (JObj newNote) 201))
              (fun message =>
                 if String.eqb message "Title is required" then
                   ret (responseHelper.error message 400)
                 else ret (responseHelper.error message 500))
        end
    end.
End Handler.

End CreateNote.

(** ** UpdateNote/src/index.js *)

Module UpdateNote.

Definition no_field_message : string :=
  "At least one field (title or content) must be provided for update".

(** [dbService.noteExists]: [!!data.Item]. *)
Definition noteExists (noteId : string) : Prog bool :=
  let* Item := GetCommand noteId in
  ret (match Item with Some _ => true | None => false end).

(** The assignments of the update expression: [updatedAt] always, [title]
    and [content] when they are not [undefined]. *)
Definition update_sets (rt : Runtime) (title content : JSValue) : Obj :=
  ([("updatedAt", JStr (toISOString rt))]
   ++ (if negb (is_undefined title) then [("title", title)] else [])
   ++ (if negb (is_undefined content) then [("content", content)] else []))%list.

(** [dbService.updateNote]: the existence check and the update are two
    awaits, and the update command carries no condition on the item. *)
Definition updateNote (rt : Runtime) (noteId : string) (updateData : JSValue)
  : Prog Obj :=
  if String.eqb noteId "" then throw "Note ID is required"
  else
    let* exists_ := noteExists noteId in
    if negb exists_ then throw "Note not found"
    else
      match destructure_title_content "updateData" updateData with
      | Throw message => throw message
      | Ok (title, content) =>
          if negb (truthy title) && is_undefined content then
            throw no_field_message
          else UpdateCommand noteId (update_sets rt title content)
      end.

Section Handler.
Variable JSON_parse : string -> option JSValue.

Definition handler (rt : Runtime) (event : Event.t) : Prog Response.t :=
  if String.eqb (Event.httpMethod event) "OPTIONS" then
    ret responseHelper.cors
  else
    match Event.path_id event with
    | None => ret (responseHelper.error "Note ID is required" 400)
    | Some noteId =>
        match Event.present_body event with
        | None => ret (responseHelper.error "Request body is missing" 400)
        | Some text =>
            match JSON_parse text with
            | None =>
                ret (responseHelper.error "Invalid JSON in request body" 400)
            | Some requestBody =>
                try_catch
                  (let* updatedNote := updateNote rt noteId requestBody in
                   ret (responseHelper.success (JObj updatedNote) 200))
                  (fun message =>
                     if String.eqb message "Note ID is required" then
                       ret (responseHelper.error message 400)
                     else if String.eqb message "Note not found" then
                       ret (responseHelper.error message 404)
                     else if String.eqb message no_field_message then
                       ret (responseHelper.error message 400)
                     else ret (responseHelper.error message 500))
            end
        end
    end.
End Handler.

End UpdateNote.

(** ** GetAllNotes/src/index.js *)

Module GetAllNotes.

(** The handler builds its answers in place; it has no branch for the
    preflight request and reads nothing of the event. *)
Definition handler (event : Event.t) : Prog Response.t :=
  try_catch
    (let* Items := ScanCommand in
     ret {| Response.statusCode := 200;
            Response.headers :=
              [("Access-Control-Allow-Origin", JStr "*");
               ("Access-Control-Allow-Credentials", JBool true)];
            Response.body := JSON_stringify (JArr (map JObj Items)) |})
    (fun message =>
       ret {| Response.statusCode := 500;
              Response.headers :=
                [("Access-Control-Allow-Origin", JStr "*");
                 ("Access-Control-Allow-Credentials", JBool true)];
              Response.body :=
                JSON_stringify (JObj [("error", JStr message)]) |}).

End GetAllNotes.

(** ** src/services/api.ts: the client adapter and its mock store

    The service that falls back to the mock store when a request fails.
    The mock functions are the ones of the earlier version of the file,
    which selects the mock store by configuration; the two versions carry
    them word for word. *)

Module api.

(** What a call in the browser reads from its environment. *)
Record Browser : Type := {
  (** [new Date().toISOString()] *)
  Date_toISOString : string;
  (** [Date.now()] *)
  Date_now : Z;
  (** [process.env.NODE_ENV] *)
  NODE_ENV : option string
}.

(** The module variable [mockNotesData]: an array of notes. *)
Abbreviation MockNotes := (list Obj).

(** The initial value of [mockNotesData].  Its four timestamps are four
    evaluations of [new Date().toISOString()] at module load. *)
Definition mockNotesData (c1 u1 c2 u2 : string) : MockNotes :=
  [ [("id", JStr "1");
     ("title", JStr "Welcome to Noter");
     ("content", JStr "This is your first note! You can edit or delete this note, or create new ones.");
     ("createdAt", JStr c1);
     ("updatedAt", JStr u1)];
    [("id", JStr "2");
     ("title", JStr "How to use Noter");
     ("content", JStr "Create, edit, and delete notes easily. Your notes will be stored in the cloud and accessible from anywhere.");
     ("createdAt", JStr c2);
     ("updatedAt", JStr u2)] ].

(** [note => note.id === id] *)
Definition has_id (id : string) (note : Obj) : bool :=
  strict_eq_str (obj_get "id" note) id.

(** [Array.prototype.findIndex]; [None] is the result [-1]. *)
Fixpoint findIndex {A} (p : A -> bool) (xs : list A) : option nat :=
  match xs with
  | [] => None
  | x :: xs' =>
      if p x then Some 0%nat
      else match findIndex p xs' with
           | Some i => Some (S i)
           | None => None
           end
  end.

Definition mockNotes (data : MockNotes) : Result (list Obj) := Ok data.

Definition mockNoteById (id : string) (data : MockNotes) : Result Obj :=
  match List.find (has_id id) data with
  | None => Throw "Note not found"
  | Some note => Ok note
  end.

Definition mockCreateNote (br : Browser) (noteData : Obj) (data : MockNotes)
  : Result Obj * MockNotes :=
  let now := Date_toISOString br in
  let newNote : Obj :=
    obj_set "updatedAt" (JStr now)
      (obj_set "createdAt" (JStr now)
         (spread noteData [("id", JStr (pretty (Date_now br)))])) in
  (Ok newNote, (data ++ [newNote])%list).

Definition mockUpdateNote (br : Browser) (id : string) (noteData : Obj)
    (data : MockNotes) : Result Obj * MockNotes :=
  match findIndex (has_id id) data with
  | None => (Throw "Note not found", data)
  | Some index =>
      let updatedNote : Obj :=
        obj_set "updatedAt" (JStr (Date_toISOString br))
          (spread noteData (default [] (data !! index))) in
      (Ok updatedNote, <[index := updatedNote]> data)
  end.

Definition mockDeleteNote (id : string) (data : MockNotes)
  : Result unit * MockNotes :=
  (Ok tt, List.filter (fun note => negb (has_id id note)) data).

(** The outcome of awaiting an axios request: the response's [data], or
    an error that carries the HTTP status when the server answered
    ([error.response.status]) and none when the request never got an
    answer. *)
Record AxiosError : Type := {
  message : string;
  response_status : option Z
}.

Inductive AxiosOutcome : Type :=
| Resolved (data : JSValue)
| Rejected (error : AxiosError).

(** How a promise returned by the adapter settles. *)
Inductive Settled : Type :=
| Fulfilled (value : JSValue)
| RejectedAxios (error : AxiosError)
| RejectedError (message : string).

Definition of_mock (r : Result Obj) : Settled :=
  match r with
  | Ok note => Fulfilled (JObj note)
  | Throw message => RejectedError message
  end.

(** [!process.env.NODE_ENV || process.env.NODE_ENV === 'development'] *)
Definition development (br : Browser) : bool :=
  match NODE_ENV br with
  | None => true
  | Some v => String.eqb v "" || String.eqb v "development"
  end.

Module noteService.
Section WithClient.
(** [apiClient.get(url)] *)
Variable apiClient_get : string -> AxiosOutcome.

(** [noteService.getNote] *)
Definition getNote (br : Browser) (id : string) (data : MockNotes) : Settled :=
  match apiClient_get ("/notes/" ++ id) with
  | Resolved response_data => Fulfilled response_data
  | Rejected error =>
      if development br then of_mock (mockNoteById id data)
      else RejectedAxios error
  end.
End WithClient.

(** The other four operations of the service. *)
Section Remaining.
(** [apiClient.get(url)], [apiClient.post(url, data, config)],
    [apiClient.put(url, data, config)] and [apiClient.delete(url)] *)
Variable apiClient_get : string -> AxiosOutcome.
Variable apiClient_post : string -> JSValue -> AxiosOutcome.
Variable apiClient_put : string -> JSValue -> AxiosOutcome.
Variable apiClient_delete : string -> AxiosOutcome.

(** [noteService.getAllNotes] *)
Definition getAllNotes (br : Browser) (data : MockNotes) : Settled :=
  match apiClient_get "/notes" with
  | Resolved response_data => Fulfilled response_data
  | Rejected error =>
      if development br then
        match mockNotes data with
        | Ok notes => Fulfilled (JArr (map JObj notes))
        | Throw message => RejectedError message
        end
      else RejectedAxios error
  end.

(** [noteService.createNote]: the fallback to the mock store is commented
    out, the error is thrown again. *)
Definition createNote (note : Obj) : Settled :=
  match apiClient_post "/notes" (JObj note) with
  | Resolved response_data => Fulfilled response_data
  | Rejected error => RejectedAxios error
  end.

(** [noteService.updateNote], likewise. *)
Definition updateNote (id : string) (note : Obj) : Settled :=
  match apiClient_put ("/notes/" ++ id) (JObj note) with
  | Resolved response_data => Fulfilled response_data
  | Rejected error => RejectedAxios error
  end.

(** [noteService.deleteNote], likewise; it resolves with no value. *)
Definition deleteNote (id : string) : Settled :=
  match apiClient_delete ("/notes/" ++ id) with
  | Resolved _ => Fulfilled JUndefined
  | Rejected error => RejectedAxios error
  end.
End Remaining.
End noteService.

End api.


(** ** Histories of invocations *)

(** One invocation of a Lambda behind the API. *)
Inductive Invocation : Type :=
| InvokeCreate (rt : Runtime) (event : Event.t)
| InvokeUpdate (rt : Runtime) (event : Event.t)
| InvokeDelete (event : Event.t)
| InvokeNoteById (event : Event.t).

Section Histories.
Variable JSON_parse : string -> option JSValue.

(** The handler run an invocation starts. *)
Definition program (i : Invocation) : Prog Response.t :=
  match i with
  | InvokeCreate rt event => CreateNote.handler JSON_parse rt event
  | InvokeUpdate rt event => UpdateNote.handler JSON_parse rt event
  | InvokeDelete event => DeleteNote.handler event
  | InvokeNoteById event => NoteById.handler event
  end.

Variable rejects : Rejects.

(** One invocation, served with no other in between. *)
Definition invoke (i : Invocation) (db : Table) : Result Response.t * Table :=
  serve rejects (program i) db.

(** The table after the invocations of [h], served one after the other. *)
Definition run (h : list Invocation) (db : Table) : Table :=
  fold_left (fun db i => snd (invoke i db)) h db.

(** The invocations of [h] in flight together, their commands served in
    the order of [schedule]: the handler runs as far as they got, and the
    table. *)
Definition overlap (schedule : list nat) (h : list Invocation) (db : Table)
  : list (Prog Response.t) * Table :=
  interleave rejects schedule (map program h) db.
End Histories.

(** The values [uuidv4()] returned to the create invocations of a history. *)
Definition drawn_uuids (h : list Invocation) : list string :=
  omap (fun i => match i with
                 | InvokeCreate rt _ => Some (uuidv4 rt)
                 | _ => None
                 end) h.

(** The clock readings handed to the invocations of a history. *)
Definition clock_readings (h : list Invocation) : list string :=
  omap (fun i => match i with
                 | InvokeCreate rt _ | InvokeUpdate rt _ => Some (toISOString rt)
                 | _ => None
                 end) h.

(** The five attributes of a stored note, in the order the create handler
    writes them. *)
Definition note_keys : list string :=
  ["id"; "title"; "content"; "createdAt"; "updatedAt"].

(** The object literal of a note with the given attribute values,
    attribute by attribute in the order of [note_keys]. *)
Definition note_of (id : string) (title content : JSValue)
    (createdAt updatedAt : string) : Obj :=
  [("id", JStr id);
   ("title", title);
   ("content", content);
   ("createdAt", JStr createdAt);
   ("updatedAt", JStr updatedAt)].

(** [item] is a note under the key [id] whose id was drawn from
    [uuidv4()] and whose timestamps were read from the clock during the
    history [h]. *)
Definition written_by (h : list Invocation) (id : string) (item : Obj)
  : Prop :=
  exists title content createdAt updatedAt,
    item = note_of id title content createdAt updatedAt
    /\ In id (drawn_uuids h)
    /\ In createdAt (clock_readings h)
    /\ In updatedAt (clock_readings h).

(** A create invocation of [h] drew [id] and read [createdAt] off the
    clock. *)
Definition created_by (h : list Invocation) (id createdAt : string) : Prop :=
  exists rt event,
    In (InvokeCreate rt event) h
    /\ uuidv4 rt = id /\ toISOString rt = createdAt.

(** What holds of an item under the key [id] however the invocations of
    [h] overlap: its attributes are among the five of a note, each at most
    once; its [id] is its key, a value of [uuidv4()]; its [updatedAt] is a
    clock reading; its [createdAt], when it has one, is the clock reading
    of a create invocation that drew the id. *)
Definition stored_by (h : list Invocation) (id : string) (item : Obj)
  : Prop :=
  NoDup (keys item)
  /\ (forall k, In k (keys item) -> In k note_keys)
  /\ obj_get "id" item = JStr id
  /\ In id (drawn_uuids h)
  /\ (exists updatedAt,
        obj_get "updatedAt" item = JStr updatedAt
        /\ In updatedAt (clock_readings h))
  /\ (obj_get "createdAt" item = JUndefined
      \/ exists createdAt,
           obj_get "createdAt" item = JStr createdAt
           /\ created_by h id createdAt).

(** What a handler run of the history [h] may still send, whatever the
    store answers: a put of a note of a create invocation, and an update
    of an id of which the store has returned an item, with the
    assignments of an update invocation. *)
Fixpoint sends_within (h : list Invocation) {A} (c : Prog A) : Prop :=
  match c with
  | Ret _ | Raise _ => True
  | AwaitGet id k =>
      forall r,
        (forall item, r = Ok (Some item) -> In id (drawn_uuids h)) ->
        sends_within h (k r)
  | AwaitPut Item k =>
      (exists rt event title content,
         In (InvokeCreate rt event) h
         /\ Item = note_of (uuidv4 rt) title content
                     (toISOString rt) (toISOString rt))
      /\ forall r, sends_within h (k r)
  | AwaitUpdate id sets k =>
      In id (drawn_uuids h)
      /\ (exists rt event title content,
            In (InvokeUpdate rt event) h
            /\ sets = UpdateNote.update_sets rt title content)
      /\ forall r, sends_within h (k r)
  | AwaitDelete id k => forall r, sends_within h (k r)
  | AwaitScan k => forall r, sends_within h (k r)
  end.

(** An answer that carries no note: the preflight answer or an error. *)
Definition carries_no_note (r : Response.t) : Prop :=
  r = responseHelper.cors
  \/ exists message statusCode, r = responseHelper.error message statusCode.

(** ** Sample requests

    Concrete runtimes, events and a concrete [JSON.parse] on which the
    handlers are run in the examples below.  The store of the examples is
    one that is up and rejects what [limits] says. *)

Module Sample.

(** A [JSON.parse] that knows the texts of the listed values: it returns
    the value whose serialisation is the text, and throws on any other
    text. *)
Definition parse_known (known : list JSValue) (text : string)
  : option JSValue :=
  List.find (fun v => match JSON_stringify v with
                      | Some t => String.eqb t text
                      | None => false
                      end) known.

Definition text_of (v : JSValue) : option string := JSON_stringify v.

Definition rt1 : Runtime :=
  {| toISOString := "2024-05-01T10:00:00.000Z";
     uuidv4 := "3f2b8c1e-0000-4000-8000-000000000001" |}.

Definition rt2 : Runtime :=
  {| toISOString := "2024-05-01T10:00:05.250Z";
     uuidv4 := "3f2b8c1e-0000-4000-8000-000000000002" |}.


(** A later invocation to which [uuidv4()] returns the value it returned
    to [rt1]. *)
Definition rt3 : Runtime :=
  {| toISOString := "2024-05-01T10:00:09.000Z";
     uuidv4 := uuidv4 rt1 |}.

Definition groceries : Obj :=
  [("id", JStr (uuidv4 rt1));
   ("title", JStr "Groceries");
   ("content", JStr "milk");
   ("createdAt", JStr (toISOString rt1));
   ("updatedAt", JStr (toISOString rt1))].

Definition bodies : list JSValue :=
  [ JObj [];
    JObj [("title", JStr "")];
    JObj [("title", JStr "Groceries")];
    JObj [("title", JStr "Groceries"); ("content", JStr "milk")];
    JObj [("title", JStr "Laundry")];
    JObj [("content", JStr "x")];
    JObj [("title", JStr ""); ("content", JStr "x")];
    JObj [("id", JStr "mine"); ("title", JStr "Groceries");
          ("createdAt", JStr "1999"); ("owner", JStr "eve")];
    JObj [("title", JNum 9007199254740992)];
    JObj groceries;
    JNum 5;
    JNull ].

Definition JSON_parse : string -> option JSValue := parse_known bodies.

Definition event (method : string) (id : option string) (body : JSValue)
  : Event.t :=
  {| Event.httpMethod := method;
     Event.pathParameters :=
       match id with
       | Some id => Some {[ "id" := id ]}
       | None => None
       end;
     Event.body := text_of body |}.

(** The table after one create request. *)
Definition db1 : Table := {[ uuidv4 rt1 := groceries ]}.

(** The text of [n] letters [a]. *)
Definition letters (n : N) : string := N.iter n (String "a"%char) "".

(** An id one byte over the size limit of a key. *)
Definition long_id : string := letters 2049.

(** A title over the size limit of an item. *)
Definition long_title : string := letters 500000.

(** The text of the message object, spelled with [quote] for its inner
    quotation marks. *)
Definition deleted_message_text : string :=
  "{" ++ quote "message" ++ ":" ++ quote "Note deleted successfully" ++ "}".

(** A browser in development mode, and one in production mode. *)
Definition dev : api.Browser :=
  {| api.Date_toISOString := "2024-05-01T10:00:07.000Z";
     api.Date_now := 1714557607000;
     api.NODE_ENV := Some "development" |}.

Definition prod : api.Browser :=
  {| api.Date_toISOString := "2024-05-01T10:00:07.000Z";
     api.Date_now := 1714557607000;
     api.NODE_ENV := Some "production" |}.

(** The mock store as the module loads it. *)
Definition mock_data : api.MockNotes :=
  api.mockNotesData "2024-05-01T09:59:00.000Z" "2024-05-01T09:59:00.000Z"
    "2024-05-01T09:59:00.001Z" "2024-05-01T09:59:00.001Z".

(** An [apiClient.get] that reaches the get handler in front of the
    table [db1]: a 2xx answer resolves with the parsed body, any other
    answer rejects with its status.  A handler that throws is answered
    502 by the gateway. *)
Definition apiClient_get (url : string) : api.AxiosOutcome :=
  let id := String.substring 7 (String.length url - 7) url in
  let status_of r :=
    match r with
    | Ok response => Response.statusCode response
    | Throw _ => 502
    end in
  let answer :=
    fst (serve limits (NoteById.handler (event "GET" (Some id) JUndefined)) db1) in
  let status := status_of answer in
  if (200 <=? status) && (status <? 300) then
    api.Resolved
      match answer with
      | Ok response =>
          default JUndefined (Response.body response ≫= JSON_parse)
      | Throw _ => JUndefined
      end
  else
    api.Rejected
      {| api.message := "Request failed with status code " ++ pretty status;
         api.response_status := Some status |}.

End Sample.

(** ** src/services/api.ts, the version that selects the mock store by
    configuration

    Every operation asks [!process.env.REACT_APP_API_URL] and is served by
    the mock store when that holds, by the backend otherwise; there is no
    [catch].  An operation returns how its promise settles and the mock
    store it leaves. *)

Module api_configured.
Import api.

(** [!process.env.REACT_APP_API_URL] *)
Definition offline (REACT_APP_API_URL : option string) : bool :=
  match REACT_APP_API_URL with
  | None => true
  | Some url => String.eqb url ""
  end.

Definition of_axios (outcome : AxiosOutcome) : Settled :=
  match outcome with
  | Resolved response_data => Fulfilled response_data
  | Rejected error => RejectedAxios error
  end.

Module noteService.
Section WithClient.
Variable REACT_APP_API_URL : option string.
Variable apiClient_get : string -> AxiosOutcome.
Variable apiClient_post : string -> JSValue -> AxiosOutcome.
Variable apiClient_put : string -> JSValue -> AxiosOutcome.
Variable apiClient_delete : string -> AxiosOutcome.

Definition getAllNotes (data : MockNotes) : Settled * MockNotes :=
  if offline REACT_APP_API_URL then
    (match mockNotes data with
     | Ok notes => Fulfilled (JArr (map JObj notes))
     | Throw message => RejectedError message
     end, data)
  else (of_axios (apiClient_get "/notes"), data).

Definition getNote (id : string) (data : MockNotes) : Settled * MockNotes :=
  if offline REACT_APP_API_URL then (of_mock (mockNoteById id data), data)
  else (of_axios (apiClient_get ("/notes/" ++ id)), data).

Definition createNote (br : Browser) (note : Obj) (data : MockNotes)
  : Settled * MockNotes :=
  if offline REACT_APP_API_URL then
    let (r, data') := mockCreateNote br note data in (of_mock r, data')
  else (of_axios (apiClient_post "/notes" (JObj note)), data).

Definition updateNote (br : Browser) (id : string) (note : Obj)
    (data : MockNotes) : Settled * MockNotes :=
  if offline REACT_APP_API_URL then
    let (r, data') := mockUpdateNote br id note data in (of_mock r, data')
  else (of_axios (apiClient_put ("/notes/" ++ id) (JObj note)), data).

(** In the mock mode the promise of [mockDeleteNote] is not awaited; it
    never rejects, and the operation resolves with no value. *)
Definition deleteNote (id : string) (data : MockNotes)
  : Settled * MockNotes :=
  if offline REACT_APP_API_URL then
    (Fulfilled JUndefined, snd (mockDeleteNote id data))
  else
    (match apiClient_delete ("/notes/" ++ id) with
     | Resolved _ => Fulfilled JUndefined
     | Rejected error => RejectedAxios error
     end, data).
End WithClient.
End noteService.

End api_configured.

(** ** src/components/NoteItem.tsx *)

Module NoteItem.

(** [truncateContent(content, maxLength)], for a [maxLength] that is a
    natural number; the component calls it with the default, 100. *)
Definition truncateContent (content : string) (maxLength : nat) : string :=
  if (String.length content <=? maxLength)%nat then content
  else String.substring 0 maxLength content ++ "...".

Definition preview (content : string) : string := truncateContent content 100.

End NoteItem.

(** ** aws_codes/build-and-push.ps1: the name of the ECR repository

    The script derives the repository name from the namespace parameter
    and the name of the project folder.  A text is the list of its
    characters, each a code unit below 256; [ToLower] is the one of the
    invariant culture on these. *)

Module BuildAndPush.

Abbreviation text := (list ascii).

Definition between (lo hi : N) (c : ascii) : bool :=
  ((lo <=? N_of_ascii c) && (N_of_ascii c <=? hi))%N.

Definition is_char (n : N) (c : ascii) : bool := (N_of_ascii c =? n)%N.

(** [Char.IsWhiteSpace] *)
Definition IsWhiteSpace (c : ascii) : bool :=
  is_char 32 c || between 9 13 c || is_char 160 c || is_char 133 c.

(** [[string]::IsNullOrWhiteSpace] *)
Definition IsNullOrWhiteSpace (s : text) : bool := forallb IsWhiteSpace s.

Definition ToLower_char (c : ascii) : ascii :=
  if between 65 90 c || (between 192 222 c && negb (is_char 215 c))
  then ascii_of_N (N_of_ascii c + 32)
  else c.

(** [.ToLower()] *)
Definition ToLower (s : text) : text := map ToLower_char s.

(** The characters of the class [a-z0-9/_\.-]. *)
Definition allowed (c : ascii) : bool :=
  between 97 122 c || between 48 57 c
  || is_char 47 c || is_char 95 c || is_char 46 c || is_char 45 c.

Definition hyphen : ascii := "-"%char.

Definition is_hyphen (c : ascii) : bool := is_char 45 c.

(** [-replace "[^a-z0-9/_\.-]", "-"] *)
Definition replace_disallowed (s : text) : text :=
  map (fun c => if allowed c then c else hyphen) s.

(** [-replace "-{2,}", "-"]: every run of two or more hyphens becomes
    one hyphen. *)
Fixpoint collapse_hyphens (s : text) : text :=
  match s with
  | [] => []
  | c :: s' =>
      if is_hyphen c then
        match s' with
        | c' :: _ => if is_hyphen c' then collapse_hyphens s'
                     else c :: collapse_hyphens s'
        | [] => [c]
        end
      else c :: collapse_hyphens s'
  end.

(** The characters [.Trim('-', '/', '.')] removes. *)
Definition trimmed (c : ascii) : bool :=
  is_char 45 c || is_char 47 c || is_char 46 c.

Fixpoint TrimStart (s : text) : text :=
  match s with
  | [] => []
  | c :: s' => if trimmed c then TrimStart s' else s
  end.

Fixpoint TrimEnd (s : text) : text :=
  match s with
  | [] => []
  | c :: s' =>
      match TrimEnd s' with
      | [] => if trimmed c then [] else [c]
      | kept => c :: kept
      end
  end.

Definition Trim (s : text) : text := TrimEnd (TrimStart s).

(** [$repoName], from [$RepositoryNamespace] and the folder's [$name]. *)
Definition repoName (RepositoryNamespace name : text) : text :=
  let repoNameRaw :=
    if IsNullOrWhiteSpace RepositoryNamespace then name
    else (RepositoryNamespace ++ "/"%char :: name)%list in
  let replaced := replace_disallowed (ToLower repoNameRaw) in
  Trim (collapse_hyphens replaced).

(** No hyphen is followed by a hyphen. *)
Fixpoint single_hyphens (s : text) : bool :=
  match s with
  | c :: (c' :: _) as s' =>
      negb (is_hyphen c && is_hyphen c') && single_hyphens s'
  | _ => true
  end.

End BuildAndPush.


(** An answer that refuses the request: an error with one of the three
    error statuses of the handlers. *)
Definition refusal (r : Response.t) : Prop :=
  exists message statusCode,
    r = responseHelper.error message statusCode
    /\ (statusCode = 400 \/ statusCode = 404 \/ statusCode = 500).

(** The attributes of an object are among those of a note, each once. *)
Definition note_shaped (o : Obj) : Prop :=
  NoDup (keys o) /\ forall k, In k (keys o) -> In k note_keys.

(** Every item of the table is one the invocations of [h] may have left. *)
Definition table_of (h : list Invocation) (db : Table) : Prop :=
  forall id item, db !! id = Some item -> stored_by h id item.

(** Splits a conjunction into its parts, and nothing else. *)
Ltac conjuncts := repeat match goal with |- _ /\ _ => split end.

(** Decides the conditionals of the goal, one after the other. *)
Ltac leaves :=
  repeat match goal with
         | |- context [if ?b then _ else _] => destruct b
         end;
  cbn; try exact I.

(** * Properties *)

(** ** The serialiser on small inputs *)

Example stringify_error_body :
  JSON_stringify (JObj [("error", JStr "Note not found")])
  = Some ("{" ++ String dquote "error" ++ String dquote ":"
          ++ String dquote "Note not found" ++ String dquote "}").
Proof. reflexivity. Qed.

Example stringify_skips_undefined :
  JSON_stringify (JObj [("a", JUndefined); ("n", JNum (-12));
                        ("l", JArr [JNull; JUndefined; JBool true])])
  = Some ("{" ++ String dquote "n" ++ String dquote ":-12,"
          ++ String dquote "l" ++ String dquote ":[null,null,true]}").
Proof. reflexivity. Qed.

Example escape_control_characters :
  escape (String "010"%char (String "001"%char (String dquote "")))
  = String backslash "n" ++ String backslash "u0001"
    ++ String backslash (String dquote "").
Proof. reflexivity. Qed.

Example stringify_top_level_undefined : JSON_stringify JUndefined = None.
Proof. reflexivity. Qed.

Example truthy_values :
  map truthy [JStr ""; JStr "   "; JNum 0; JNum 5; JNull; JObj []; JArr []]
  = [false; true; false; true; false; true; true].
Proof. reflexivity. Qed.

(** ** Reading object literals *)

Lemma obj_get_absent (k : string) (o : Obj) :
  ~ In k (keys o) -> obj_get k o = JUndefined.
Proof.
  induction o as [|[k' v] o IH]; simpl; intros Hk; [reflexivity|].
  destruct (String.eqb_spec k' k) as [->|Hne].
  - exfalso. apply Hk. now left.
  - apply IH. intros Hin. apply Hk. now right.
Qed.

Lemma eqb_OPTIONS (event : Event.t) :
  Event.httpMethod event <> "OPTIONS" ->
  String.eqb (Event.httpMethod event) "OPTIONS" = false.
Proof. intros H. now apply String.eqb_neq. Qed.

Lemma path_id_nonempty (event : Event.t) (id : string) :
  Event.path_id event = Some id -> id <> "".
Proof.
  unfold Event.path_id.
  destruct (Event.pathParameters event) as [params|]; [|discriminate].
  destruct (params !! "id") as [id'|]; [|discriminate].
  destruct (String.eqb_spec id' "") as [|Hne]; [discriminate|].
  intros [= <-]. exact Hne.
Qed.

(** ** The limits of the sample store *)

Example limits_of_a_key :
  limits (Get Sample.long_id) ∅ = Some key_too_long
  /\ limits (Get (Sample.letters 2048)) ∅ = None
  /\ limits (Delete "") ∅ <> None.
Proof. split; [|split]; vm_compute; [reflexivity|reflexivity|discriminate]. Qed.

Example limits_of_a_number :
  limits (Put [("id", JStr "n"); ("title", JNum 9007199254740991)]) ∅ = None
  /\ limits (Put [("id", JStr "n"); ("title", JNum 9007199254740992)]) ∅
     = Some "Number 9007199254740992 is greater than Number.MAX_SAFE_INTEGER. Use BigInt.".
Proof. split; vm_compute; reflexivity. Qed.

Lemma utf8_size_letters (n : N) : utf8_size (Sample.letters n) = n.
Proof.
  unfold Sample.letters. induction n as [|n IH] using N.peano_ind.
  - reflexivity.
  - rewrite N.iter_succ. cbn [utf8_size]. rewrite IH.
    change (N_of_ascii "a" <? 128)%N with true. cbv iota. lia.
Qed.

(** ** One invocation served on its own *)

Lemma serve_bind {A B} (rejects : Rejects) (c : Prog A) (k : A -> Prog B)
    (db : Table) :
  serve rejects (bind c k) db
  = match serve rejects c db with
    | (Ok a, db') => serve rejects (k a) db'
    | (Throw message, db') => (Throw message, db')
    end.
Proof.
  revert db.
  induction c as [a|message|id k0 IH|Item k0 IH|id sets k0 IH|id k0 IH|k0 IH];
    intros db; cbn [bind serve]; try reflexivity.
  - destruct (send_get rejects id db) as [r db']. apply IH.
  - destruct (send_put rejects Item db) as [r db']. apply IH.
  - destruct (send_update rejects id sets db) as [r db']. apply IH.
  - destruct (send_delete rejects id db) as [r db']. apply IH.
  - destruct (send_scan rejects db) as [r db']. apply IH.
Qed.

Lemma serve_try_catch {A} (rejects : Rejects) (c : Prog A)
    (handle : string -> Prog A) (db : Table) :
  serve rejects (try_catch c handle) db
  = match serve rejects c db with
    | (Ok a, db') => (Ok a, db')
    | (Throw message, db') => serve rejects (handle message) db'
    end.
Proof.
  revert db.
  induction c as [a|message|id k0 IH|Item k0 IH|id sets k0 IH|id k0 IH|k0 IH];
    intros db; cbn [try_catch serve]; try reflexivity.
  - destruct (send_get rejects id db) as [r db']. apply IH.
  - destruct (send_put rejects Item db) as [r db']. apply IH.
  - destruct (send_update rejects id sets db) as [r db']. apply IH.
  - destruct (send_delete rejects id db) as [r db']. apply IH.
  - destruct (send_scan rejects db) as [r db']. apply IH.
Qed.

Lemma serve_GetCommand (rejects : Rejects) (id : string) (db : Table) :
  serve rejects (GetCommand id) db
  = match rejects (Get id) db with
    | Some message => (Throw message, db)
    | None => (Ok (db !! id), db)
    end.
Proof.
  unfold GetCommand. cbn [serve]. unfold send_get, send.
  destruct (rejects (Get id) db); reflexivity.
Qed.

Lemma serve_DeleteCommand (rejects : Rejects) (id : string) (db : Table) :
  serve rejects (DeleteCommand id) db
  = match rejects (Delete id) db with
    | Some message => (Throw message, db)
    | None => (Ok tt, delete id db)
    end.
Proof.
  unfold DeleteCommand. cbn [serve]. unfold send_delete, send.
  destruct (rejects (Delete id) db); reflexivity.
Qed.

Lemma serve_UpdateCommand (rejects : Rejects) (id : string) (sets : Obj)
    (db : Table) :
  serve rejects (UpdateCommand id sets) db
  = match rejects (Update id sets) db with
    | Some message => (Throw message, db)
    | None =>
        let Key : Obj := [("id", JStr id)] in
        let Attributes := spread sets (default Key (db !! id)) in
        (Ok Attributes, <[id := Attributes]> db)
    end.
Proof.
  unfold UpdateCommand. cbn [serve]. unfold send_update, send.
  destruct (rejects (Update id sets) db); reflexivity.
Qed.

Lemma serve_ScanCommand (rejects : Rejects) (db : Table) :
  serve rejects ScanCommand db
  = match rejects Scan db with
    | Some message => (Throw message, db)
    | None => (Ok (map snd (map_to_list db)), db)
    end.
Proof.
  unfold ScanCommand. cbn [serve]. unfold send_scan, send.
  destruct (rejects Scan db); reflexivity.
Qed.

(** The put of a note, whose key is its [id]. *)
Lemma serve_PutCommand (rejects : Rejects) (id : string) (Item : Obj)
    (db : Table) :
  obj_get "id" Item = JStr id ->
  serve rejects (PutCommand Item) db
  = match rejects (Put Item) db with
    | Some message => (Throw message, db)
    | None => (Ok tt, <[id := Item]> db)
    end.
Proof.
  intros Hid. unfold PutCommand. cbn [serve]. unfold send_put, send.
  rewrite Hid. destruct (rejects (Put Item) db); reflexivity.
Qed.

(** *** The services *)

Lemma serve_getNoteById (rejects : Rejects) (id : string) (db : Table) :
  id <> "" ->
  serve rejects (NoteById.getNoteById id) db
  = match rejects (Get id) db with
    | Some message => (Throw message, db)
    | None =>
        (Ok (match (db !! id : option Obj) with Some item => JObj item | None => JNull end),
         db)
    end.
Proof.
  intros Hid. unfold NoteById.getNoteById.
  apply String.eqb_neq in Hid. rewrite Hid.
  rewrite serve_bind, serve_GetCommand.
  destruct (rejects (Get id) db); reflexivity.
Qed.

Lemma serve_deleteNote (rejects : Rejects) (id : string) (db : Table) :
  id <> "" ->
  serve rejects (DeleteNote.deleteNote id) db
  = match rejects (Get id) db with
    | Some message => (Throw message, db)
    | None =>
        match (db !! id : option Obj) with
        | None => (Throw "Note not found", db)
        | Some _ =>
            match rejects (Delete id) db with
            | Some message => (Throw message, db)
            | None => (Ok tt, delete id db)
            end
        end
    end.
Proof.
  intros Hid. unfold DeleteNote.deleteNote, DeleteNote.noteExists.
  apply String.eqb_neq in Hid. rewrite Hid.
  rewrite !serve_bind, serve_GetCommand.
  destruct (rejects (Get id) db); [reflexivity|].
  destruct (db !! id); cbn [serve ret negb]; [|reflexivity].
  apply serve_DeleteCommand.
Qed.

Lemma serve_createNote (rejects : Rejects) (rt : Runtime)
    (noteData : JSValue) (db : Table) :
  serve rejects (CreateNote.createNote rt noteData) db
  = match destructure_title_content "noteData" noteData with
    | Throw message => (Throw message, db)
    | Ok (title, content) =>
        if truthy title then
          let newNote :=
            note_of (uuidv4 rt) title
              (if truthy content then content else JStr "")
              (toISOString rt) (toISOString rt) in
          match rejects (Put newNote) db with
          | Some message => (Throw message, db)
          | None => (Ok newNote, <[uuidv4 rt := newNote]> db)
          end
        else (Throw "Title is required", db)
    end.
Proof.
  unfold CreateNote.createNote.
  destruct (destructure_title_content "noteData" noteData)
    as [[title content]|message]; [|reflexivity].
  destruct (truthy title); cbn [negb]; [|reflexivity].
  cbv zeta. rewrite serve_bind.
  rewrite (serve_PutCommand rejects (uuidv4 rt)) by reflexivity.
  unfold note_of. destruct (rejects _ db); reflexivity.
Qed.

Lemma serve_updateNote (rejects : Rejects) (rt : Runtime) (id : string)
    (updateData : JSValue) (db : Table) :
  id <> "" ->
  serve rejects (UpdateNote.updateNote rt id updateData) db
  = match rejects (Get id) db with
    | Some message => (Throw message, db)
    | None =>
        match (db !! id : option Obj) with
        | None => (Throw "Note not found", db)
        | Some item =>
            match destructure_title_content "updateData" updateData with
            | Throw message => (Throw message, db)
            | Ok (title, content) =>
                if negb (truthy title) && is_undefined content then
                  (Throw UpdateNote.no_field_message, db)
                else
                  let sets := UpdateNote.update_sets rt title content in
                  match rejects (Update id sets) db with
                  | Some message => (Throw message, db)
                  | None =>
                      (Ok (spread sets item), <[id := spread sets item]> db)
                  end
            end
        end
    end.
Proof.
  intros Hid. unfold UpdateNote.updateNote, UpdateNote.noteExists.
  apply String.eqb_neq in Hid. rewrite Hid.
  rewrite !serve_bind, serve_GetCommand.
  destruct (rejects (Get id) db); [reflexivity|].
  destruct (db !! id) as [item|] eqn:Hitem; cbn [serve ret negb];
    [|reflexivity].
  destruct (destructure_title_content "updateData" updateData)
    as [[title content]|message]; [|reflexivity].
  destruct (negb (truthy title) && is_undefined content); [reflexivity|].
  rewrite serve_UpdateCommand, Hitem. reflexivity.
Qed.

(** *** The handlers, branch by branch *)

Lemma serve_NoteById (rejects : Rejects) (event : Event.t) (db : Table) :
  serve rejects (NoteById.handler event) db
  = if String.eqb (Event.httpMethod event) "OPTIONS" then
      (Ok responseHelper.cors, db)
    else
      match Event.path_id event with
      | None => (Ok (responseHelper.error "Note ID is required" 400), db)
      | Some id =>
          match rejects (Get id) db with
          | Some message =>
              (Ok (if String.eqb message "Note ID is required"
                   then responseHelper.error message 400
                   else responseHelper.error message 500), db)
          | None =>
              match (db !! id : option Obj) with
              | Some item => (Ok (responseHelper.success (JObj item) 200), db)
              | None => (Ok (responseHelper.error "Note not found" 404), db)
              end
          end
      end.
Proof.
  unfold NoteById.handler.
  destruct (String.eqb (Event.httpMethod event) "OPTIONS"); [reflexivity|].
  destruct (Event.path_id event) as [id|] eqn:Hp; [|reflexivity].
  pose proof (path_id_nonempty _ _ Hp) as Hid.
  rewrite serve_try_catch, serve_bind, (serve_getNoteById _ _ _ Hid).
  destruct (rejects (Get id) db) as [message|].
  - destruct (String.eqb message "Note ID is required"); reflexivity.
  - destruct (db !! id); reflexivity.
Qed.

Lemma serve_DeleteNote (rejects : Rejects) (event : Event.t) (db : Table) :
  serve rejects (DeleteNote.handler event) db
  = if String.eqb (Event.httpMethod event) "OPTIONS" then
      (Ok responseHelper.cors, db)
    else
      match Event.path_id event with
      | None => (Ok (responseHelper.error "Note ID is required" 400), db)
      | Some id =>
          let failed message :=
            if String.eqb message "Note ID is required" then
              responseHelper.error message 400
            else if String.eqb message "Note not found" then
              responseHelper.error message 404
            else responseHelper.error message 500 in
          match rejects (Get id) db with
          | Some message => (Ok (failed message), db)
          | None =>
              match (db !! id : option Obj) with
              | None => (Ok (responseHelper.error "Note not found" 404), db)
              | Some _ =>
                  match rejects (Delete id) db with
                  | Some message => (Ok (failed message), db)
                  | None =>
                      (Ok (responseHelper.success
                             (JObj [("message",
                                     JStr "Note deleted successfully")]) 204),
                       delete id db)
                  end
              end
          end
      end.
Proof.
  unfold DeleteNote.handler.
  destruct (String.eqb (Event.httpMethod event) "OPTIONS"); [reflexivity|].
  destruct (Event.path_id event) as [id|] eqn:Hp; [|reflexivity].
  pose proof (path_id_nonempty _ _ Hp) as Hid. cbv zeta.
  rewrite serve_try_catch, serve_bind, (serve_deleteNote _ _ _ Hid).
  destruct (rejects (Get id) db) as [message|].
  - destruct (String.eqb message "Note ID is required");
      [|destruct (String.eqb message "Note not found")]; reflexivity.
  - destruct (db !! id); [|reflexivity].
    destruct (rejects (Delete id) db) as [message|]; [|reflexivity].
    destruct (String.eqb message "Note ID is required");
      [|destruct (String.eqb message "Note not found")]; reflexivity.
Qed.

Lemma serve_CreateNote (rejects : Rejects)
    (JSON_parse : string -> option JSValue) (rt : Runtime)
    (event : Event.t) (db : Table) :
  serve rejects (CreateNote.handler JSON_parse rt event) db
  = if String.eqb (Event.httpMethod event) "OPTIONS" then
      (Ok responseHelper.cors, db)
    else
      match Event.present_body event with
      | None => (Ok (responseHelper.error "Request body is missing" 400), db)
      | Some text =>
          match JSON_parse text with
          | None =>
              (Ok (responseHelper.error "Invalid JSON in request body" 400),
               db)
          | Some requestBody =>
              match serve rejects (CreateNote.createNote rt requestBody) db with
              | (Ok newNote, db') =>
                  (Ok (responseHelper.success (JObj newNote) 201), db')
              | (Throw message, db') =>
                  (Ok (if String.eqb message "Title is required"
                       then responseHelper.error message 400
                       else responseHelper.error message 500), db')
              end
          end
      end.
Proof.
  unfold CreateNote.handler.
  destruct (String.eqb (Event.httpMethod event) "OPTIONS"); [reflexivity|].
  destruct (Event.present_body event) as [text|]; [|reflexivity].
  destruct (JSON_parse text) as [requestBody|]; [|reflexivity].
  rewrite serve_try_catch, serve_bind.
  destruct (serve rejects (CreateNote.createNote rt requestBody) db)
    as [[newNote|message] db']; [reflexivity|].
  destruct (String.eqb message "Title is required"); reflexivity.
Qed.

Lemma serve_UpdateNote (rejects : Rejects)
    (JSON_parse : string -> option JSValue) (rt : Runtime)
    (event : Event.t) (db : Table) :
  serve rejects (UpdateNote.handler JSON_parse rt event) db
  = if String.eqb (Event.httpMethod event) "OPTIONS" then
      (Ok responseHelper.cors, db)
    else
      match Event.path_id event with
      | None => (Ok (responseHelper.error "Note ID is required" 400), db)
      | Some id =>
          match Event.present_body event with
          | None =>
              (Ok (responseHelper.error "Request body is missing" 400), db)
          | Some text =>
              match JSON_parse text with
              | None =>
                  (Ok (responseHelper.error "Invalid JSON in request body" 400),
                   db)
              | Some requestBody =>
                  match serve rejects (UpdateNote.updateNote rt id requestBody)
                          db with
                  | (Ok updatedNote, db') =>
                      (Ok (responseHelper.success (JObj updatedNote) 200), db')
                  | (Throw message, db') =>
                      (Ok (if String.eqb message "Note ID is required" then
                             responseHelper.error message 400
                           else if String.eqb message "Note not found" then
                             responseHelper.error message 404
                           else if String.eqb message
                                     UpdateNote.no_field_message then
                             responseHelper.error message 400
                           else responseHelper.error message 500), db')
                  end
              end
          end
      end.
Proof.
  unfold UpdateNote.handler.
  destruct (String.eqb (Event.httpMethod event) "OPTIONS"); [reflexivity|].
  destruct (Event.path_id event) as [id|]; [|reflexivity].
  destruct (Event.present_body event) as [text|]; [|reflexivity].
  destruct (JSON_parse text) as [requestBody|]; [|reflexivity].
  rewrite serve_try_catch, serve_bind.
  destruct (serve rejects (UpdateNote.updateNote rt id requestBody) db)
    as [[updatedNote|message] db']; [reflexivity|].
  destruct (String.eqb message "Note ID is required");
    [|destruct (String.eqb message "Note not found");
      [|destruct (String.eqb message UpdateNote.no_field_message)]];
    reflexivity.
Qed.

Lemma serve_GetAllNotes (rejects : Rejects) (event : Event.t) (db : Table) :
  serve rejects (GetAllNotes.handler event) db
  = match rejects Scan db with
    | None =>
        (Ok {| Response.statusCode := 200;
               Response.headers := responseHelper.cors_headers;
               Response.body :=
                 JSON_stringify (JArr (map JObj (map snd (map_to_list db)))) |},
         db)
    | Some message => (Ok (responseHelper.error message 500), db)
    end.
Proof.
  unfold GetAllNotes.handler.
  rewrite serve_try_catch, serve_bind, serve_ScanCommand.
  destruct (rejects Scan db); reflexivity.
Qed.

(** ** The shape of the answers *)

Lemma refusal_error (message : string) (statusCode : Z) :
  statusCode = 400 \/ statusCode = 404 \/ statusCode = 500 ->
  refusal (responseHelper.error message statusCode).
Proof. intros H. exists message, statusCode. split; [reflexivity|exact H]. Qed.

Lemma refusal_if (b : bool) (r1 r2 : Response.t) :
  refusal r1 -> refusal r2 -> refusal (if b then r1 else r2).
Proof. now destruct b. Qed.

Create HintDb answers.
#[local] Hint Resolve refusal_error refusal_if : answers.

Lemma NoteById_outcome (rejects : Rejects) (event : Event.t) (db : Table) :
  exists r,
    serve rejects (NoteById.handler event) db = (Ok r, db)
    /\ (r = responseHelper.cors
        \/ refusal r
        \/ exists id item,
             Event.path_id event = Some id
             /\ db !! id = Some item
             /\ r = responseHelper.success (JObj item) 200).
Proof.
  rewrite serve_NoteById.
  destruct (String.eqb (Event.httpMethod event) "OPTIONS"); [eauto|].
  destruct (Event.path_id event) as [id|] eqn:Hp.
  2: { eexists. split; [reflexivity|]. right. left. auto with answers. }
  destruct (rejects (Get id) db) as [message|].
  { eexists. split; [reflexivity|]. right. left. auto with answers. }
  destruct (db !! id) as [item|] eqn:Hitem.
  - eexists. split; [reflexivity|]. right. right. eauto.
  - eexists. split; [reflexivity|]. right. left. auto with answers.
Qed.

Lemma DeleteNote_outcome (rejects : Rejects) (event : Event.t) (db : Table) :
  (exists r, serve rejects (DeleteNote.handler event) db = (Ok r, db)
             /\ (r = responseHelper.cors \/ refusal r))
  \/ exists id item,
       Event.path_id event = Some id
       /\ db !! id = Some item
       /\ serve rejects (DeleteNote.handler event) db
          = (Ok (responseHelper.success
                   (JObj [("message", JStr "Note deleted successfully")]) 204),
             delete id db).
Proof.
  rewrite serve_DeleteNote.
  destruct (String.eqb (Event.httpMethod event) "OPTIONS"); [eauto|].
  destruct (Event.path_id event) as [id|] eqn:Hp.
  2: { left. eexists. split; [reflexivity|]. right. auto with answers. }
  cbv zeta.
  destruct (rejects (Get id) db) as [message|].
  { left. eexists. split; [reflexivity|]. right. auto 6 with answers. }
  destruct (db !! id) as [item|] eqn:Hitem.
  2: { left. eexists. split; [reflexivity|]. right. auto with answers. }
  destruct (rejects (Delete id) db) as [message|].
  { left. eexists. split; [reflexivity|]. right. auto 6 with answers. }
  right. eauto.
Qed.

Lemma CreateNote_outcome (rejects : Rejects)
    (JSON_parse : string -> option JSValue)
    (rt : Runtime) (event : Event.t) (db : Table) :
  (exists r, serve rejects (CreateNote.handler JSON_parse rt event) db
             = (Ok r, db)
             /\ (r = responseHelper.cors \/ refusal r))
  \/ exists title content,
       let newNote :=
         note_of (uuidv4 rt) title content (toISOString rt) (toISOString rt) in
       rejects (Put newNote) db = None
       /\ serve rejects (CreateNote.handler JSON_parse rt event) db
          = (Ok (responseHelper.success (JObj newNote) 201),
             <[uuidv4 rt := newNote]> db).
Proof.
  rewrite serve_CreateNote.
  destruct (String.eqb (Event.httpMethod event) "OPTIONS"); [eauto|].
  destruct (Event.present_body event) as [text|].
  2: { left. eexists. split; [reflexivity|]. right. auto with answers. }
  destruct (JSON_parse text) as [requestBody|].
  2: { left. eexists. split; [reflexivity|]. right. auto with answers. }
  rewrite serve_createNote.
  destruct (destructure_title_content "noteData" requestBody)
    as [[title content]|message].
  2: { left. eexists. split; [reflexivity|]. right. auto with answers. }
  destruct (truthy title).
  2: { left. eexists. split; [reflexivity|]. right. cbn.
       auto with answers. }
  cbv zeta.
  destruct (rejects (Put _) db) as [message|] eqn:Hput.
  { left. eexists. split; [reflexivity|]. right. auto with answers. }
  right. exists title, (if truthy content then content else JStr "").
  split; [exact Hput|reflexivity].
Qed.

Lemma UpdateNote_outcome (rejects : Rejects)
    (JSON_parse : string -> option JSValue)
    (rt : Runtime) (event : Event.t) (db : Table) :
  (exists r, serve rejects (UpdateNote.handler JSON_parse rt event) db
             = (Ok r, db)
             /\ (r = responseHelper.cors \/ refusal r))
  \/ exists id item title content,
       let updatedNote :=
         spread (UpdateNote.update_sets rt title content) item in
       Event.path_id event = Some id
       /\ db !! id = Some item
       /\ serve rejects (UpdateNote.handler JSON_parse rt event) db
          = (Ok (responseHelper.success (JObj updatedNote) 200),
             <[id := updatedNote]> db).
Proof.
  rewrite serve_UpdateNote.
  destruct (String.eqb (Event.httpMethod event) "OPTIONS"); [eauto|].
  destruct (Event.path_id event) as [id|] eqn:Hp.
  2: { left. eexists. split; [reflexivity|]. right. auto with answers. }
  destruct (Event.present_body event) as [text|].
  2: { left. eexists. split; [reflexivity|]. right. auto with answers. }
  destruct (JSON_parse text) as [requestBody|].
  2: { left. eexists. split; [reflexivity|]. right. auto with answers. }
  rewrite (serve_updateNote _ _ _ _ _ (path_id_nonempty _ _ Hp)).
  destruct (rejects (Get id) db) as [message|].
  { left. eexists. split; [reflexivity|]. right. auto 8 with answers. }
  destruct (db !! id) as [item|] eqn:Hitem.
  2: { left. eexists. split; [reflexivity|]. right. cbn. auto with answers. }
  destruct (destructure_title_content "updateData" requestBody)
    as [[title content]|message].
  2: { left. eexists. split; [reflexivity|]. right. auto 8 with answers. }
  destruct (negb (truthy title) && is_undefined content).
  { left. eexists. split; [reflexivity|]. right. cbn. auto with answers. }
  cbv zeta.
  destruct (rejects (Update id _) db) as [message|].
  { left. eexists. split; [reflexivity|]. right. auto 8 with answers. }
  right. exists id, item, title, content. auto.
Qed.

Lemma GetAllNotes_outcome (rejects : Rejects) (event : Event.t) (db : Table) :
  exists r,
    serve rejects (GetAllNotes.handler event) db = (Ok r, db)
    /\ (refusal r
        \/ rejects Scan db = None
           /\ r = {| Response.statusCode := 200;
                     Response.headers := responseHelper.cors_headers;
                     Response.body :=
                       JSON_stringify
                         (JArr (map JObj (map snd (map_to_list db)))) |}).
Proof.
  rewrite serve_GetAllNotes.
  destruct (rejects Scan db) as [message|].
  - eexists. split; [reflexivity|]. left. auto with answers.
  - eexists. split; [reflexivity|]. right. auto.
Qed.

(** An update request that is not the preflight is not answered with the
    preflight answer. *)
Lemma UpdateNote_request_outcome (rejects : Rejects)
    (JSON_parse : string -> option JSValue)
    (rt : Runtime) (event : Event.t) (db : Table) :
  Event.httpMethod event <> "OPTIONS" ->
  (exists r, serve rejects (UpdateNote.handler JSON_parse rt event) db
             = (Ok r, db) /\ refusal r)
  \/ exists id item title content,
       let updatedNote :=
         spread (UpdateNote.update_sets rt title content) item in
       Event.path_id event = Some id
       /\ db !! id = Some item
       /\ serve rejects (UpdateNote.handler JSON_parse rt event) db
          = (Ok (responseHelper.success (JObj updatedNote) 200),
             <[id := updatedNote]> db).
Proof.
  intros Hm. apply eqb_OPTIONS in Hm.
  rewrite serve_UpdateNote, Hm.
  destruct (Event.path_id event) as [id|] eqn:Hp.
  2: { left. eexists. split; [reflexivity|]. auto with answers. }
  destruct (Event.present_body event) as [text|].
  2: { left. eexists. split; [reflexivity|]. auto with answers. }
  destruct (JSON_parse text) as [requestBody|].
  2: { left. eexists. split; [reflexivity|]. auto with answers. }
  rewrite (serve_updateNote _ _ _ _ _ (path_id_nonempty _ _ Hp)).
  destruct (rejects (Get id) db) as [message|].
  { left. eexists. split; [reflexivity|]. auto 8 with answers. }
  destruct (db !! id) as [item|] eqn:Hitem.
  2: { left. eexists. split; [reflexivity|]. cbn. auto with answers. }
  destruct (destructure_title_content "updateData" requestBody)
    as [[title content]|message].
  2: { left. eexists. split; [reflexivity|]. auto 8 with answers. }
  destruct (negb (truthy title) && is_undefined content).
  { left. eexists. split; [reflexivity|]. cbn. auto with answers. }
  cbv zeta.
  destruct (rejects (Update id _) db) as [message|].
  { left. eexists. split; [reflexivity|]. auto 8 with answers. }
  right. exists id, item, title, content. auto.
Qed.

Lemma refusal_status (r : Response.t) :
  refusal r -> 400 <= Response.statusCode r.
Proof. intros (message & code & -> & [ -> | [ -> | -> ] ]); cbn; lia. Qed.

Lemma refusal_not_success (r : Response.t) (statusCode : Z) :
  statusCode < 400 -> refusal r -> Response.statusCode r <> statusCode.
Proof. intros Hlt Hr. apply refusal_status in Hr. lia. Qed.

Lemma refusal_carries_no_note (r : Response.t) :
  refusal r -> carries_no_note r.
Proof. intros (message & code & -> & _). right. eauto. Qed.

Lemma answer_is_well_formed (r : Response.t) :
  (r = responseHelper.cors \/ refusal r
   \/ exists o statusCode, r = responseHelper.success (JObj o) statusCode) ->
  obj_get "Access-Control-Allow-Origin" (Response.headers r) = JStr "*"
  /\ obj_get "Access-Control-Allow-Credentials" (Response.headers r)
     = JBool true
  /\ exists text, Response.body r = Some text.
Proof.
  intros [->|[(message & code & -> & _)|(o & code & ->)]];
    (conjuncts; [reflexivity|reflexivity|eexists; reflexivity]).
Qed.

(** *** What one invocation does to the table *)

Lemma NoteById_table (rejects : Rejects) (event : Event.t) (db : Table) :
  snd (serve rejects (NoteById.handler event) db) = db.
Proof. now destruct (NoteById_outcome rejects event db) as (r & -> & _). Qed.

Lemma DeleteNote_table (rejects : Rejects) (event : Event.t) (db : Table) :
  snd (serve rejects (DeleteNote.handler event) db) = db
  \/ exists id, snd (serve rejects (DeleteNote.handler event) db) = delete id db.
Proof.
  destruct (DeleteNote_outcome rejects event db)
    as [(r & -> & _)|(id & item & _ & _ & ->)]; eauto.
Qed.

Lemma CreateNote_table (rejects : Rejects)
    (JSON_parse : string -> option JSValue)
    (rt : Runtime) (event : Event.t) (db : Table) :
  snd (serve rejects (CreateNote.handler JSON_parse rt event) db) = db
  \/ exists title content,
       snd (serve rejects (CreateNote.handler JSON_parse rt event) db)
       = <[uuidv4 rt := note_of (uuidv4 rt) title content
                          (toISOString rt) (toISOString rt)]> db.
Proof.
  destruct (CreateNote_outcome rejects JSON_parse rt event db)
    as [(r & -> & _)|(title & content & _ & ->)]; eauto.
Qed.

Lemma UpdateNote_table (rejects : Rejects)
    (JSON_parse : string -> option JSValue)
    (rt : Runtime) (event : Event.t) (db : Table) :
  snd (serve rejects (UpdateNote.handler JSON_parse rt event) db) = db
  \/ exists id item title content,
       db !! id = Some item
       /\ snd (serve rejects (UpdateNote.handler JSON_parse rt event) db)
          = <[id := spread (UpdateNote.update_sets rt title content) item]> db.
Proof.
  destruct (UpdateNote_outcome rejects JSON_parse rt event db)
    as [(r & -> & _)|(id & item & title & content & _ & Hitem & ->)];
    [now left|right]. exists id, item, title, content. auto.
Qed.

(** ** Update and create on every object body *)

Lemma obj_get_set_eq (k : string) (v : JSValue) (o : Obj) :
  obj_get k (obj_set k v o) = v.
Proof.
  induction o as [|[k' v'] o IH]; cbn.
  - now rewrite String.eqb_refl.
  - destruct (String.eqb k' k) eqn:E; cbn.
    + now rewrite String.eqb_refl.
    + now rewrite E.
Qed.

Lemma obj_get_set_ne (k k' : string) (v : JSValue) (o : Obj) :
  k <> k' -> obj_get k' (obj_set k v o) = obj_get k' o.
Proof.
  intros Hne. induction o as [|[k0 v0] o IH]; cbn.
  - apply String.eqb_neq in Hne. now rewrite Hne.
  - destruct (String.eqb_spec k0 k) as [->|Hk0]; cbn.
    + apply String.eqb_neq in Hne. now rewrite Hne.
    + destruct (String.eqb k0 k'); [reflexivity|exact IH].
Qed.

Lemma update_sets_updatedAt (rt : Runtime) (title content : JSValue)
    (item : Obj) :
  obj_get "updatedAt" (spread (UpdateNote.update_sets rt title content) item)
  = JStr (toISOString rt).
Proof.
  unfold UpdateNote.update_sets, spread.
  destruct (is_undefined title), (is_undefined content);
    cbn [negb app fold_left fst snd];
    repeat (rewrite obj_get_set_ne by discriminate);
    apply obj_get_set_eq.
Qed.

Lemma update_sets_title (rt : Runtime) (title content : JSValue)
    (item : Obj) :
  obj_get "title" (spread (UpdateNote.update_sets rt title content) item)
  = if is_undefined title then obj_get "title" item else title.
Proof.
  unfold UpdateNote.update_sets, spread.
  destruct (is_undefined title), (is_undefined content);
    cbn [negb app fold_left fst snd];
    repeat (rewrite obj_get_set_ne by discriminate);
    try apply obj_get_set_eq; reflexivity.
Qed.

Lemma update_sets_content (rt : Runtime) (title content : JSValue)
    (item : Obj) :
  obj_get "content" (spread (UpdateNote.update_sets rt title content) item)
  = if is_undefined content then obj_get "content" item else content.
Proof.
  unfold UpdateNote.update_sets, spread.
  destruct (is_undefined title), (is_undefined content);
    cbn [negb app fold_left fst snd];
    repeat (rewrite obj_get_set_ne by discriminate);
    try apply obj_get_set_eq; reflexivity.
Qed.

Lemma update_sets_other (rt : Runtime) (title content : JSValue)
    (item : Obj) (k : string) :
  k <> "updatedAt" -> k <> "title" -> k <> "content" ->
  obj_get k (spread (UpdateNote.update_sets rt title content) item)
  = obj_get k item.
Proof.
  intros H1 H2 H3. unfold UpdateNote.update_sets, spread.
  destruct (is_undefined title), (is_undefined content);
    cbn [negb app fold_left fst snd];
    repeat (rewrite obj_get_set_ne by congruence); reflexivity.
Qed.

Lemma spread_update_sets (rt : Runtime) (title content : JSValue)
    (id : string) (t c : JSValue) (createdAt updatedAt : string) :
  spread (UpdateNote.update_sets rt title content)
    (note_of id t c createdAt updatedAt)
  = note_of id (if is_undefined title then t else title)
      (if is_undefined content then c else content)
      createdAt (toISOString rt).
Proof. destruct title, content; reflexivity. Qed.

Lemma truthy_nonempty (t : string) : t <> "" -> truthy (JStr t) = true.
Proof. intros H. cbn. apply String.eqb_neq in H. now rewrite H. Qed.

Lemma or_empty_string (c : string) :
  (if truthy (JStr c) then JStr c else JStr "") = JStr c.
Proof. destruct c; reflexivity. Qed.

(** ** Requests served one after the other *)

Lemma drawn_uuids_app (h h' : list Invocation) :
  drawn_uuids (h ++ h') = (drawn_uuids h ++ drawn_uuids h')%list.
Proof. apply omap_app. Qed.

Lemma clock_readings_app (h h' : list Invocation) :
  clock_readings (h ++ h') = (clock_readings h ++ clock_readings h')%list.
Proof. apply omap_app. Qed.

Lemma written_by_mono (h h' : list Invocation) (id : string) (item : Obj) :
  written_by h id item -> written_by (h ++ h') id item.
Proof.
  intros (title & content & c & u & -> & Hid & Hc & Hu).
  exists title, content, c, u.
  rewrite drawn_uuids_app, clock_readings_app.
  conjuncts; [reflexivity| | |]; apply in_or_app; now left.
Qed.

Lemma run_snoc (JSON_parse : string -> option JSValue) (rejects : Rejects)
    (h : list Invocation) (i : Invocation) (db : Table) :
  run JSON_parse rejects (h ++ [i]) db
  = snd (invoke JSON_parse rejects i (run JSON_parse rejects h db)).
Proof. unfold run. now rewrite fold_left_app. Qed.

Lemma invoke_written (JSON_parse : string -> option JSValue)
    (rejects : Rejects) (h : list Invocation) (i : Invocation) (db : Table) :
  (forall id item, db !! id = Some item -> written_by h id item) ->
  forall id item,
    snd (invoke JSON_parse rejects i db) !! id = Some item ->
    written_by (h ++ [i]) id item.
Proof.
  intros Hdb id item.
  destruct i as [rt event|rt event|event|event]; unfold invoke; cbn [program].
  - destruct (CreateNote_table rejects JSON_parse rt event db)
      as [->|(title & content & ->)].
    + intros H. apply written_by_mono, Hdb, H.
    + destruct (decide (uuidv4 rt = id)) as [<-|Hne].
      * rewrite lookup_insert_eq. intros [= <-].
        exists title, content, (toISOString rt), (toISOString rt).
        rewrite drawn_uuids_app, clock_readings_app.
        conjuncts; [reflexivity| | |]; apply in_or_app; right; now left.
      * rewrite lookup_insert_ne by exact Hne.
        intros H. apply written_by_mono, Hdb, H.
  - destruct (UpdateNote_table rejects JSON_parse rt event db)
      as [->|(id' & old & title & content & Hold & ->)].
    + intros H. apply written_by_mono, Hdb, H.
    + destruct (decide (id' = id)) as [<-|Hne].
      * rewrite lookup_insert_eq. intros H. apply (inj Some) in H.
        subst item.
        destruct (Hdb _ _ Hold) as (t & c & ca & ua & -> & Hid & Hca & _).
        rewrite spread_update_sets.
        eexists _, _, ca, (toISOString rt).
        rewrite drawn_uuids_app, clock_readings_app.
        conjuncts; [reflexivity| | |]; apply in_or_app;
          [now left|now left|right; now left].
      * rewrite lookup_insert_ne by exact Hne.
        intros H. apply written_by_mono, Hdb, H.
  - destruct (DeleteNote_table rejects event db) as [->|(id' & ->)].
    + intros H. apply written_by_mono, Hdb, H.
    + destruct (decide (id' = id)) as [<-|Hne].
      * now rewrite lookup_delete_eq.
      * rewrite lookup_delete_ne by exact Hne.
        intros H. apply written_by_mono, Hdb, H.
  - rewrite NoteById_table. intros H. apply written_by_mono, Hdb, H.
Qed.

Lemma run_written (JSON_parse : string -> option JSValue) (rejects : Rejects)
    (h : list Invocation) (id : string) (item : Obj) :
  run JSON_parse rejects h ∅ !! id = Some item -> written_by h id item.
Proof.
  revert id item. induction h as [|i h IH] using rev_ind; intros id item.
  - cbn. now rewrite lookup_empty.
  - rewrite run_snoc. apply invoke_written. exact IH.
Qed.

Lemma written_keys (h : list Invocation) (id : string) (item : Obj) :
  written_by h id item -> keys item = note_keys.
Proof. now intros (title & content & c & u & -> & _). Qed.

Lemma written_id (h : list Invocation) (id : string) (item : Obj) :
  written_by h id item -> obj_get "id" item = JStr id.
Proof. now intros (title & content & c & u & -> & _). Qed.

(** ** Requests served side by side *)

Lemma keys_obj_set (k : string) (v : JSValue) (o : Obj) :
  (In k (keys o) /\ keys (obj_set k v o) = keys o)
  \/ (~ In k (keys o) /\ keys (obj_set k v o) = (keys o ++ [k])%list).
Proof.
  unfold keys. induction o as [|[k' v'] o IH]; cbn.
  - right. split; [tauto|reflexivity].
  - destruct (String.eqb_spec k' k) as [->|Hne]; cbn.
    + left. split; [now left|reflexivity].
    + destruct IH as [[Hin ->]|[Hnot ->]].
      * left. split; [now right|reflexivity].
      * right. split; [|reflexivity]. intros [H|H]; [congruence|tauto].
Qed.

Lemma obj_set_note_shaped (k : string) (v : JSValue) (o : Obj) :
  In k note_keys -> note_shaped o -> note_shaped (obj_set k v o).
Proof.
  intros Hk [Hnd Hin].
  destruct (keys_obj_set k v o) as [[_ Heq]|[Hnot Heq]];
    unfold note_shaped; rewrite Heq.
  - split; assumption.
  - split.
    + apply NoDup_app. split; [exact Hnd|]. split.
      * intros x Hx Hx'. apply list_elem_of_In in Hx, Hx'.
        destruct Hx' as [<-|[]]. contradiction.
      * apply NoDup_singleton.
    + intros k' Hk'. apply in_app_or in Hk' as [Hk'|[<-|[]]]; auto.
Qed.

Lemma update_sets_note_shaped (rt : Runtime) (title content : JSValue)
    (o : Obj) :
  note_shaped o ->
  note_shaped (spread (UpdateNote.update_sets rt title content) o).
Proof.
  intros Ho. unfold UpdateNote.update_sets, spread.
  destruct (is_undefined title), (is_undefined content);
    cbn [negb app fold_left fst snd];
    repeat (apply obj_set_note_shaped; [cbn; tauto|]); exact Ho.
Qed.

Lemma NoDup_note_keys : NoDup note_keys.
Proof. apply (bool_decide_unpack _). vm_compute. exact I. Qed.

Lemma in_drawn_uuids (h : list Invocation) (rt : Runtime) (event : Event.t) :
  In (InvokeCreate rt event) h -> In (uuidv4 rt) (drawn_uuids h).
Proof.
  intros Hin. apply list_elem_of_In, list_elem_of_omap.
  exists (InvokeCreate rt event). split; [now apply list_elem_of_In|reflexivity].
Qed.

Lemma in_clock_readings_create (h : list Invocation) (rt : Runtime)
    (event : Event.t) :
  In (InvokeCreate rt event) h -> In (toISOString rt) (clock_readings h).
Proof.
  intros Hin. apply list_elem_of_In, list_elem_of_omap.
  exists (InvokeCreate rt event). split; [now apply list_elem_of_In|reflexivity].
Qed.

Lemma in_clock_readings_update (h : list Invocation) (rt : Runtime)
    (event : Event.t) :
  In (InvokeUpdate rt event) h -> In (toISOString rt) (clock_readings h).
Proof.
  intros Hin. apply list_elem_of_In, list_elem_of_omap.
  exists (InvokeUpdate rt event). split; [now apply list_elem_of_In|reflexivity].
Qed.

Lemma stored_by_create (h : list Invocation) (rt : Runtime) (event : Event.t)
    (title content : JSValue) :
  In (InvokeCreate rt event) h ->
  stored_by h (uuidv4 rt)
    (note_of (uuidv4 rt) title content (toISOString rt) (toISOString rt)).
Proof.
  intros Hin. unfold stored_by. conjuncts.
  - exact NoDup_note_keys.
  - intros k Hk. exact Hk.
  - reflexivity.
  - now apply in_drawn_uuids with event.
  - exists (toISOString rt). split; [reflexivity|].
    now apply in_clock_readings_create with event.
  - right. exists (toISOString rt). split; [reflexivity|].
    exists rt, event. auto.
Qed.

Lemma stored_by_update (h : list Invocation) (rt : Runtime) (event : Event.t)
    (title content : JSValue) (id : string) (item : Obj) :
  In (InvokeUpdate rt event) h ->
  stored_by h id item ->
  stored_by h id (spread (UpdateNote.update_sets rt title content) item).
Proof.
  intros Hin (Hnd & Hkeys & Hid & Hdrawn & _ & Hcreated).
  unfold stored_by.
  destruct (update_sets_note_shaped rt title content item (conj Hnd Hkeys))
    as [Hnd' Hkeys'].
  conjuncts; try assumption.
  - now rewrite update_sets_other by discriminate.
  - exists (toISOString rt). split; [apply update_sets_updatedAt|].
    now apply in_clock_readings_update with event.
  - now rewrite update_sets_other by discriminate.
Qed.

Lemma stored_by_upsert (h : list Invocation) (rt : Runtime) (event : Event.t)
    (title content : JSValue) (id : string) :
  In (InvokeUpdate rt event) h ->
  In id (drawn_uuids h) ->
  stored_by h id
    (spread (UpdateNote.update_sets rt title content) [("id", JStr id)]).
Proof.
  intros Hin Hdrawn. unfold stored_by.
  assert (Hkey : note_shaped [("id", JStr id)]).
  { split; [apply NoDup_singleton|]. intros k [<-|[]]. now left. }
  destruct (update_sets_note_shaped rt title content _ Hkey) as [Hnd' Hkeys'].
  conjuncts; try assumption.
  - now rewrite update_sets_other by discriminate.
  - exists (toISOString rt). split; [apply update_sets_updatedAt|].
    now apply in_clock_readings_update with event.
  - left. now rewrite update_sets_other by discriminate.
Qed.

Lemma advance_within (rejects : Rejects) (h : list Invocation)
    (c : Prog Response.t) (db : Table) :
  table_of h db -> sends_within h c ->
  table_of h (snd (advance rejects c db))
  /\ sends_within h (fst (advance rejects c db)).
Proof.
  intros Hdb Hc.
  destruct c as [a|message|id k|Item k|id sets k|id k|k]; cbn [advance];
    try (split; assumption).
  - unfold send_get, send.
    destruct (rejects (Get id) db) as [message|]; cbn [fst snd].
    + split; [exact Hdb|]. apply Hc. discriminate.
    + split; [exact Hdb|]. apply Hc. intros item [= Hitem].
      now destruct (Hdb _ _ Hitem) as (_ & _ & _ & Hdrawn & _).
  - destruct Hc as [(rt & event & title & content & Hin & ->) Hk].
    unfold send_put, send. cbn [note_of obj_get String.eqb Ascii.eqb Bool.eqb].
    destruct (rejects _ db) as [message|]; cbn [fst snd].
    + split; [exact Hdb|apply Hk].
    + split; [|apply Hk]. intros id item.
      destruct (decide (uuidv4 rt = id)) as [<-|Hne].
      * rewrite lookup_insert_eq. intros [= <-].
        now apply stored_by_create with event.
      * rewrite lookup_insert_ne by exact Hne. apply Hdb.
  - destruct Hc as (Hdrawn & (rt & event & title & content & Hin & ->) & Hk).
    unfold send_update, send.
    destruct (rejects _ db) as [message|]; cbn [fst snd].
    + split; [exact Hdb|apply Hk].
    + split; [|apply Hk]. intros id' item.
      destruct (decide (id = id')) as [<-|Hne].
      * rewrite lookup_insert_eq. intros [= <-].
        destruct (db !! id) as [old|] eqn:Hold; cbn [default].
        -- apply stored_by_update with event; [exact Hin|]. now apply Hdb.
        -- now apply stored_by_upsert with event.
      * rewrite lookup_insert_ne by exact Hne. apply Hdb.
  - unfold send_delete, send.
    destruct (rejects (Delete id) db) as [message|]; cbn [fst snd].
    + split; [exact Hdb|apply Hc].
    + split; [|apply Hc]. intros id' item.
      destruct (decide (id = id')) as [<-|Hne].
      * now rewrite lookup_delete_eq.
      * rewrite lookup_delete_ne by exact Hne. apply Hdb.
  - unfold send_scan, send.
    destruct (rejects Scan db) as [message|]; cbn [fst snd];
      (split; [exact Hdb|apply Hc]).
Qed.

Lemma interleave_within (rejects : Rejects) (h : list Invocation)
    (schedule : list nat) (pool : list (Prog Response.t)) (db : Table) :
  table_of h db -> Forall (sends_within h) pool ->
  table_of h (snd (interleave rejects schedule pool db))
  /\ Forall (sends_within h) (fst (interleave rejects schedule pool db)).
Proof.
  revert pool db.
  induction schedule as [|i schedule IH]; intros pool db Hdb Hpool;
    cbn [interleave]; [split; assumption|].
  destruct (pool !! i) as [c|] eqn:Hc; [|now apply IH].
  destruct (advance_within rejects h c db Hdb) as [Hdb' Hc'].
  { exact (proj1 (Forall_lookup _ _) Hpool i c Hc). }
  destruct (advance rejects c db) as [c' db']. cbn [fst snd] in *.
  apply IH; [exact Hdb'|]. now apply Forall_insert.
Qed.

Lemma program_sends_within (JSON_parse : string -> option JSValue)
    (h : list Invocation) (i : Invocation) :
  In i h -> sends_within h (program JSON_parse i).
Proof.
  intros Hin. destruct i as [rt event|rt event|event|event]; cbn [program].
  - unfold CreateNote.handler.
    destruct (String.eqb (Event.httpMethod event) "OPTIONS"); [exact I|].
    destruct (Event.present_body event) as [text|]; [|exact I].
    destruct (JSON_parse text) as [requestBody|]; [|exact I].
    unfold CreateNote.createNote.
    destruct (destructure_title_content "noteData" requestBody)
      as [[title content]|message]; [|cbn; leaves].
    destruct (truthy title); cbn; [|exact I].
    split.
    + exists rt, event, title, (if truthy content then content else JStr "").
      split; [exact Hin|reflexivity].
    + intros [[]|message]; cbn; leaves.
  - unfold UpdateNote.handler.
    destruct (String.eqb (Event.httpMethod event) "OPTIONS"); [exact I|].
    destruct (Event.path_id event) as [id|] eqn:Hp; [|exact I].
    destruct (Event.present_body event) as [text|]; [|exact I].
    destruct (JSON_parse text) as [requestBody|]; [|exact I].
    unfold UpdateNote.updateNote, UpdateNote.noteExists.
    pose proof (path_id_nonempty _ _ Hp) as Hid.
    apply String.eqb_neq in Hid. rewrite Hid. cbn.
    intros [[item|]|message] Hdrawn; cbn; [| exact I | leaves].
    destruct (destructure_title_content "updateData" requestBody)
      as [[title content]|message]; [|cbn; leaves].
    destruct (negb (truthy title) && is_undefined content); cbn; [exact I|].
    split; [now apply (Hdrawn item)|]. split.
    + exists rt, event, title, content. split; [exact Hin|reflexivity].
    + intros [updatedNote|message]; cbn; leaves.
  - unfold DeleteNote.handler.
    destruct (String.eqb (Event.httpMethod event) "OPTIONS"); [exact I|].
    destruct (Event.path_id event) as [id|] eqn:Hp; [|exact I].
    unfold DeleteNote.deleteNote, DeleteNote.noteExists.
    pose proof (path_id_nonempty _ _ Hp) as Hid.
    apply String.eqb_neq in Hid. rewrite Hid. cbn.
    intros [[item|]|message] _; cbn; [| exact I | leaves].
    intros [[]|message]; cbn; leaves.
  - unfold NoteById.handler.
    destruct (String.eqb (Event.httpMethod event) "OPTIONS"); [exact I|].
    destruct (Event.path_id event) as [id|] eqn:Hp; [|exact I].
    unfold NoteById.getNoteById.
    pose proof (path_id_nonempty _ _ Hp) as Hid.
    apply String.eqb_neq in Hid. rewrite Hid. cbn.
    intros [[item|]|message] _; cbn; leaves.
Qed.

(** However the invocations of a history overlap, the table they leave
    holds only what they may have stored. *)
Lemma overlap_stored (JSON_parse : string -> option JSValue)
    (rejects : Rejects) (schedule : list nat) (h : list Invocation)
    (id : string) (item : Obj) :
  snd (overlap JSON_parse rejects schedule h ∅) !! id = Some item ->
  stored_by h id item.
Proof.
  unfold overlap.
  destruct (interleave_within rejects h schedule
              (map (program JSON_parse) h) ∅) as [Hdb _].
  - intros id' item'. now rewrite lookup_empty.
  - apply Forall_fmap, Forall_forall. intros i Hi. cbn.
    apply program_sends_within. now apply list_elem_of_In.
  - apply Hdb.
Qed.

(** ** The existence pre-check *)

(** C1, as the code has it.  For an id that the table does not hold,
    the three id-addressed handlers answer 404 [Note not found] and leave
    the table as it is whenever the store serves the lookup: the get
    handler because the lookup yields no item, the delete and update
    handlers because their existence pre-check fails.  The update handler
    gets as far as the pre-check whenever its body parses, whatever the
    parsed value is.  When the store rejects the lookup, none of them
    answers 404: the rejection is caught and answered 500 with the
    message of the store. *)
Theorem C1_absent_id_is_not_found
    (rejects : Rejects) (JSON_parse : string -> option JSValue) (rt : Runtime)
    (event : Event.t) (id : string) (db : Table) :
  Event.httpMethod event <> "OPTIONS" ->
  Event.path_id event = Some id ->
  db !! id = None ->
  let not_found :=
    {| Response.statusCode := 404;
       Response.headers := responseHelper.cors_headers;
       Response.body :=
         JSON_stringify (JObj [("error", JStr "Note not found")]) |} in
  (rejects (Get id) db = None ->
   serve rejects (NoteById.handler event) db = (Ok not_found, db)
   /\ serve rejects (DeleteNote.handler event) db = (Ok not_found, db)
   /\ (forall updateData,
         serve rejects (UpdateNote.updateNote rt id updateData) db
         = (Throw "Note not found", db))
   /\ (forall text requestBody,
         Event.present_body event = Some text ->
         JSON_parse text = Some requestBody ->
         serve rejects (UpdateNote.handler JSON_parse rt event) db
         = (Ok not_found, db)))
  /\ (forall message,
        rejects (Get id) db = Some message ->
        message <> "Note ID is required" ->
        message <> "Note not found" ->
        message <> UpdateNote.no_field_message ->
        let failed :=
          {| Response.statusCode := 500;
             Response.headers := responseHelper.cors_headers;
             Response.body :=
               JSON_stringify (JObj [("error", JStr message)]) |} in
        serve rejects (NoteById.handler event) db = (Ok failed, db)
        /\ serve rejects (DeleteNote.handler event) db = (Ok failed, db)
        /\ (forall text requestBody,
              Event.present_body event = Some text ->
              JSON_parse text = Some requestBody ->
              serve rejects (UpdateNote.handler JSON_parse rt event) db
              = (Ok failed, db)))
  /\ Response.body not_found
     = Some ("{" ++ String dquote "error" ++ String dquote ":"
             ++ String dquote "Note not found" ++ String dquote "}").
Proof.
  intros Hm Hp Hdb not_found. pose proof (path_id_nonempty _ _ Hp) as Hid.
  apply eqb_OPTIONS in Hm.
  conjuncts.
  - intros Hget. conjuncts.
    + rewrite serve_NoteById, Hm, Hp, Hget, Hdb. reflexivity.
    + rewrite serve_DeleteNote, Hm, Hp. cbv zeta. rewrite Hget, Hdb.
      reflexivity.
    + intros updateData. rewrite (serve_updateNote _ _ _ _ _ Hid), Hget, Hdb.
      reflexivity.
    + intros text requestBody Hb Hparse.
      rewrite serve_UpdateNote, Hm, Hp, Hb, Hparse.
      rewrite (serve_updateNote _ _ _ _ _ Hid), Hget, Hdb. reflexivity.
  - intros message Hget H1 H2 H3 failed.
    apply String.eqb_neq in H1, H2, H3. conjuncts.
    + rewrite serve_NoteById, Hm, Hp, Hget, H1. reflexivity.
    + rewrite serve_DeleteNote, Hm, Hp. cbv zeta. rewrite Hget, H1, H2.
      reflexivity.
    + intros text requestBody Hb Hparse.
      rewrite serve_UpdateNote, Hm, Hp, Hb, Hparse.
      rewrite (serve_updateNote _ _ _ _ _ Hid), Hget, H1, H2, H3.
      reflexivity.
  - reflexivity.
Qed.

Lemma C1_absent_id_is_not_found_witness :
  let event := Sample.event "DELETE" (Some "no-such-note") (JObj []) in
  let not_found :=
    {| Response.statusCode := 404;
       Response.headers := responseHelper.cors_headers;
       Response.body :=
         Some ("{" ++ String dquote "error" ++ String dquote ":"
               ++ String dquote "Note not found" ++ String dquote "}") |} in
  Event.httpMethod event <> "OPTIONS"
  /\ Event.path_id event = Some "no-such-note"
  /\ Sample.db1 !! "no-such-note" = None
  /\ limits (Get "no-such-note") Sample.db1 = None
  /\ serve limits (NoteById.handler event) Sample.db1
     = (Ok not_found, Sample.db1)
  /\ serve limits (DeleteNote.handler event) Sample.db1
     = (Ok not_found, Sample.db1)
  /\ serve limits (UpdateNote.handler Sample.JSON_parse Sample.rt1 event)
       Sample.db1
     = (Ok not_found, Sample.db1).
Proof.
  intros event not_found.
  assert (Hm : Event.httpMethod event <> "OPTIONS") by discriminate.
  assert (Hp : Event.path_id event = Some "no-such-note") by reflexivity.
  assert (Hdb : Sample.db1 !! "no-such-note" = None) by reflexivity.
  assert (Hserved : limits (Get "no-such-note") Sample.db1 = None)
    by reflexivity.
  destruct (C1_absent_id_is_not_found limits Sample.JSON_parse Sample.rt1
              event "no-such-note" Sample.db1 Hm Hp Hdb) as (H404 & _ & _).
  destruct (H404 Hserved) as (Hget & Hdel & _ & Hupd).
  split; [exact Hm|]. split; [exact Hp|]. split; [exact Hdb|].
  split; [exact Hserved|]. split; [exact Hget|]. split; [exact Hdel|].
  exact (Hupd _ (JObj []) eq_refl eq_refl).
Defined.

(** C1, as the claim has it, fails on an id the store rejects as a key.
    An id of 2049 bytes is in no table, and the lookup of it is rejected
    for its size: the three handlers answer 500, not 404. *)
Lemma C1_long_id_is_answered_500 :
  let id := Sample.long_id in
  let get := Sample.event "GET" (Some id) JUndefined in
  let put := Sample.event "PUT" (Some id) (JObj [("content", JStr "x")]) in
  let failed := responseHelper.error key_too_long 500 in
  utf8_size id = 2049%N
  /\ Event.path_id get = Some id
  /\ Sample.db1 !! id = None
  /\ limits (Get id) Sample.db1 = Some key_too_long
  /\ serve limits (NoteById.handler get) Sample.db1 = (Ok failed, Sample.db1)
  /\ serve limits (DeleteNote.handler get) Sample.db1 = (Ok failed, Sample.db1)
  /\ serve limits (UpdateNote.handler Sample.JSON_parse Sample.rt2 put)
       Sample.db1
     = (Ok failed, Sample.db1)
  /\ Response.statusCode failed = 500.
Proof. cbv zeta. conjuncts; reflexivity. Qed.

(** ** Create *)

(** A create request whose body parses to anything but [null], and has
    no [title] or the empty string as [title], is answered 400
    [Title is required], and the table is not written: an object without
    the field or with an empty one, an array, a string, a number, a
    boolean.  No command reaches the store, so the answer does not depend
    on what the store would reject. *)
Lemma create_without_title_is_bad_request
    (rejects : Rejects) (JSON_parse : string -> option JSValue) (rt : Runtime)
    (event : Event.t) (text : string) (requestBody : JSValue) (db : Table) :
  Event.httpMethod event <> "OPTIONS" ->
  Event.present_body event = Some text ->
  JSON_parse text = Some requestBody ->
  requestBody <> JNull ->
  requestBody <> JUndefined ->
  (forall o, requestBody = JObj o ->
             ~ In "title" (keys o) \/ obj_get "title" o = JStr "") ->
  serve rejects (CreateNote.handler JSON_parse rt event) db
  = (Ok (responseHelper.error "Title is required" 400), db).
Proof.
  intros Hm Hb Hparse Hnull Hundef Htitle. apply eqb_OPTIONS in Hm.
  rewrite serve_CreateNote, Hm, Hb, Hparse, serve_createNote.
  destruct requestBody as [| |b|n|s|xs|o]; try contradiction;
    try reflexivity.
  cbn. destruct (Htitle o eq_refl) as [Habs|Hempty].
  - now rewrite (obj_get_absent _ _ Habs).
  - now rewrite Hempty.
Qed.

(** The literal [null] is the one body that parses and is not answered
    400 for its missing title: destructuring it throws, and the handler
    reports the [TypeError] as a 500. *)
Remark create_null_body_is_500 (rejects : Rejects)
    (JSON_parse : string -> option JSValue)
    (rt : Runtime) (event : Event.t) (text : string) (db : Table) :
  Event.httpMethod event <> "OPTIONS" ->
  Event.present_body event = Some text ->
  JSON_parse text = Some JNull ->
  serve rejects (CreateNote.handler JSON_parse rt event) db
  = (Ok (responseHelper.error (TypeError_destructure "noteData" "null") 500),
     db).
Proof.
  intros Hm Hb Hparse. apply eqb_OPTIONS in Hm.
  now rewrite serve_CreateNote, Hm, Hb, Hparse, serve_createNote.
Qed.

(** C2.  The create handler does not answer 400 to every body without
    a title.  The body [null] is well-formed JSON and has no title, and
    the request is answered 500: [createNote] destructures its argument
    before it looks at the title, destructuring [null] throws a
    [TypeError], and the handler reports that as a server error with the
    text of the exception.  The bodies [{}], [{title: ''}] and [5]
    are answered 400, as the claim has it; no request writes. *)
Lemma C2_null_body_is_answered_500 :
  let create body :=
    serve limits
      (CreateNote.handler Sample.JSON_parse Sample.rt1
         (Sample.event "POST" None body)) Sample.db1 in
  let bad_request :=
    {| Response.statusCode := 400;
       Response.headers := responseHelper.cors_headers;
       Response.body :=
         JSON_stringify (JObj [("error", JStr "Title is required")]) |} in
  let failed :=
    {| Response.statusCode := 500;
       Response.headers := responseHelper.cors_headers;
       Response.body :=
         JSON_stringify
           (JObj [("error",
                   JStr "Cannot destructure property 'title' of 'noteData' as it is null.")]) |} in
  Event.body (Sample.event "POST" None JNull) = Some "null"
  /\ Sample.JSON_parse "null" = Some JNull
  /\ create JNull = (Ok failed, Sample.db1)
  /\ create (JObj []) = (Ok bad_request, Sample.db1)
  /\ create (JObj [("title", JStr "")]) = (Ok bad_request, Sample.db1)
  /\ create (JNum 5) = (Ok bad_request, Sample.db1)
  /\ Response.statusCode failed <> 400.
Proof.
  cbv zeta. conjuncts; try reflexivity. discriminate.
Qed.

(** *** A successful create *)

Lemma stringify_object (o : Obj) :
  exists text, JSON_stringify (JObj o) = Some text.
Proof. eexists. reflexivity. Qed.

Lemma present_body_of_object (method : string) (id : option string) (o : Obj) :
  Event.present_body (Sample.event method id (JObj o))
  = JSON_stringify (JObj o).
Proof. reflexivity. Qed.

Lemma parse_known_first (v : JSValue) (known : list JSValue) (text : string) :
  JSON_stringify v = Some text ->
  Sample.parse_known (v :: known) text = Some v.
Proof.
  intros Hv. unfold Sample.parse_known. cbn [List.find].
  now rewrite Hv, String.eqb_refl.
Qed.

(** A note whose title alone is over the size limit of an item is
    rejected by the store, and the create request is answered 500. *)
Lemma create_over_the_item_limit (rt : Runtime) (title : string) (db : Table) :
  (MAX_ITEM_SIZE < utf8_size title)%N ->
  key_rejection (uuidv4 rt) = None ->
  serve limits
    (CreateNote.handler (Sample.parse_known [JObj [("title", JStr title)]]) rt
       (Sample.event "POST" None (JObj [("title", JStr title)]))) db
  = (Ok (responseHelper.error item_too_large 500), db).
Proof.
  intros Hsize Hkey.
  destruct (stringify_object [("title", JStr title)]) as [text Htext].
  rewrite serve_CreateNote, present_body_of_object, Htext.
  change (String.eqb (Event.httpMethod (Sample.event "POST" None _)) "OPTIONS")
    with false. cbv iota.
  rewrite (parse_known_first _ _ _ Htext), serve_createNote.
  cbn [destructure_title_content prop obj_get String.eqb Ascii.eqb Bool.eqb].
  assert (Ht : truthy (JStr title) = true).
  { apply truthy_nonempty. intros ->. cbn in Hsize. lia. }
  rewrite Ht. cbv zeta.
  assert (Hput : forall content,
             limits (Put (note_of (uuidv4 rt) (JStr title) (JStr content)
                            (toISOString rt) (toISOString rt))) db
             = Some item_too_large).
  { intros content. unfold limits.
    cbn [marshall note_of snd obj_get String.eqb Ascii.eqb Bool.eqb].
    rewrite Hkey.
    assert (H : (MAX_ITEM_SIZE
                 <? item_size (note_of (uuidv4 rt) (JStr title) (JStr content)
                                 (toISOString rt) (toISOString rt)))%N = true).
    { apply N.ltb_lt. cbn [note_of item_size value_size fst snd]. lia. }
    now rewrite H. }
  cbn [truthy]. rewrite (Hput ""). reflexivity.
Qed.

(** C3, as the code has it.  A create request whose body is an object
    with a non-empty string [title], and whose note the store accepts, is
    answered 201 with the new note as the body, and the table then holds
    that note under the note's id.  The note has the five attributes; its
    [content] is the supplied one when that is truthy, and the empty
    string when the body has none or a falsy one; [createdAt] and
    [updatedAt] are the same clock reading; the [id] is the value of this
    invocation's [uuidv4()].  The handler does not look whether the table
    holds a note under that value: the put replaces what is there.  So
    the id is that of no stored note exactly when the drawn value is not a
    key of the table, which is so for a table the handlers built, served
    in any order, as long as [uuidv4()] never returned that value to
    them. *)
Theorem C3_create_returns_the_note_of_its_draw
    (rejects : Rejects) (JSON_parse : string -> option JSValue) (rt : Runtime)
    (event : Event.t) (text : string) (o : Obj) (t : string) (db : Table) :
  Event.httpMethod event <> "OPTIONS" ->
  Event.present_body event = Some text ->
  JSON_parse text = Some (JObj o) ->
  obj_get "title" o = JStr t ->
  t <> "" ->
  let content := obj_get "content" o in
  let newNote :=
    note_of (uuidv4 rt) (JStr t) (if truthy content then content else JStr "")
      (toISOString rt) (toISOString rt) in
  rejects (Put newNote) db = None ->
  let created :=
    {| Response.statusCode := 201;
       Response.headers := responseHelper.cors_headers;
       Response.body := JSON_stringify (JObj newNote) |} in
  let db' := <[uuidv4 rt := newNote]> db in
  serve rejects (CreateNote.handler JSON_parse rt event) db = (Ok created, db')
  /\ (exists body, Response.body created = Some body)
  /\ keys newNote = note_keys
  /\ obj_get "id" newNote = JStr (uuidv4 rt)
  /\ obj_get "title" newNote = JStr t
  /\ (forall c, content = JStr c -> obj_get "content" newNote = JStr c)
  /\ (~ In "content" (keys o) -> obj_get "content" newNote = JStr "")
  /\ (truthy content = false -> obj_get "content" newNote = JStr "")
  /\ obj_get "createdAt" newNote = JStr (toISOString rt)
  /\ obj_get "updatedAt" newNote = JStr (toISOString rt)
  /\ db' !! uuidv4 rt = Some newNote
  /\ (forall id, id <> uuidv4 rt -> db' !! id = db !! id)
  /\ ((forall id item, db !! id = Some item -> obj_get "id" item = JStr id) ->
      ((forall id item, db !! id = Some item ->
                        obj_get "id" item <> obj_get "id" newNote)
       <-> db !! uuidv4 rt = None))
  /\ (forall parse rejects0 schedule h,
        db = snd (overlap parse rejects0 schedule h ∅) ->
        ~ In (uuidv4 rt) (drawn_uuids h) ->
        db !! uuidv4 rt = None
        /\ forall id item, db !! id = Some item ->
                           obj_get "id" item <> obj_get "id" newNote).
Proof.
  intros Hm Hb Hparse Htitle Ht content newNote Hput created db'.
  apply eqb_OPTIONS in Hm.
  conjuncts; try reflexivity.
  - rewrite serve_CreateNote, Hm, Hb, Hparse, serve_createNote.
    cbn [destructure_title_content prop]. rewrite Htitle.
    rewrite (truthy_nonempty _ Ht). cbv zeta. fold content. fold newNote.
    now rewrite Hput.
  - apply stringify_object.
  - intros c Hc. cbn. rewrite Hc. apply or_empty_string.
  - intros Habs. cbn. unfold content. now rewrite (obj_get_absent _ _ Habs).
  - intros Hc. cbn. now rewrite Hc.
  - apply lookup_insert_eq.
  - intros id Hne. apply lookup_insert_ne. congruence.
  - intros Hkeys. split.
    + intros Hunique.
      destruct (db !! uuidv4 rt) as [old|] eqn:Hold; [|reflexivity].
      exfalso. apply (Hunique _ _ Hold). now rewrite (Hkeys _ _ Hold).
    + intros Hfresh id item Hitem. rewrite (Hkeys _ _ Hitem). cbn.
      intros [= ->]. congruence.
  - intros parse rejects0 schedule h -> Hfresh.
    assert (Hkeys : forall id item,
               snd (overlap parse rejects0 schedule h ∅) !! id = Some item ->
               obj_get "id" item = JStr id /\ In id (drawn_uuids h)).
    { intros id item Hitem.
      now destruct (overlap_stored _ _ _ _ _ _ Hitem) as (_ & _ & ? & ? & _). }
    split.
    + destruct (snd (overlap parse rejects0 schedule h ∅) !! uuidv4 rt)
        as [old|] eqn:Hold; [|reflexivity].
      now destruct (Hkeys _ _ Hold).
    + intros id item Hitem. destruct (Hkeys _ _ Hitem) as [-> Hin]. cbn.
      intros [= ->]. contradiction.
Qed.

Lemma C3_create_returns_the_note_of_its_draw_witness :
  let o : Obj := [("title", JStr "Groceries"); ("content", JStr "milk")] in
  let event := Sample.event "POST" None (JObj o) in
  let text := default "" (Sample.text_of (JObj o)) in
  let created :=
    {| Response.statusCode := 201;
       Response.headers := responseHelper.cors_headers;
       Response.body :=
         Some ("{" ++ String dquote "id" ++ String dquote ":"
               ++ String dquote "3f2b8c1e-0000-4000-8000-000000000001"
               ++ String dquote ","
               ++ String dquote "title" ++ String dquote ":"
               ++ String dquote "Groceries" ++ String dquote ","
               ++ String dquote "content" ++ String dquote ":"
               ++ String dquote "milk" ++ String dquote ","
               ++ String dquote "createdAt" ++ String dquote ":"
               ++ String dquote "2024-05-01T10:00:00.000Z" ++ String dquote ","
               ++ String dquote "updatedAt" ++ String dquote ":"
               ++ String dquote "2024-05-01T10:00:00.000Z"
               ++ String dquote "}") |} in
  Event.httpMethod event <> "OPTIONS"
  /\ Event.present_body event = Some text
  /\ Sample.JSON_parse text = Some (JObj o)
  /\ obj_get "title" o = JStr "Groceries"
  /\ "Groceries" <> ""
  /\ limits (Put Sample.groceries) ∅ = None
  /\ serve limits (CreateNote.handler Sample.JSON_parse Sample.rt1 event) ∅
     = (Ok created, Sample.db1).
Proof.
  intros o event text created.
  assert (Hm : Event.httpMethod event <> "OPTIONS") by discriminate.
  assert (Hb : Event.present_body event = Some text) by reflexivity.
  assert (Hparse : Sample.JSON_parse text = Some (JObj o)) by reflexivity.
  assert (Ht : "Groceries" <> "") by discriminate.
  assert (Hput : limits (Put Sample.groceries) ∅ = None) by reflexivity.
  split; [exact Hm|]. split; [exact Hb|]. split; [exact Hparse|].
  split; [reflexivity|]. split; [exact Ht|]. split; [exact Hput|].
  exact (proj1 (C3_create_returns_the_note_of_its_draw limits
                  Sample.JSON_parse Sample.rt1 event text o "Groceries" ∅
                  Hm Hb Hparse eq_refl Ht Hput)).
Defined.

(** C3, as the claim has it, fails twice.  The id is unique only as far
    as [uuidv4()] is: a create request to which [uuidv4()] returns the
    value it returned to an earlier one is answered 201 with a note of the
    id of the stored note, and that note is replaced.  And not every
    request with a non-empty title succeeds: a note with a title of
    500000 bytes is over the size limit of an item, the store rejects the
    put, and the request is answered 500. *)
Lemma C3_create_can_repeat_an_id_and_can_fail :
  let first :=
    Sample.event "POST" None
      (JObj [("title", JStr "Groceries"); ("content", JStr "milk")]) in
  let second := Sample.event "POST" None (JObj [("title", JStr "Laundry")]) in
  let laundry :=
    note_of (uuidv4 Sample.rt1) (JStr "Laundry") (JStr "")
      (toISOString Sample.rt3) (toISOString Sample.rt3) in
  let created note :=
    {| Response.statusCode := 201;
       Response.headers := responseHelper.cors_headers;
       Response.body := JSON_stringify (JObj note) |} in
  (serve limits (CreateNote.handler Sample.JSON_parse Sample.rt1 first) ∅
   = (Ok (created Sample.groceries), Sample.db1)
   /\ uuidv4 Sample.rt3 = uuidv4 Sample.rt1
   /\ serve limits (CreateNote.handler Sample.JSON_parse Sample.rt3 second)
        Sample.db1
      = (Ok (created laundry), {[ uuidv4 Sample.rt1 := laundry ]})
   /\ obj_get "id" laundry = obj_get "id" Sample.groceries
   /\ ({[ uuidv4 Sample.rt1 := laundry ]} : Table) !! uuidv4 Sample.rt1
      = Some laundry)
  /\ (Sample.long_title <> ""
      /\ serve limits
           (CreateNote.handler
              (Sample.parse_known [JObj [("title", JStr Sample.long_title)]])
              Sample.rt1
              (Sample.event "POST" None
                 (JObj [("title", JStr Sample.long_title)]))) Sample.db1
         = (Ok (responseHelper.error item_too_large 500), Sample.db1)
      /\ Response.statusCode (responseHelper.error item_too_large 500) = 500).
Proof.
  cbv zeta. split.
  - conjuncts; reflexivity.
  - assert (Hsize : (MAX_ITEM_SIZE < utf8_size Sample.long_title)%N).
    { unfold Sample.long_title. rewrite utf8_size_letters. reflexivity. }
    conjuncts.
    + intros Hempty. rewrite Hempty in Hsize. cbn in Hsize. lia.
    + apply create_over_the_item_limit; [exact Hsize|reflexivity].
    + reflexivity.
Qed.

(** ** Update *)




(** C5, as the code has it.  The update handler checks that the note
    exists before it looks at the fields of the body: a request whose
    body is an object with neither [title] nor [content], and whose lookup
    the store serves, is answered 400 when the table holds the id and 404
    when it does not, and the table is left as it is. *)
Theorem C5_update_checks_existence_first
    (rejects : Rejects) (JSON_parse : string -> option JSValue) (rt : Runtime)
    (event : Event.t) (id text : string) (o : Obj) (db : Table) :
  Event.httpMethod event <> "OPTIONS" ->
  Event.path_id event = Some id ->
  Event.present_body event = Some text ->
  JSON_parse text = Some (JObj o) ->
  ~ In "title" (keys o) ->
  ~ In "content" (keys o) ->
  rejects (Get id) db = None ->
  serve rejects (UpdateNote.handler JSON_parse rt event) db
  = match db !! id with
    | Some _ => (Ok (responseHelper.error UpdateNote.no_field_message 400), db)
    | None => (Ok (responseHelper.error "Note not found" 404), db)
    end
  /\ Response.statusCode
       (responseHelper.error UpdateNote.no_field_message 400) = 400
  /\ Response.statusCode (responseHelper.error "Note not found" 404) = 404.
Proof.
  intros Hm Hp Hb Hparse Htitle Hcontent Hget.
  pose proof (path_id_nonempty _ _ Hp) as Hid. apply eqb_OPTIONS in Hm.
  split; [|split; reflexivity].
  rewrite serve_UpdateNote, Hm, Hp, Hb, Hparse.
  rewrite (serve_updateNote _ _ _ _ _ Hid), Hget.
  destruct (db !! id) as [item|] eqn:Hitem; [|reflexivity].
  cbn [destructure_title_content prop].
  now rewrite (obj_get_absent _ _ Htitle), (obj_get_absent _ _ Hcontent).
Qed.

Lemma C5_update_checks_existence_first_witness :
  let id := uuidv4 Sample.rt1 in
  let event := Sample.event "PUT" (Some id) (JObj []) in
  let text := default "" (Sample.text_of (JObj [])) in
  Event.httpMethod event <> "OPTIONS"
  /\ Event.path_id event = Some id
  /\ Event.present_body event = Some text
  /\ Sample.JSON_parse text = Some (JObj [])
  /\ limits (Get id) Sample.db1 = None
  /\ serve limits (UpdateNote.handler Sample.JSON_parse Sample.rt2 event)
       Sample.db1
     = (Ok (responseHelper.error UpdateNote.no_field_message 400), Sample.db1).
Proof.
  intros id event text.
  assert (Hm : Event.httpMethod event <> "OPTIONS") by discriminate.
  assert (Hp : Event.path_id event = Some id) by reflexivity.
  assert (Hb : Event.present_body event = Some text) by reflexivity.
  assert (Hparse : Sample.JSON_parse text = Some (JObj [])) by reflexivity.
  assert (Hget : limits (Get id) Sample.db1 = None) by reflexivity.
  split; [exact Hm|]. split; [exact Hp|]. split; [exact Hb|].
  split; [exact Hparse|]. split; [exact Hget|].
  exact (proj1 (C5_update_checks_existence_first limits Sample.JSON_parse
                  Sample.rt2 event id text [] Sample.db1 Hm Hp Hb Hparse
                  (fun H : In "title" (keys []) => H)
                  (fun H : In "content" (keys []) => H) Hget)).
Defined.

(** C5, as the claim has it, fails: an update with the body [{}] that
    addresses an id the table does not hold is answered 404, not 400. *)
Lemma C5_empty_update_of_absent_id_is_404 :
  let event := Sample.event "PUT" (Some "no-such-note") (JObj []) in
  let not_found := responseHelper.error "Note not found" 404 in
  serve limits (UpdateNote.handler Sample.JSON_parse Sample.rt2 event)
    Sample.db1
  = (Ok not_found, Sample.db1)
  /\ Response.statusCode not_found <> 400.
Proof. cbv zeta. split; [reflexivity|discriminate]. Qed.

(** C6.  The update handler does store an empty title: the field check
    [!title && content === undefined] lets the body
    [{title: '', content: 'x'}] through because [content] is there, and
    the assignment guard [title !== undefined] then writes the empty
    string.  Here the note created by one request is updated by the next;
    the answer is 200 and the stored [title] is the empty string. *)
Lemma C6_update_stores_empty_title :
  let id := uuidv4 Sample.rt1 in
  let event :=
    Sample.event "PUT" (Some id)
      (JObj [("title", JStr ""); ("content", JStr "x")]) in
  let updatedNote :=
    note_of id (JStr "") (JStr "x")
      (toISOString Sample.rt1) (toISOString Sample.rt2) in
  Sample.db1 !! id = Some Sample.groceries
  /\ obj_get "title" Sample.groceries = JStr "Groceries"
  /\ serve limits (UpdateNote.handler Sample.JSON_parse Sample.rt2 event)
       Sample.db1
     = (Ok (responseHelper.success (JObj updatedNote) 200),
        <[id := updatedNote]> Sample.db1)
  /\ (snd (serve limits
             (UpdateNote.handler Sample.JSON_parse Sample.rt2 event)
             Sample.db1) !! id)
     = Some updatedNote
  /\ obj_get "title" updatedNote = JStr "".
Proof. cbv zeta. conjuncts; reflexivity. Qed.

(** ** Delete *)

(** A delete of a stored note, both of whose commands the store serves,
    removes it and is answered 204; the body of the answer is the
    serialised [message] object. *)
Lemma DeleteNote_ok (rejects : Rejects) (event : Event.t) (id : string)
    (item : Obj) (db : Table) :
  Event.httpMethod event <> "OPTIONS" ->
  Event.path_id event = Some id ->
  db !! id = Some item ->
  rejects (Get id) db = None ->
  rejects (Delete id) db = None ->
  serve rejects (DeleteNote.handler event) db
  = (Ok (responseHelper.success
           (JObj [("message", JStr "Note deleted successfully")]) 204),
     delete id db).
Proof.
  intros Hm Hp Hitem Hget Hdelete. apply eqb_OPTIONS in Hm.
  rewrite serve_DeleteNote, Hm, Hp. cbv zeta.
  now rewrite Hget, Hitem, Hdelete.
Qed.

(** C7.  The delete handler answers 204, but not with an empty body: it
    passes a [message] object to [responseHelper.success], which
    serialises it into the body.  Here the note created by one request is
    deleted by the next. *)
Lemma C7_delete_answers_204_with_a_body :
  let id := uuidv4 Sample.rt1 in
  let event := Sample.event "DELETE" (Some id) JUndefined in
  let response :=
    {| Response.statusCode := 204;
       Response.headers := responseHelper.cors_headers;
       Response.body := Some Sample.deleted_message_text |} in
  Sample.db1 !! id = Some Sample.groceries
  /\ Event.body event = None
  /\ serve limits (DeleteNote.handler event) Sample.db1 = (Ok response, ∅)
  /\ Response.statusCode response = 204
  /\ Response.body response <> Some ""
  /\ Response.body response <> None.
Proof. cbv zeta. conjuncts; try reflexivity; discriminate. Qed.

(** ** The mock store *)

Lemma find_absent (id : string) (data : api.MockNotes) :
  (forall note, In note data -> api.has_id id note = false) ->
  List.find (api.has_id id) data = None.
Proof.
  induction data as [|note data IH]; cbn; intros H; [reflexivity|].
  rewrite (H note) by now left.
  apply IH. intros note' Hin. apply H. now right.
Qed.


Lemma filter_absent (id : string) (data : api.MockNotes) :
  (forall note, In note data -> api.has_id id note = false) ->
  List.filter (fun note => negb (api.has_id id note)) data = data.
Proof.
  induction data as [|note data IH]; cbn; intros H; [reflexivity|].
  rewrite (H note) by now left. cbn.
  rewrite IH; [reflexivity|]. intros note' Hin. apply H. now right.
Qed.




(** ** The adapter *)

Lemma getNote_development (apiClient_get : string -> api.AxiosOutcome)
    (br : api.Browser) (id : string) (data : api.MockNotes)
    (error : api.AxiosError) :
  apiClient_get ("/notes/" ++ id) = api.Rejected error ->
  api.development br = true ->
  api.noteService.getNote apiClient_get br id data
  = api.of_mock (api.mockNoteById id data).
Proof. intros Hr Hd. unfold api.noteService.getNote. now rewrite Hr, Hd. Qed.

Lemma getNote_production (apiClient_get : string -> api.AxiosOutcome)
    (br : api.Browser) (id : string) (data : api.MockNotes)
    (error : api.AxiosError) :
  apiClient_get ("/notes/" ++ id) = api.Rejected error ->
  api.development br = false ->
  api.noteService.getNote apiClient_get br id data = api.RejectedAxios error.
Proof. intros Hr Hd. unfold api.noteService.getNote. now rewrite Hr, Hd. Qed.

(** C9.  In development mode the adapter's [getNote] does mask a 404:
    its [catch] falls back to the mock store on every error, also on the
    one that carries the handler's answer.  Here the table holds no note
    [1], the get handler answers 404, the request rejects with that
    status, and the adapter resolves with the mock store's note [1]. *)
Lemma C9_fallback_masks_not_found :
  let event := Sample.event "GET" (Some "1") JUndefined in
  let welcome : Obj :=
    [("id", JStr "1");
     ("title", JStr "Welcome to Noter");
     ("content", JStr "This is your first note! You can edit or delete this note, or create new ones.");
     ("createdAt", JStr "2024-05-01T09:59:00.000Z");
     ("updatedAt", JStr "2024-05-01T09:59:00.000Z")] in
  Sample.db1 !! "1" = None
  /\ serve limits (NoteById.handler event) Sample.db1
     = (Ok (responseHelper.error "Note not found" 404), Sample.db1)
  /\ Sample.apiClient_get "/notes/1"
     = api.Rejected
         {| api.message := "Request failed with status code 404";
            api.response_status := Some 404 |}
  /\ api.development Sample.dev = true
  /\ api.noteService.getNote Sample.apiClient_get Sample.dev "1" Sample.mock_data
     = api.Fulfilled (JObj welcome).
Proof. cbv zeta. conjuncts; reflexivity. Qed.

(** ** What reaches a stored note *)

(** Both handlers read [title] and [content] off the body and nothing
    else: on two bodies that agree on these two they are the same
    program. *)
Lemma CreateNote_reads_title_content (JSON_parse : string -> option JSValue)
    (rt : Runtime) (event1 event2 : Event.t) (text1 text2 : string)
    (o1 o2 : Obj) :
  Event.httpMethod event1 = Event.httpMethod event2 ->
  Event.present_body event1 = Some text1 ->
  Event.present_body event2 = Some text2 ->
  JSON_parse text1 = Some (JObj o1) ->
  JSON_parse text2 = Some (JObj o2) ->
  obj_get "title" o1 = obj_get "title" o2 ->
  obj_get "content" o1 = obj_get "content" o2 ->
  CreateNote.handler JSON_parse rt event1
  = CreateNote.handler JSON_parse rt event2.
Proof.
  intros Hm Hb1 Hb2 Hparse1 Hparse2 Ht Hc.
  unfold CreateNote.handler.
  rewrite <- Hm, Hb1, Hb2, Hparse1, Hparse2.
  unfold CreateNote.createNote. cbn [destructure_title_content prop].
  now rewrite Ht, Hc.
Qed.

Lemma UpdateNote_reads_title_content (JSON_parse : string -> option JSValue)
    (rt : Runtime) (event1 event2 : Event.t) (text1 text2 : string)
    (o1 o2 : Obj) :
  Event.httpMethod event1 = Event.httpMethod event2 ->
  Event.path_id event1 = Event.path_id event2 ->
  Event.present_body event1 = Some text1 ->
  Event.present_body event2 = Some text2 ->
  JSON_parse text1 = Some (JObj o1) ->
  JSON_parse text2 = Some (JObj o2) ->
  obj_get "title" o1 = obj_get "title" o2 ->
  obj_get "content" o1 = obj_get "content" o2 ->
  UpdateNote.handler JSON_parse rt event1
  = UpdateNote.handler JSON_parse rt event2.
Proof.
  intros Hm Hp Hb1 Hb2 Hparse1 Hparse2 Ht Hc.
  unfold UpdateNote.handler.
  rewrite <- Hm, <- Hp, Hb1, Hb2, Hparse1, Hparse2.
  unfold UpdateNote.updateNote. cbn [destructure_title_content prop].
  now rewrite Ht, Hc.
Qed.

(** C10, as the code has it.  The create and update handlers read
    [title] and [content] off the body and nothing else: on two requests
    whose bodies agree on these two they run the same program, so they
    send the same commands, give the same answer and leave the same table,
    whatever other fields ([id], [createdAt], [updatedAt], unknown ones)
    either body carries.  An answer of either handler that carries a note
    carries the note the table then holds.

    However the invocations of the handlers overlap, every item of a
    table they have built from the empty one has its attributes among
    [id], [title], [content], [createdAt], [updatedAt], each at most once;
    its [id] is its key and a value of [uuidv4()]; its [updatedAt] is a
    clock reading of a handler, and so is its [createdAt] when it has
    one.  When the invocations are served one after the other, every item
    has exactly the five attributes. *)
Theorem C10_only_title_and_content_reach_a_note
    (rejects : Rejects) (JSON_parse : string -> option JSValue) (rt : Runtime)
    (event1 event2 : Event.t) (text1 text2 : string) (o1 o2 : Obj)
    (db : Table) :
  Event.httpMethod event1 = Event.httpMethod event2 ->
  Event.path_id event1 = Event.path_id event2 ->
  Event.present_body event1 = Some text1 ->
  Event.present_body event2 = Some text2 ->
  JSON_parse text1 = Some (JObj o1) ->
  JSON_parse text2 = Some (JObj o2) ->
  obj_get "title" o1 = obj_get "title" o2 ->
  obj_get "content" o1 = obj_get "content" o2 ->
  (CreateNote.handler JSON_parse rt event1
   = CreateNote.handler JSON_parse rt event2
   /\ UpdateNote.handler JSON_parse rt event1
      = UpdateNote.handler JSON_parse rt event2
   /\ serve rejects (CreateNote.handler JSON_parse rt event1) db
      = serve rejects (CreateNote.handler JSON_parse rt event2) db
   /\ serve rejects (UpdateNote.handler JSON_parse rt event1) db
      = serve rejects (UpdateNote.handler JSON_parse rt event2) db)
  /\ (forall schedule h id item,
        snd (overlap JSON_parse rejects schedule h ∅) !! id = Some item ->
        NoDup (keys item)
        /\ (forall k, In k (keys item) -> In k note_keys)
        /\ obj_get "id" item = JStr id
        /\ stored_by h id item)
  /\ (forall h id item,
        run JSON_parse rejects h ∅ !! id = Some item ->
        keys item = note_keys
        /\ obj_get "id" item = JStr id
        /\ written_by h id item)
  /\ (exists r db',
        serve rejects (CreateNote.handler JSON_parse rt event1) db = (Ok r, db')
        /\ (carries_no_note r
            \/ exists newNote,
                 r = {| Response.statusCode := 201;
                        Response.headers := responseHelper.cors_headers;
                        Response.body := JSON_stringify (JObj newNote) |}
                 /\ db' !! uuidv4 rt = Some newNote
                 /\ keys newNote = note_keys
                 /\ obj_get "id" newNote = JStr (uuidv4 rt)
                 /\ obj_get "createdAt" newNote = JStr (toISOString rt)
                 /\ obj_get "updatedAt" newNote = JStr (toISOString rt)))
  /\ (exists r db',
        serve rejects (UpdateNote.handler JSON_parse rt event1) db = (Ok r, db')
        /\ (carries_no_note r
            \/ exists id old updatedNote,
                 r = {| Response.statusCode := 200;
                        Response.headers := responseHelper.cors_headers;
                        Response.body := JSON_stringify (JObj updatedNote) |}
                 /\ db !! id = Some old
                 /\ db' !! id = Some updatedNote
                 /\ obj_get "id" updatedNote = obj_get "id" old
                 /\ obj_get "createdAt" updatedNote = obj_get "createdAt" old
                 /\ obj_get "updatedAt" updatedNote = JStr (toISOString rt)
                 /\ (keys old = note_keys -> keys updatedNote = note_keys))).
Proof.
  intros Hm Hp Hb1 Hb2 Hparse1 Hparse2 Ht Hc.
  pose proof (CreateNote_reads_title_content JSON_parse rt event1 event2
                text1 text2 o1 o2 Hm Hb1 Hb2 Hparse1 Hparse2 Ht Hc) as Hcreate.
  pose proof (UpdateNote_reads_title_content JSON_parse rt event1 event2
                text1 text2 o1 o2 Hm Hp Hb1 Hb2 Hparse1 Hparse2 Ht Hc)
    as Hupdate.
  conjuncts.
  - exact Hcreate.
  - exact Hupdate.
  - now rewrite Hcreate.
  - now rewrite Hupdate.
  - intros schedule h id item Hitem.
    pose proof (overlap_stored _ _ _ _ _ _ Hitem) as Hs.
    destruct Hs as (Hnd & Hkeys & Hid & Hrest). conjuncts; try assumption.
    unfold stored_by. conjuncts; try assumption; apply Hrest.
  - intros h id item Hitem. pose proof (run_written _ _ _ _ _ Hitem) as Hw.
    conjuncts; [exact (written_keys _ _ _ Hw)|exact (written_id _ _ _ Hw)|].
    exact Hw.
  - destruct (CreateNote_outcome rejects JSON_parse rt event1 db)
      as [(r & Hr & Hno)|(title & content & _ & Hr)].
    + exists r, db. split; [exact Hr|]. left.
      destruct Hno as [->|Href]; [now left|].
      now apply refusal_carries_no_note.
    + cbv zeta in Hr. eexists _, _. split; [exact Hr|]. right.
      eexists. conjuncts; try reflexivity. apply lookup_insert_eq.
  - destruct (UpdateNote_outcome rejects JSON_parse rt event1 db)
      as [(r & Hr & Hno)|(id & old & title & content & _ & Hold & Hr)].
    + exists r, db. split; [exact Hr|]. left.
      destruct Hno as [->|Href]; [now left|].
      now apply refusal_carries_no_note.
    + cbv zeta in Hr. eexists _, _. split; [exact Hr|]. right.
      exists id, old. eexists. conjuncts.
      * reflexivity.
      * exact Hold.
      * apply lookup_insert_eq.
      * now rewrite update_sets_other by discriminate.
      * now rewrite update_sets_other by discriminate.
      * apply update_sets_updatedAt.
      * intros Hkeys.
        destruct (update_sets_note_shaped rt title content old) as [_ Hsub].
        { split; [rewrite Hkeys; exact NoDup_note_keys|].
          intros k. now rewrite Hkeys. }
        clear Hsub. unfold UpdateNote.update_sets, spread.
        destruct (is_undefined title), (is_undefined content);
          cbn [negb app fold_left fst snd];
          repeat match goal with
                 | |- keys (obj_set ?k ?v ?o) = _ =>
                     destruct (keys_obj_set k v o) as [[_ ->]|[Hnot _]];
                     [|exfalso; apply Hnot]
                 end;
          try exact Hkeys.
        all: repeat match goal with
                    | |- In _ (keys (obj_set ?k ?v ?o)) =>
                        destruct (keys_obj_set k v o) as [[_ ->]|[_ ->]];
                        [|apply in_or_app; left]
                    end;
          rewrite Hkeys; cbn; tauto.
Qed.

Lemma C10_only_title_and_content_reach_a_note_witness :
  let id := uuidv4 Sample.rt1 in
  let o1 : Obj :=
    [("id", JStr "mine"); ("title", JStr "Groceries");
     ("createdAt", JStr "1999"); ("owner", JStr "eve")] in
  let o2 : Obj := [("title", JStr "Groceries")] in
  let event1 := Sample.event "PUT" (Some id) (JObj o1) in
  let event2 := Sample.event "PUT" (Some id) (JObj o2) in
  let text1 := default "" (Sample.text_of (JObj o1)) in
  let text2 := default "" (Sample.text_of (JObj o2)) in
  let h :=
    [InvokeCreate Sample.rt1
       (Sample.event "POST" None
          (JObj [("title", JStr "Groceries"); ("content", JStr "milk")]))] in
  let updatedNote :=
    note_of id (JStr "Groceries") (JStr "milk")
      (toISOString Sample.rt1) (toISOString Sample.rt2) in
  Event.httpMethod event1 = Event.httpMethod event2
  /\ Event.path_id event1 = Event.path_id event2
  /\ Event.present_body event1 = Some text1
  /\ Event.present_body event2 = Some text2
  /\ Sample.JSON_parse text1 = Some (JObj o1)
  /\ Sample.JSON_parse text2 = Some (JObj o2)
  /\ obj_get "title" o1 = obj_get "title" o2
  /\ obj_get "content" o1 = obj_get "content" o2
  /\ serve limits (UpdateNote.handler Sample.JSON_parse Sample.rt2 event1)
       Sample.db1
     = serve limits (UpdateNote.handler Sample.JSON_parse Sample.rt2 event2)
         Sample.db1
  /\ serve limits (UpdateNote.handler Sample.JSON_parse Sample.rt2 event1)
       Sample.db1
     = (Ok (responseHelper.success (JObj updatedNote) 200),
        <[id := updatedNote]> Sample.db1)
  /\ run Sample.JSON_parse limits h ∅ = Sample.db1
  /\ keys Sample.groceries = note_keys.
Proof.
  intros id o1 o2 event1 event2 text1 text2 h updatedNote.
  assert (Hm : Event.httpMethod event1 = Event.httpMethod event2)
    by reflexivity.
  assert (Hp : Event.path_id event1 = Event.path_id event2) by reflexivity.
  assert (Hb1 : Event.present_body event1 = Some text1) by reflexivity.
  assert (Hb2 : Event.present_body event2 = Some text2) by reflexivity.
  assert (Hparse1 : Sample.JSON_parse text1 = Some (JObj o1)) by reflexivity.
  assert (Hparse2 : Sample.JSON_parse text2 = Some (JObj o2)) by reflexivity.
  assert (Ht : obj_get "title" o1 = obj_get "title" o2) by reflexivity.
  assert (Hc : obj_get "content" o1 = obj_get "content" o2) by reflexivity.
  assert (Hdb : run Sample.JSON_parse limits h ∅ = Sample.db1) by reflexivity.
  destruct (C10_only_title_and_content_reach_a_note limits Sample.JSON_parse
              Sample.rt2 event1 event2 text1 text2 o1 o2 Sample.db1
              Hm Hp Hb1 Hb2 Hparse1 Hparse2 Ht Hc)
    as ((_ & _ & _ & Hsame) & _ & Hshape & _).
  split; [exact Hm|]. split; [exact Hp|]. split; [exact Hb1|].
  split; [exact Hb2|]. split; [exact Hparse1|]. split; [exact Hparse2|].
  split; [exact Ht|]. split; [exact Hc|].
  split; [exact Hsame|]. split; [reflexivity|]. split; [exact Hdb|].
  apply (Hshape h id Sample.groceries). rewrite Hdb. reflexivity.
Defined.

(** C10, as the claim has it, fails when requests overlap: not every
    stored note has the five fields.  The update handler looks the note up
    and then sends an update that carries no condition; when a delete of
    the same note is served between the two, the update creates the item
    anew from the key and its own assignments.  Here a note is created,
    an update of its content finds it, a delete removes it, and the
    update leaves an item of three attributes, without [title] and
    [createdAt], which the handler returns with status 200. *)
Lemma C10_update_overtaken_by_delete_stores_three_fields :
  let id := uuidv4 Sample.rt1 in
  let h :=
    [InvokeCreate Sample.rt1
       (Sample.event "POST" None
          (JObj [("title", JStr "Groceries"); ("content", JStr "milk")]));
     InvokeUpdate Sample.rt2
       (Sample.event "PUT" (Some id) (JObj [("content", JStr "x")]));
     InvokeDelete (Sample.event "DELETE" (Some id) JUndefined)] in
  let left : Obj :=
    [("id", JStr id);
     ("updatedAt", JStr (toISOString Sample.rt2));
     ("content", JStr "x")] in
  overlap Sample.JSON_parse limits [0; 1; 2; 2; 1]%nat h ∅
  = ([Ret (responseHelper.success (JObj Sample.groceries) 201);
      Ret (responseHelper.success (JObj left) 200);
      Ret (responseHelper.success
             (JObj [("message", JStr "Note deleted successfully")]) 204)],
     {[ id := left ]})
  /\ snd (overlap Sample.JSON_parse limits [0; 1]%nat h ∅) = Sample.db1
  /\ keys left = ["id"; "updatedAt"; "content"]
  /\ keys left <> note_keys
  /\ obj_get "title" left = JUndefined
  /\ obj_get "createdAt" left = JUndefined
  /\ run Sample.JSON_parse limits h ∅ = ∅.
Proof. cbv zeta. conjuncts; try reflexivity. discriminate. Qed.

(** * More of the handlers *)

(** ** The order of the checks *)

(** X1. A preflight request is answered by the four id- and
    body-handling handlers before they look at anything else: whatever
    path parameters and body the event carries, the answer is the CORS
    answer, status 200 with an empty body, and the table is not
    touched. *)
Theorem preflight_is_answered_first
    (rejects : Rejects) (JSON_parse : string -> option JSValue) (rt : Runtime)
    (event : Event.t) (db : Table) :
  Event.httpMethod event = "OPTIONS" ->
  serve rejects (NoteById.handler event) db = (Ok responseHelper.cors, db)
  /\ serve rejects (DeleteNote.handler event) db = (Ok responseHelper.cors, db)
  /\ serve rejects (CreateNote.handler JSON_parse rt event) db
     = (Ok responseHelper.cors, db)
  /\ serve rejects (UpdateNote.handler JSON_parse rt event) db
     = (Ok responseHelper.cors, db)
  /\ Response.statusCode responseHelper.cors = 200
  /\ Response.body responseHelper.cors = Some ""
  /\ obj_get "Access-Control-Allow-Methods" (Response.headers responseHelper.cors)
     = JStr "GET,POST,PUT,DELETE,OPTIONS".
Proof.
  intros Hm.
  rewrite serve_NoteById, serve_DeleteNote, serve_CreateNote, serve_UpdateNote.
  rewrite Hm. conjuncts; reflexivity.
Qed.

Lemma preflight_is_answered_first_witness :
  let event := Sample.event "OPTIONS" None JNull in
  Event.httpMethod event = "OPTIONS"
  /\ serve limits (DeleteNote.handler event) Sample.db1
     = (Ok responseHelper.cors, Sample.db1)
  /\ serve limits (UpdateNote.handler Sample.JSON_parse Sample.rt2 event)
       Sample.db1
     = (Ok responseHelper.cors, Sample.db1).
Proof.
  intros event.
  assert (Hm : Event.httpMethod event = "OPTIONS") by reflexivity.
  destruct (preflight_is_answered_first limits Sample.JSON_parse Sample.rt2
              event Sample.db1 Hm) as (_ & Hdel & _ & Hupd & _).
  split; [exact Hm|]. split; [exact Hdel|exact Hupd].
Defined.

(** X2. A request without a usable id (no path parameters, no [id]
    among them, or an empty [id]) is answered 400 [Note ID is required]
    by the get, delete and update handlers, and the table is not touched.
    The update handler answers so before it looks at its body. *)
Theorem missing_id_is_bad_request
    (rejects : Rejects) (JSON_parse : string -> option JSValue) (rt : Runtime)
    (event : Event.t) (db : Table) :
  Event.httpMethod event <> "OPTIONS" ->
  Event.path_id event = None ->
  serve rejects (NoteById.handler event) db
  = (Ok (responseHelper.error "Note ID is required" 400), db)
  /\ serve rejects (DeleteNote.handler event) db
     = (Ok (responseHelper.error "Note ID is required" 400), db)
  /\ serve rejects (UpdateNote.handler JSON_parse rt event) db
     = (Ok (responseHelper.error "Note ID is required" 400), db).
Proof.
  intros Hm Hp. apply eqb_OPTIONS in Hm.
  rewrite serve_NoteById, serve_DeleteNote, serve_UpdateNote.
  rewrite Hm, Hp. conjuncts; reflexivity.
Qed.

Lemma missing_id_is_bad_request_witness :
  let event :=
    {| Event.httpMethod := "PUT";
       Event.pathParameters := Some {[ "id" := "" ]};
       Event.body := Sample.text_of (JObj [("content", JStr "x")]) |} in
  Event.httpMethod event <> "OPTIONS"
  /\ Event.path_id event = None
  /\ serve limits (UpdateNote.handler Sample.JSON_parse Sample.rt2 event)
       Sample.db1
     = (Ok (responseHelper.error "Note ID is required" 400), Sample.db1).
Proof.
  intros event.
  assert (Hm : Event.httpMethod event <> "OPTIONS") by discriminate.
  assert (Hp : Event.path_id event = None) by reflexivity.
  destruct (missing_id_is_bad_request limits Sample.JSON_parse Sample.rt2 event
              Sample.db1 Hm Hp) as (_ & _ & Hupd).
  split; [exact Hm|]. split; [exact Hp|exact Hupd].
Defined.

(** X3. A create or update request without a body (none, or the empty
    text) is answered 400 [Request body is missing], and one whose body
    does not parse is answered 400 [Invalid JSON in request body]; the
    table is not touched.  For the update handler both checks come before
    the existence check: the answer is 400 also when the table does not
    hold the id. *)
Theorem unusable_body_is_bad_request
    (rejects : Rejects) (JSON_parse : string -> option JSValue) (rt : Runtime)
    (event : Event.t) (db : Table) :
  Event.httpMethod event <> "OPTIONS" ->
  Event.present_body event = None
  \/ (exists text, Event.present_body event = Some text
                   /\ JSON_parse text = None) ->
  let message :=
    match Event.present_body event with
    | None => "Request body is missing"
    | Some _ => "Invalid JSON in request body"
    end in
  serve rejects (CreateNote.handler JSON_parse rt event) db
  = (Ok (responseHelper.error message 400), db)
  /\ (forall id,
        Event.path_id event = Some id ->
        serve rejects (UpdateNote.handler JSON_parse rt event) db
        = (Ok (responseHelper.error message 400), db)).
Proof.
  intros Hm Hbody message. apply eqb_OPTIONS in Hm.
  rewrite serve_CreateNote, serve_UpdateNote. unfold message.
  rewrite Hm.
  destruct Hbody as [Hb|(text & Hb & Hparse)]; rewrite Hb.
  - split; [reflexivity|]. intros id ->. reflexivity.
  - rewrite Hparse. split; [reflexivity|]. intros id ->. reflexivity.
Qed.

Lemma unusable_body_is_bad_request_witness :
  let event :=
    {| Event.httpMethod := "PUT";
       Event.pathParameters := Some {[ "id" := "no-such-note" ]};
       Event.body := Some "{title:" |} in
  Event.httpMethod event <> "OPTIONS"
  /\ Event.path_id event = Some "no-such-note"
  /\ (exists text, Event.present_body event = Some text
                   /\ Sample.JSON_parse text = None)
  /\ Sample.db1 !! "no-such-note" = None
  /\ serve limits (UpdateNote.handler Sample.JSON_parse Sample.rt2 event)
       Sample.db1
     = (Ok (responseHelper.error "Invalid JSON in request body" 400),
        Sample.db1).
Proof.
  intros event.
  assert (Hm : Event.httpMethod event <> "OPTIONS") by discriminate.
  assert (Hp : Event.path_id event = Some "no-such-note") by reflexivity.
  assert (Hb : exists text, Event.present_body event = Some text
                            /\ Sample.JSON_parse text = None).
  { exists "{title:". split; reflexivity. }
  split; [exact Hm|]. split; [exact Hp|]. split; [exact Hb|].
  split; [reflexivity|].
  exact (proj2 (unusable_body_is_bad_request limits Sample.JSON_parse
                  Sample.rt2 event Sample.db1 Hm (or_intror Hb))
           "no-such-note" Hp).
Defined.

(** ** The answers *)

(** X4. Every answer of every handler, whatever the event, the table
    and what the store rejects, carries the two CORS headers
    [Access-Control-Allow-Origin: *] and
    [Access-Control-Allow-Credentials: true], and has a text as its body:
    no branch returns an [undefined] body. *)
Theorem every_answer_has_cors_headers_and_a_body
    (rejects : Rejects) (JSON_parse : string -> option JSValue) (rt : Runtime)
    (event : Event.t) (db : Table) (r : Response.t) :
  fst (serve rejects (NoteById.handler event) db) = Ok r
  \/ fst (serve rejects (DeleteNote.handler event) db) = Ok r
  \/ fst (serve rejects (CreateNote.handler JSON_parse rt event) db) = Ok r
  \/ fst (serve rejects (UpdateNote.handler JSON_parse rt event) db) = Ok r
  \/ fst (serve rejects (GetAllNotes.handler event) db) = Ok r ->
  obj_get "Access-Control-Allow-Origin" (Response.headers r) = JStr "*"
  /\ obj_get "Access-Control-Allow-Credentials" (Response.headers r)
     = JBool true
  /\ exists text, Response.body r = Some text.
Proof.
  intros [H|[H|[H|[H|H]]]].
  - destruct (NoteById_outcome rejects event db)
      as (r' & Hr & [Hc|[Hc|(id & item & _ & _ & Hc)]]);
      rewrite Hr in H; injection H as <-;
      apply answer_is_well_formed; eauto 6.
  - destruct (DeleteNote_outcome rejects event db)
      as [(r' & Hr & [Hc|Hc])|(id & item & _ & _ & Hr)];
      rewrite Hr in H; injection H as <-;
      apply answer_is_well_formed; eauto 6.
  - destruct (CreateNote_outcome rejects JSON_parse rt event db)
      as [(r' & Hr & [Hc|Hc])|(title & content & _ & Hr)];
      rewrite Hr in H; injection H as <-;
      apply answer_is_well_formed; eauto 6.
  - destruct (UpdateNote_outcome rejects JSON_parse rt event db)
      as [(r' & Hr & [Hc|Hc])|(id & item & title & content & _ & _ & Hr)];
      rewrite Hr in H; injection H as <-;
      apply answer_is_well_formed; eauto 6.
  - destruct (GetAllNotes_outcome rejects event db)
      as (r' & Hr & [Hc|[_ Hc]]); rewrite Hr in H; injection H as <-.
    + apply answer_is_well_formed; eauto.
    + subst r'. conjuncts; [reflexivity|reflexivity|eexists; reflexivity].
Qed.

Lemma every_answer_has_cors_headers_and_a_body_witness :
  let event := Sample.event "DELETE" (Some "no-such-note") JUndefined in
  let r := responseHelper.error "Note not found" 404 in
  fst (serve limits (DeleteNote.handler event) Sample.db1) = Ok r
  /\ obj_get "Access-Control-Allow-Origin" (Response.headers r) = JStr "*"
  /\ Response.statusCode r = 404.
Proof.
  intros event r.
  assert (Hr : fst (serve limits (DeleteNote.handler event) Sample.db1) = Ok r)
    by reflexivity.
  split; [exact Hr|]. split; [|reflexivity].
  exact (proj1 (every_answer_has_cors_headers_and_a_body limits
                  Sample.JSON_parse Sample.rt1 event Sample.db1 r
                  (or_intror (or_introl Hr)))).
Defined.

(** X5. A request that is refused never writes: when the status of an
    answer of the get, delete, create or update handler is 400 or above,
    the table after the request is the table before it. *)
Theorem refused_requests_do_not_write
    (rejects : Rejects) (JSON_parse : string -> option JSValue) (rt : Runtime)
    (event : Event.t) (db : Table) :
  (forall r db',
     serve rejects (NoteById.handler event) db = (Ok r, db') ->
     400 <= Response.statusCode r -> db' = db)
  /\ (forall r db',
        serve rejects (DeleteNote.handler event) db = (Ok r, db') ->
        400 <= Response.statusCode r -> db' = db)
  /\ (forall r db',
        serve rejects (CreateNote.handler JSON_parse rt event) db = (Ok r, db') ->
        400 <= Response.statusCode r -> db' = db)
  /\ (forall r db',
        serve rejects (UpdateNote.handler JSON_parse rt event) db = (Ok r, db') ->
        400 <= Response.statusCode r -> db' = db).
Proof.
  conjuncts; intros r db' H.
  - destruct (NoteById_outcome rejects event db) as (r' & Hr & _).
    rewrite Hr in H. now injection H as _ <-.
  - destruct (DeleteNote_outcome rejects event db)
      as [(r' & Hr & _)|(id & item & _ & _ & Hr)];
      rewrite Hr in H; injection H as <- <-; [reflexivity|cbn; lia].
  - destruct (CreateNote_outcome rejects JSON_parse rt event db)
      as [(r' & Hr & _)|(title & content & _ & Hr)];
      rewrite Hr in H; injection H as <- <-; [reflexivity|cbn; lia].
  - destruct (UpdateNote_outcome rejects JSON_parse rt event db)
      as [(r' & Hr & _)|(id & item & title & content & _ & _ & Hr)];
      rewrite Hr in H; injection H as <- <-; [reflexivity|cbn; lia].
Qed.

(** ** One request after another *)

Lemma NoteById_present (rejects : Rejects) (event : Event.t) (id : string)
    (item : Obj) (db : Table) :
  Event.httpMethod event <> "OPTIONS" ->
  Event.path_id event = Some id ->
  db !! id = Some item ->
  rejects (Get id) db = None ->
  serve rejects (NoteById.handler event) db
  = (Ok (responseHelper.success (JObj item) 200), db).
Proof.
  intros Hm Hp Hitem Hget. apply eqb_OPTIONS in Hm.
  now rewrite serve_NoteById, Hm, Hp, Hget, Hitem.
Qed.

Lemma NoteById_absent (rejects : Rejects) (event : Event.t) (id : string)
    (db : Table) :
  Event.httpMethod event <> "OPTIONS" ->
  Event.path_id event = Some id ->
  db !! id = None ->
  rejects (Get id) db = None ->
  serve rejects (NoteById.handler event) db
  = (Ok (responseHelper.error "Note not found" 404), db).
Proof.
  intros Hm Hp Hitem Hget. apply eqb_OPTIONS in Hm.
  now rewrite serve_NoteById, Hm, Hp, Hget, Hitem.
Qed.



(** X7. Delete, then get or delete again.  When the delete handler
    answers 204, the note is gone: a get request and a second delete
    request for the same id, served on the table the delete left by a store
    that serves the lookup, are both answered 404 [Note not found].  Every
    note under another id is still there, unchanged. *)
Theorem delete_then_get_is_not_found
    (rejects : Rejects) (delete_ get : Event.t) (db db' : Table)
    (deleted : Response.t) (id : string) :
  serve rejects (DeleteNote.handler delete_) db = (Ok deleted, db') ->
  Response.statusCode deleted = 204 ->
  Event.httpMethod get <> "OPTIONS" ->
  Event.path_id get = Event.path_id delete_ ->
  Event.path_id delete_ = Some id ->
  rejects (Get id) db' = None ->
  serve rejects (NoteById.handler get) db'
  = (Ok (responseHelper.error "Note not found" 404), db')
  /\ serve rejects (DeleteNote.handler delete_) db'
     = (Ok (responseHelper.error "Note not found" 404), db')
  /\ db' !! id = None
  /\ (forall id', id' <> id -> db' !! id' = db !! id').
Proof.
  intros Hdelete Hstatus Hm Hp Hid Hget.
  destruct (DeleteNote_outcome rejects delete_ db)
    as [(r & Hr & [->|Href])|(id' & item & Hid' & Hitem & Hr)];
    rewrite Hr in Hdelete; injection Hdelete as <- <-.
  - discriminate Hstatus.
  - exfalso. revert Hstatus. apply refusal_not_success; [lia|exact Href].
  - rewrite Hid in Hid'. injection Hid' as <-. rewrite Hid in Hp.
    assert (Hgone : delete id db !! id = None) by apply lookup_delete_eq.
    assert (Hmd : Event.httpMethod delete_ <> "OPTIONS").
    { intros Hopt. rewrite serve_DeleteNote, Hopt in Hr. discriminate Hr. }
    conjuncts.
    + now apply (NoteById_absent rejects get id).
    + apply eqb_OPTIONS in Hmd. rewrite serve_DeleteNote, Hmd, Hid.
      cbv zeta. now rewrite Hget, Hgone.
    + exact Hgone.
    + intros id' Hne. apply lookup_delete_ne. congruence.
Qed.

Lemma delete_then_get_is_not_found_witness :
  let id := uuidv4 Sample.rt1 in
  let delete_ := Sample.event "DELETE" (Some id) JUndefined in
  let get := Sample.event "GET" (Some id) JUndefined in
  let deleted :=
    responseHelper.success
      (JObj [("message", JStr "Note deleted successfully")]) 204 in
  serve limits (DeleteNote.handler delete_) Sample.db1 = (Ok deleted, ∅)
  /\ Response.statusCode deleted = 204
  /\ Event.httpMethod get <> "OPTIONS"
  /\ Event.path_id get = Event.path_id delete_
  /\ Event.path_id delete_ = Some id
  /\ limits (Get id) ∅ = None
  /\ serve limits (NoteById.handler get) ∅
     = (Ok (responseHelper.error "Note not found" 404), ∅).
Proof.
  intros id delete_ get deleted.
  assert (Hd : serve limits (DeleteNote.handler delete_) Sample.db1
               = (Ok deleted, ∅)) by reflexivity.
  assert (Hs : Response.statusCode deleted = 204) by reflexivity.
  assert (Hm : Event.httpMethod get <> "OPTIONS") by discriminate.
  assert (Hp : Event.path_id get = Event.path_id delete_) by reflexivity.
  assert (Hid : Event.path_id delete_ = Some id) by reflexivity.
  assert (Hget : limits (Get id) ∅ = None) by reflexivity.
  split; [exact Hd|]. split; [exact Hs|]. split; [exact Hm|].
  split; [exact Hp|]. split; [exact Hid|]. split; [exact Hget|].
  exact (proj1 (delete_then_get_is_not_found limits delete_ get Sample.db1 ∅
                  deleted id Hd Hs Hm Hp Hid Hget)).
Defined.

(** X8. Update, then get.  When the update handler answers a request
    other than the preflight with 200, a get request for the same id,
    served on the table the update left by a store that serves the lookup,
    is answered 200 with the very body of the update answer. *)
Theorem update_then_get_returns_the_update
    (rejects : Rejects) (JSON_parse : string -> option JSValue) (rt : Runtime)
    (update get : Event.t) (db db' : Table) (updated : Response.t)
    (id : string) :
  Event.httpMethod update <> "OPTIONS" ->
  serve rejects (UpdateNote.handler JSON_parse rt update) db
  = (Ok updated, db') ->
  Response.statusCode updated = 200 ->
  Event.httpMethod get <> "OPTIONS" ->
  Event.path_id get = Event.path_id update ->
  Event.path_id update = Some id ->
  rejects (Get id) db' = None ->
  serve rejects (NoteById.handler get) db' = (Ok updated, db').
Proof.
  intros Hmu Hupdate Hstatus Hm Hp Hid Hget.
  destruct (UpdateNote_request_outcome rejects JSON_parse rt update db Hmu)
    as [(r & Hr & Href)|(id' & item & title & content & Hid' & Hitem & Hr)];
    rewrite Hr in Hupdate; injection Hupdate as <- <-.
  - exfalso. revert Hstatus. apply refusal_not_success; [lia|exact Href].
  - rewrite Hid in Hid'. injection Hid' as <-. rewrite Hid in Hp.
    now rewrite (NoteById_present rejects get id _ _ Hm Hp
                   (lookup_insert_eq _ _ _) Hget).
Qed.

Lemma update_then_get_returns_the_update_witness :
  let id := uuidv4 Sample.rt1 in
  let update := Sample.event "PUT" (Some id) (JObj [("content", JStr "x")]) in
  let get := Sample.event "GET" (Some id) JUndefined in
  let updatedNote :=
    note_of id (JStr "Groceries") (JStr "x")
      (toISOString Sample.rt1) (toISOString Sample.rt2) in
  let updated := responseHelper.success (JObj updatedNote) 200 in
  let db' : Table := <[id := updatedNote]> Sample.db1 in
  Event.httpMethod update <> "OPTIONS"
  /\ serve limits (UpdateNote.handler Sample.JSON_parse Sample.rt2 update)
       Sample.db1
     = (Ok updated, db')
  /\ Response.statusCode updated = 200
  /\ Event.httpMethod get <> "OPTIONS"
  /\ Event.path_id get = Event.path_id update
  /\ Event.path_id update = Some id
  /\ limits (Get id) db' = None
  /\ serve limits (NoteById.handler get) db' = (Ok updated, db').
Proof.
  intros id update get updatedNote updated db'.
  assert (Hmu : Event.httpMethod update <> "OPTIONS") by discriminate.
  assert (Hu : serve limits
                 (UpdateNote.handler Sample.JSON_parse Sample.rt2 update)
                 Sample.db1 = (Ok updated, db')) by reflexivity.
  assert (Hs : Response.statusCode updated = 200) by reflexivity.
  assert (Hm : Event.httpMethod get <> "OPTIONS") by discriminate.
  assert (Hp : Event.path_id get = Event.path_id update) by reflexivity.
  assert (Hid : Event.path_id update = Some id) by reflexivity.
  assert (Hget : limits (Get id) db' = None) by reflexivity.
  split; [exact Hmu|]. split; [exact Hu|]. split; [exact Hs|].
  split; [exact Hm|]. split; [exact Hp|]. split; [exact Hid|].
  split; [exact Hget|].
  exact (update_then_get_returns_the_update limits Sample.JSON_parse
           Sample.rt2 update get Sample.db1 db' updated id
           Hmu Hu Hs Hm Hp Hid Hget).
Defined.

(** ** What a request leaves alone *)


(** ** Update and create on every object body *)



(** X11. Create, for every object body.  The request is refused with
    400 exactly when [title] is falsy (absent, [null], [false], [0] or
    the empty string), and then nothing is sent to the store.  Otherwise
    the note is put, whatever the type of [title], with the [title] as
    given and with the [content] as given when that is truthy and the
    empty string when it is absent or falsy.  When the store accepts the
    note, the request is answered 201 and the note is stored under the
    drawn id.  When the document client or the store rejects it, as they
    do a title that is a number outside the safe range or a note over the
    size limit of an item, the rejection is caught and answered with its
    message, as a 500 unless the message is the handler's own, and the
    table is left as it is. *)
Theorem create_accepts_every_truthy_title
    (rejects : Rejects) (JSON_parse : string -> option JSValue) (rt : Runtime)
    (event : Event.t) (text : string) (o : Obj) (db : Table) :
  Event.httpMethod event <> "OPTIONS" ->
  Event.present_body event = Some text ->
  JSON_parse text = Some (JObj o) ->
  let title := obj_get "title" o in
  let content := obj_get "content" o in
  let newNote :=
    note_of (uuidv4 rt) title (if truthy content then content else JStr "")
      (toISOString rt) (toISOString rt) in
  serve rejects (CreateNote.handler JSON_parse rt event) db
  = (if truthy title
     then
       match rejects (Put newNote) db with
       | None =>
           (Ok (responseHelper.success (JObj newNote) 201),
            <[uuidv4 rt := newNote]> db)
       | Some message =>
           (Ok (if String.eqb message "Title is required"
                then responseHelper.error message 400
                else responseHelper.error message 500), db)
       end
     else (Ok (responseHelper.error "Title is required" 400), db))
  /\ obj_get "title" newNote = title
  /\ obj_get "content" newNote
     = (if truthy content then content else JStr "")
  /\ (truthy content = false -> obj_get "content" newNote = JStr "").
Proof.
  intros Hm Hb Hparse title content newNote. apply eqb_OPTIONS in Hm.
  conjuncts.
  - rewrite serve_CreateNote, Hm, Hb, Hparse, serve_createNote.
    cbn [destructure_title_content prop]. fold title. fold content.
    destruct (truthy title); [|reflexivity].
    cbv zeta. fold newNote.
    destruct (rejects (Put newNote) db); reflexivity.
  - reflexivity.
  - reflexivity.
  - intros Hc. cbn. now rewrite Hc.
Qed.

Lemma create_accepts_every_truthy_title_witness :
  let body := JObj [("title", JNum 9007199254740992)] in
  let event := Sample.event "POST" None body in
  let text := default "" (Sample.text_of body) in
  let message :=
    "Number 9007199254740992 is greater than Number.MAX_SAFE_INTEGER. Use BigInt." in
  Event.httpMethod event <> "OPTIONS"
  /\ Event.present_body event = Some text
  /\ Sample.JSON_parse text = Some body
  /\ limits (Put (note_of (uuidv4 Sample.rt2) (JNum 9007199254740992)
                    (JStr "") (toISOString Sample.rt2)
                    (toISOString Sample.rt2))) Sample.db1
     = Some message
  /\ serve limits (CreateNote.handler Sample.JSON_parse Sample.rt2 event)
       Sample.db1
     = (Ok (responseHelper.error message 500), Sample.db1).
Proof.
  intros body event text message.
  assert (Hm : Event.httpMethod event <> "OPTIONS") by discriminate.
  assert (Hb : Event.present_body event = Some text) by reflexivity.
  assert (Hparse : Sample.JSON_parse text = Some body) by reflexivity.
  split; [exact Hm|]. split; [exact Hb|]. split; [exact Hparse|].
  split; [reflexivity|].
  exact (proj1 (create_accepts_every_truthy_title limits Sample.JSON_parse
                  Sample.rt2 event text [("title", JNum 9007199254740992)]
                  Sample.db1 Hm Hb Hparse)).
Defined.

(** ** The list handler *)

Lemma scan_items (db : Table) (item : Obj) :
  In item (map snd (map_to_list db)) <-> exists id, db !! id = Some item.
Proof.
  rewrite <- list_elem_of_In, list_elem_of_fmap. split.
  - intros ([id item'] & -> & Hin). exists id.
    now apply elem_of_map_to_list.
  - intros (id & Hid). exists (id, item). split; [reflexivity|].
    now apply elem_of_map_to_list.
Qed.

(** X12. The list handler answers every event alike, the preflight
    request included, since it reads nothing of the event, and it leaves
    the table as it is.  When the store serves the scan the answer has
    status 200 and the two CORS headers, and on the empty table the body is
    the text of the empty array, not an error; when the store rejects the
    scan the answer is a 500 with the message of the store.  Neither is
    the preflight answer. *)
Theorem list_ignores_the_event (rejects : Rejects) (event event' : Event.t)
    (db : Table) :
  GetAllNotes.handler event = GetAllNotes.handler event'
  /\ serve rejects (GetAllNotes.handler event) db
     = serve rejects (GetAllNotes.handler event') db
  /\ snd (serve rejects (GetAllNotes.handler event) db) = db
  /\ (rejects Scan db = None ->
      exists r,
        serve rejects (GetAllNotes.handler event) db = (Ok r, db)
        /\ Response.statusCode r = 200
        /\ Response.headers r = responseHelper.cors_headers
        /\ (db = ∅ -> Response.body r = Some "[]"))
  /\ (forall message,
        rejects Scan db = Some message ->
        serve rejects (GetAllNotes.handler event) db
        = (Ok (responseHelper.error message 500), db))
  /\ fst (serve rejects (GetAllNotes.handler event) db)
     <> Ok responseHelper.cors.
Proof.
  conjuncts; try reflexivity.
  - now destruct (GetAllNotes_outcome rejects event db) as (r & -> & _).
  - intros Hscan. rewrite serve_GetAllNotes, Hscan. eexists.
    split; [reflexivity|]. conjuncts; try reflexivity. now intros ->.
  - intros message Hscan. now rewrite serve_GetAllNotes, Hscan.
  - rewrite serve_GetAllNotes.
    destruct (rejects Scan db); cbn [fst]; intros H;
      apply (f_equal (fun x => match x with
                               | Ok r => Response.headers r
                               | Throw _ => []
                               end)) in H;
      discriminate H.
Qed.

(** X13. The scan behind the list handler, when the store serves it,
    returns the stored notes and nothing else: an item is among [Items]
    exactly when the table holds it under some id, there are as many items
    as the table has ids, and the body of the list answer is the
    serialised array of these items. *)
Theorem list_holds_exactly_the_stored_notes (rejects : Rejects)
    (event : Event.t) (db : Table) :
  rejects Scan db = None ->
  exists Items,
    serve rejects ScanCommand db = (Ok Items, db)
    /\ (forall item, In item Items <-> exists id, db !! id = Some item)
    /\ length Items = size db
    /\ serve rejects (GetAllNotes.handler event) db
       = (Ok {| Response.statusCode := 200;
                Response.headers := responseHelper.cors_headers;
                Response.body := JSON_stringify (JArr (map JObj Items)) |},
          db).
Proof.
  intros Hscan. exists (map snd (map_to_list db)). conjuncts.
  - now rewrite serve_ScanCommand, Hscan.
  - intros item. apply scan_items.
  - rewrite length_map. apply length_map_to_list.
  - now rewrite serve_GetAllNotes, Hscan.
Qed.

Lemma list_holds_exactly_the_stored_notes_witness :
  let event := Sample.event "GET" None JUndefined in
  limits Scan Sample.db1 = None
  /\ serve limits ScanCommand Sample.db1 = (Ok [Sample.groceries], Sample.db1)
  /\ serve limits (GetAllNotes.handler event) Sample.db1
     = (Ok {| Response.statusCode := 200;
              Response.headers := responseHelper.cors_headers;
              Response.body :=
                JSON_stringify (JArr [JObj Sample.groceries]) |},
        Sample.db1).
Proof.
  intros event.
  assert (Hscan : limits Scan Sample.db1 = None) by reflexivity.
  destruct (list_holds_exactly_the_stored_notes limits event Sample.db1 Hscan)
    as (Items & HItems & _ & _ & Hanswer).
  split; [exact Hscan|].
  assert (E : Items = [Sample.groceries]).
  { assert (H : serve limits ScanCommand Sample.db1
                = (Ok [Sample.groceries], Sample.db1)) by reflexivity.
    rewrite H in HItems. now injection HItems as <-. }
  subst Items. split; [exact HItems|exact Hanswer].
Defined.

(** * More of the mock store *)

(** ** Spreading one object over another *)

Lemma obj_get_spread_absent (k : string) (src dst : Obj) :
  ~ In k (keys src) -> obj_get k (spread src dst) = obj_get k dst.
Proof.
  unfold spread. revert dst.
  induction src as [|[k' v'] src IH]; intros dst Hk; [reflexivity|].
  cbn [fold_left fst snd]. rewrite IH.
  - apply obj_get_set_ne. intros ->. apply Hk. now left.
  - intros Hin. apply Hk. now right.
Qed.

Lemma obj_get_spread_in (k : string) (v : JSValue) (src dst : Obj) :
  NoDup (keys src) -> In (k, v) src -> obj_get k (spread src dst) = v.
Proof.
  unfold spread. revert dst.
  induction src as [|[k' v'] src IH]; intros dst Hnd Hin; [destruct Hin|].
  cbn [fold_left fst snd]. cbn in Hnd.
  apply NoDup_cons in Hnd as [Hnotin Hnd].
  destruct Hin as [[= -> ->]|Hin].
  - fold (spread src (obj_set k v dst)).
    rewrite obj_get_spread_absent.
    + apply obj_get_set_eq.
    + intros Hin. apply Hnotin. now apply list_elem_of_In.
  - now apply IH.
Qed.

Lemma has_id_inv (id : string) (note : Obj) :
  api.has_id id note = true <-> obj_get "id" note = JStr id.
Proof.
  unfold api.has_id, strict_eq_str.
  destruct (obj_get "id" note); try (split; discriminate).
  rewrite String.eqb_eq. split; congruence.
Qed.

Lemma has_id_other (id id' : string) (note : Obj) :
  id <> id' -> api.has_id id note = true -> api.has_id id' note = false.
Proof.
  intros Hne H. apply has_id_inv in H. unfold api.has_id. rewrite H. cbn.
  now apply String.eqb_neq.
Qed.

(** ** Searching the array *)

Lemma find_snoc {A} (p : A -> bool) (xs : list A) (x : A) :
  List.find p (xs ++ [x])
  = match List.find p xs with
    | Some y => Some y
    | None => if p x then Some x else None
    end.
Proof.
  induction xs as [|y xs IH]; cbn; [reflexivity|].
  destruct (p y); [reflexivity|exact IH].
Qed.

Lemma find_filter_same (id : string) (data : api.MockNotes) :
  List.find (api.has_id id)
    (List.filter (fun note => negb (api.has_id id note)) data) = None.
Proof.
  induction data as [|note data IH]; cbn; [reflexivity|].
  destruct (api.has_id id note) eqn:H; cbn; [exact IH|].
  now rewrite H.
Qed.

Lemma find_filter_other (id id' : string) (data : api.MockNotes) :
  id <> id' ->
  List.find (api.has_id id')
    (List.filter (fun note => negb (api.has_id id note)) data)
  = List.find (api.has_id id') data.
Proof.
  intros Hne. induction data as [|note data IH]; cbn; [reflexivity|].
  destruct (api.has_id id note) eqn:H; cbn.
  - rewrite (has_id_other id id' note Hne H). exact IH.
  - destruct (api.has_id id' note); [reflexivity|exact IH].
Qed.

Lemma findIndex_find {A} (p : A -> bool) (xs : list A) :
  match api.findIndex p xs with
  | Some i =>
      exists x, xs !! i = Some x /\ p x = true /\ List.find p xs = Some x
                /\ forall j y, (j < i)%nat -> xs !! j = Some y -> p y = false
  | None => List.find p xs = None
  end.
Proof.
  induction xs as [|x xs IH]; cbn; [reflexivity|].
  destruct (p x) eqn:Hx.
  - exists x. conjuncts; try reflexivity; [exact Hx|]. intros j y Hj. lia.
  - destruct (api.findIndex p xs) as [i|]; [|exact IH].
    destruct IH as (y & Hy & Hpy & Hfind & Hbefore).
    exists y. conjuncts; try assumption.
    intros [|j] z Hj Hz; cbn in Hz.
    + congruence.
    + apply (Hbefore j z); [lia|exact Hz].
Qed.

Lemma find_insert {A} (p : A -> bool) (xs : list A) (i : nat) (x x' : A) :
  xs !! i = Some x ->
  (forall j y, (j < i)%nat -> xs !! j = Some y -> p y = false) ->
  p x' = true ->
  List.find p (<[i := x']> xs) = Some x'.
Proof.
  revert i. induction xs as [|y xs IH]; intros [|i] Hi Hbefore Hp;
    try discriminate Hi; cbn.
  - now rewrite Hp.
  - rewrite (Hbefore 0%nat y) by (first [lia|reflexivity]).
    apply (IH i); [exact Hi| |exact Hp].
    intros j z Hj Hz. apply (Hbefore (S j) z); [lia|exact Hz].
Qed.

Lemma find_insert_other {A} (p : A -> bool) (xs : list A) (i : nat)
    (x x' : A) :
  xs !! i = Some x -> p x = false -> p x' = false ->
  List.find p (<[i := x']> xs) = List.find p xs.
Proof.
  revert i. induction xs as [|y xs IH]; intros [|i] Hi Hx Hx';
    try discriminate Hi; cbn.
  - injection Hi as ->. now rewrite Hx, Hx'.
  - destruct (p y); [reflexivity|]. now apply (IH i).
Qed.

Lemma mock_new_note_id (br : api.Browser) (noteData : Obj) :
  ~ In "id" (keys noteData) ->
  obj_get "id"
    (obj_set "updatedAt" (JStr (api.Date_toISOString br))
       (obj_set "createdAt" (JStr (api.Date_toISOString br))
          (spread noteData [("id", JStr (pretty (api.Date_now br)))])))
  = JStr (pretty (api.Date_now br)).
Proof.
  intros Hid. rewrite !obj_get_set_ne by discriminate.
  now rewrite obj_get_spread_absent.
Qed.

Lemma mockNoteById_snoc_other (id id' : string) (data : api.MockNotes)
    (note : Obj) :
  obj_get "id" note = JStr id -> id' <> id ->
  api.mockNoteById id' (data ++ [note]) = api.mockNoteById id' data.
Proof.
  intros Hnote Hne. unfold api.mockNoteById. rewrite find_snoc.
  destruct (List.find (api.has_id id') data); [reflexivity|].
  rewrite (has_id_other id id' note); [reflexivity|congruence|].
  now apply has_id_inv.
Qed.

(** ** Create, update and delete in the mock store *)

(** X14. Mock create, then get.  For an input without an [id] and a
    store in which no note carries the text of [Date.now()] as its id,
    [mockCreateNote] appends a note with that id and with both timestamps
    set to the one clock reading; [mockNoteById] of that id then resolves
    with the new note, and for every other id it answers as it did
    before. *)
Theorem mock_create_then_get (br : api.Browser) (noteData : Obj)
    (data : api.MockNotes) :
  ~ In "id" (keys noteData) ->
  (forall note, In note data ->
                api.has_id (pretty (api.Date_now br)) note = false) ->
  let id := pretty (api.Date_now br) in
  exists newNote,
    api.mockCreateNote br noteData data
    = (Ok newNote, (data ++ [newNote])%list)
    /\ obj_get "id" newNote = JStr id
    /\ obj_get "createdAt" newNote = JStr (api.Date_toISOString br)
    /\ obj_get "updatedAt" newNote = JStr (api.Date_toISOString br)
    /\ api.mockNoteById id (data ++ [newNote]) = Ok newNote
    /\ (forall id', id' <> id ->
          api.mockNoteById id' (data ++ [newNote]) = api.mockNoteById id' data).
Proof.
  intros Hid Hfresh id. subst id. eexists. split; [reflexivity|].
  pose proof (mock_new_note_id br noteData Hid) as Hnew.
  conjuncts.
  - exact Hnew.
  - rewrite obj_get_set_ne by discriminate. apply obj_get_set_eq.
  - apply obj_get_set_eq.
  - unfold api.mockNoteById. rewrite find_snoc.
    rewrite (find_absent _ _ Hfresh).
    now rewrite (proj2 (has_id_inv _ _) Hnew).
  - intros id' Hne.
    now apply (mockNoteById_snoc_other (pretty (api.Date_now br))).
Qed.

Lemma mock_create_then_get_witness :
  let noteData : Obj := [("title", JStr "Groceries"); ("content", JStr "milk")] in
  let newNote :=
    note_of "1714557607000" (JStr "Groceries") (JStr "milk")
      (api.Date_toISOString Sample.dev) (api.Date_toISOString Sample.dev) in
  ~ In "id" (keys noteData)
  /\ (forall note, In note Sample.mock_data ->
                   api.has_id (pretty (api.Date_now Sample.dev)) note = false)
  /\ api.mockCreateNote Sample.dev noteData Sample.mock_data
     = (Ok newNote, (Sample.mock_data ++ [newNote])%list)
  /\ api.mockNoteById "1714557607000" (Sample.mock_data ++ [newNote])
     = Ok newNote.
Proof.
  intros noteData newNote.
  assert (Hid : ~ In "id" (keys noteData)).
  { cbn. intros [H|[H|[]]]; discriminate H. }
  assert (Hfresh : forall note, In note Sample.mock_data ->
            api.has_id (pretty (api.Date_now Sample.dev)) note = false).
  { intros note [<-|[<-|[]]]; reflexivity. }
  split; [exact Hid|]. split; [exact Hfresh|]. split; [reflexivity|].
  destruct (mock_create_then_get Sample.dev noteData Sample.mock_data
              Hid Hfresh) as (n & Hc & _ & _ & _ & Hget & _).
  injection Hc as <-. exact Hget.
Defined.

(** X15. The ids of the mock store can collide.  Two notes created
    within the same millisecond get the same id: both are stored, and
    [mockNoteById] of that id resolves with the first, so the second
    cannot be fetched. *)
Theorem mock_ids_collide_within_a_millisecond
    (br1 br2 : api.Browser) (noteData1 noteData2 : Obj)
    (data : api.MockNotes) :
  api.Date_now br1 = api.Date_now br2 ->
  ~ In "id" (keys noteData1) ->
  ~ In "id" (keys noteData2) ->
  (forall note, In note data ->
                api.has_id (pretty (api.Date_now br1)) note = false) ->
  let id := pretty (api.Date_now br1) in
  exists first second,
    api.mockCreateNote br1 noteData1 data
    = (Ok first, (data ++ [first])%list)
    /\ api.mockCreateNote br2 noteData2 (data ++ [first])
       = (Ok second, ((data ++ [first]) ++ [second])%list)
    /\ obj_get "id" first = JStr id
    /\ obj_get "id" second = JStr id
    /\ api.mockNoteById id ((data ++ [first]) ++ [second]) = Ok first.
Proof.
  intros Hnow Hid1 Hid2 Hfresh id. subst id. eexists _, _.
  split; [reflexivity|]. split; [reflexivity|].
  pose proof (mock_new_note_id br1 noteData1 Hid1) as H1.
  pose proof (mock_new_note_id br2 noteData2 Hid2) as H2.
  conjuncts; [exact H1|rewrite Hnow; exact H2|].
  unfold api.mockNoteById. rewrite !find_snoc.
  rewrite (find_absent _ _ Hfresh).
  now rewrite (proj2 (has_id_inv _ _) H1).
Qed.

Lemma mock_ids_collide_within_a_millisecond_witness :
  let noteData1 : Obj := [("title", JStr "first")] in
  let noteData2 : Obj := [("title", JStr "second")] in
  let first : Obj :=
    [("id", JStr "1714557607000"); ("title", JStr "first");
     ("createdAt", JStr (api.Date_toISOString Sample.dev));
     ("updatedAt", JStr (api.Date_toISOString Sample.dev))] in
  api.Date_now Sample.dev = api.Date_now Sample.prod
  /\ ~ In "id" (keys noteData1)
  /\ ~ In "id" (keys noteData2)
  /\ (forall note, In note Sample.mock_data ->
                   api.has_id (pretty (api.Date_now Sample.dev)) note = false)
  /\ api.mockNoteById "1714557607000"
       (snd (api.mockCreateNote Sample.prod noteData2
               (snd (api.mockCreateNote Sample.dev noteData1
                       Sample.mock_data))))
     = Ok first.
Proof.
  intros noteData1 noteData2 first.
  assert (Hnow : api.Date_now Sample.dev = api.Date_now Sample.prod)
    by reflexivity.
  assert (Hid1 : ~ In "id" (keys noteData1)).
  { cbn. intros [H|[]]; discriminate H. }
  assert (Hid2 : ~ In "id" (keys noteData2)).
  { cbn. intros [H|[]]; discriminate H. }
  assert (Hfresh : forall note, In note Sample.mock_data ->
            api.has_id (pretty (api.Date_now Sample.dev)) note = false).
  { intros note [<-|[<-|[]]]; reflexivity. }
  split; [exact Hnow|]. split; [exact Hid1|]. split; [exact Hid2|].
  split; [exact Hfresh|].
  destruct (mock_ids_collide_within_a_millisecond Sample.dev Sample.prod
              noteData1 noteData2 Sample.mock_data Hnow Hid1 Hid2 Hfresh)
    as (n1 & n2 & Hc1 & Hc2 & _ & _ & Hget).
  injection Hc1 as <-. injection Hc2 as <-. exact Hget.
Defined.

(** X16. [mockCreateNote] copies every field of its input into the new
    note, except [createdAt] and [updatedAt], which it overwrites.  An
    [id] in the input therefore replaces the generated one, and the note
    is found under the id the caller chose. *)
Theorem mock_create_copies_the_input
    (br : api.Browser) (noteData : Obj) (data : api.MockNotes)
    (k : string) (v : JSValue) :
  NoDup (keys noteData) ->
  In (k, v) noteData ->
  k <> "createdAt" ->
  k <> "updatedAt" ->
  exists newNote,
    api.mockCreateNote br noteData data
    = (Ok newNote, (data ++ [newNote])%list)
    /\ obj_get k newNote = v
    /\ (forall id, k = "id" -> v = JStr id -> api.has_id id newNote = true).
Proof.
  intros Hnd Hin Hc Hu. eexists. split; [reflexivity|].
  assert (Hk : obj_get k
                 (obj_set "updatedAt" (JStr (api.Date_toISOString br))
                    (obj_set "createdAt" (JStr (api.Date_toISOString br))
                       (spread noteData
                          [("id", JStr (pretty (api.Date_now br)))]))) = v).
  { rewrite !obj_get_set_ne by congruence.
    now apply obj_get_spread_in. }
  split; [exact Hk|].
  intros id -> ->. now apply has_id_inv.
Qed.

Lemma mock_create_copies_the_input_witness :
  let noteData : Obj := [("id", JStr "mine"); ("title", JStr "Groceries")] in
  let newNote : Obj :=
    [("id", JStr "mine"); ("title", JStr "Groceries");
     ("createdAt", JStr (api.Date_toISOString Sample.dev));
     ("updatedAt", JStr (api.Date_toISOString Sample.dev))] in
  NoDup (keys noteData)
  /\ In ("id", JStr "mine") noteData
  /\ "id" <> "createdAt"
  /\ "id" <> "updatedAt"
  /\ api.mockCreateNote Sample.dev noteData Sample.mock_data
     = (Ok newNote, (Sample.mock_data ++ [newNote])%list)
  /\ obj_get "id" newNote = JStr "mine".
Proof.
  intros noteData newNote.
  assert (Hnd : NoDup (keys noteData)).
  { cbn. apply NoDup_cons. split.
    - intros H. apply list_elem_of_In in H. destruct H as [H|[]].
      discriminate H.
    - apply NoDup_singleton. }
  assert (Hin : In ("id", JStr "mine") noteData) by (now left).
  assert (Hc : "id" <> "createdAt") by discriminate.
  assert (Hu : "id" <> "updatedAt") by discriminate.
  split; [exact Hnd|]. split; [exact Hin|]. split; [exact Hc|].
  split; [exact Hu|]. split; [reflexivity|].
  destruct (mock_create_copies_the_input Sample.dev noteData Sample.mock_data
              "id" (JStr "mine") Hnd Hin Hc Hu) as (n & Hn & Hk & _).
  injection Hn as <-. exact Hk.
Defined.

(** X17. Mock delete, then get.  [mockDeleteNote] always resolves, and
    afterwards no note carries the id: [mockNoteById] of it rejects with
    [Note not found], a second delete changes nothing, and for every other
    id [mockNoteById] answers as it did before.  The store never grows. *)
Theorem mock_delete_then_get (id : string) (data : api.MockNotes) :
  let data' := snd (api.mockDeleteNote id data) in
  fst (api.mockDeleteNote id data) = Ok tt
  /\ api.mockNoteById id data' = Throw "Note not found"
  /\ api.mockDeleteNote id data' = (Ok tt, data')
  /\ (forall id', id' <> id ->
        api.mockNoteById id' data' = api.mockNoteById id' data)
  /\ (length data' <= length data)%nat.
Proof.
  cbv zeta. unfold api.mockDeleteNote. cbn [fst snd]. conjuncts.
  - reflexivity.
  - unfold api.mockNoteById. now rewrite find_filter_same.
  - f_equal. apply filter_absent. intros note Hin.
    apply filter_In in Hin as [_ Hin]. now apply negb_true_iff.
  - intros id' Hne. unfold api.mockNoteById.
    rewrite find_filter_other by congruence. reflexivity.
  - apply filter_length_le.
Qed.

(** X18. Mock update of a note the store holds, with an input that has
    no [id].  The store keeps its length; the updated note keeps its id,
    has the clock reading as [updatedAt], every other field of the input
    as given, and every attribute the input does not name as it was;
    [mockNoteById] of the id then resolves with the updated note, and for
    every other id it answers as it did before. *)
Theorem mock_update_then_get (br : api.Browser) (id : string)
    (noteData : Obj) (data : api.MockNotes) (old : Obj) :
  api.mockNoteById id data = Ok old ->
  ~ In "id" (keys noteData) ->
  NoDup (keys noteData) ->
  exists updatedNote data',
    api.mockUpdateNote br id noteData data = (Ok updatedNote, data')
    /\ length data' = length data
    /\ obj_get "id" updatedNote = JStr id
    /\ obj_get "updatedAt" updatedNote = JStr (api.Date_toISOString br)
    /\ (forall k v, In (k, v) noteData -> k <> "updatedAt" ->
                    obj_get k updatedNote = v)
    /\ (forall k, ~ In k (keys noteData) -> k <> "updatedAt" ->
                  obj_get k updatedNote = obj_get k old)
    /\ api.mockNoteById id data' = Ok updatedNote
    /\ (forall id', id' <> id ->
          api.mockNoteById id' data' = api.mockNoteById id' data).
Proof.
  intros Hold Hid Hnd. unfold api.mockNoteById in Hold.
  unfold api.mockUpdateNote.
  pose proof (findIndex_find (api.has_id id) data) as Hidx.
  destruct (api.findIndex (api.has_id id) data) as [index|].
  2: { rewrite Hidx in Hold. discriminate Hold. }
  destruct Hidx as (x & Hx & Hpx & Hfind & Hbefore).
  rewrite Hfind in Hold. injection Hold as ->.
  assert (Hx' : @lookup nat (list (string * JSValue)) (list Obj) _ index data
                = Some old) by exact Hx.
  rewrite Hx'. cbn [default].
  set (updatedNote := obj_set "updatedAt" (JStr (api.Date_toISOString br))
                        (spread noteData old)).
  assert (Hnew : obj_get "id" updatedNote = JStr id).
  { unfold updatedNote. rewrite obj_get_set_ne by discriminate.
    rewrite obj_get_spread_absent by exact Hid. now apply has_id_inv. }
  exists updatedNote, (<[index := updatedNote]> data).
  conjuncts.
  - reflexivity.
  - apply length_insert.
  - exact Hnew.
  - apply obj_get_set_eq.
  - intros k v Hin Hk. unfold updatedNote.
    rewrite obj_get_set_ne by congruence. now apply obj_get_spread_in.
  - intros k Hk Hu. unfold updatedNote.
    rewrite obj_get_set_ne by congruence. now apply obj_get_spread_absent.
  - unfold api.mockNoteById.
    rewrite (find_insert _ _ _ old updatedNote Hx Hbefore);
      [reflexivity|now apply has_id_inv].
  - intros id' Hne. unfold api.mockNoteById.
    rewrite (find_insert_other _ _ _ old updatedNote Hx); [reflexivity| |].
    + apply (has_id_other id); [congruence|exact Hpx].
    + apply (has_id_other id); [congruence|now apply has_id_inv].
Qed.

Lemma mock_update_then_get_witness :
  let noteData : Obj := [("content", JStr "x")] in
  let old : Obj :=
    [("id", JStr "2"); ("title", JStr "How to use Noter");
     ("content", JStr "Create, edit, and delete notes easily. Your notes will be stored in the cloud and accessible from anywhere.");
     ("createdAt", JStr "2024-05-01T09:59:00.001Z");
     ("updatedAt", JStr "2024-05-01T09:59:00.001Z")] in
  let updatedNote : Obj :=
    [("id", JStr "2"); ("title", JStr "How to use Noter");
     ("content", JStr "x");
     ("createdAt", JStr "2024-05-01T09:59:00.001Z");
     ("updatedAt", JStr (api.Date_toISOString Sample.dev))] in
  api.mockNoteById "2" Sample.mock_data = Ok old
  /\ ~ In "id" (keys noteData)
  /\ NoDup (keys noteData)
  /\ fst (api.mockUpdateNote Sample.dev "2" noteData Sample.mock_data)
     = Ok updatedNote
  /\ api.mockNoteById "2"
       (snd (api.mockUpdateNote Sample.dev "2" noteData Sample.mock_data))
     = Ok updatedNote.
Proof.
  intros noteData old updatedNote.
  assert (Hold : api.mockNoteById "2" Sample.mock_data = Ok old)
    by reflexivity.
  assert (Hid : ~ In "id" (keys noteData)).
  { cbn. intros [H|[]]; discriminate H. }
  assert (Hnd : NoDup (keys noteData)) by apply NoDup_singleton.
  split; [exact Hold|]. split; [exact Hid|]. split; [exact Hnd|].
  split; [reflexivity|].
  destruct (mock_update_then_get Sample.dev "2" noteData Sample.mock_data old
              Hold Hid Hnd) as (n & d & Hu & _ & _ & _ & _ & _ & Hget & _).
  rewrite Hu. cbn [snd]. rewrite Hget. f_equal.
  injection Hu as <- _. reflexivity.
Defined.

(** X19. The two mock operations that check for existence agree on
    it: [mockUpdateNote] rejects with [Note not found] exactly when
    [mockNoteById] does, which is exactly when no note of the store
    carries the id; a rejected update leaves the store as it is. *)
Theorem mock_get_and_update_agree_on_existence
    (br : api.Browser) (id : string) (noteData : Obj)
    (data : api.MockNotes) :
  (api.mockNoteById id data = Throw "Note not found"
   <-> api.mockUpdateNote br id noteData data = (Throw "Note not found", data))
  /\ (api.mockNoteById id data = Throw "Note not found"
      <-> forall note, In note data -> api.has_id id note = false).
Proof.
  unfold api.mockNoteById, api.mockUpdateNote.
  pose proof (findIndex_find (api.has_id id) data) as Hidx.
  destruct (api.findIndex (api.has_id id) data) as [index|].
  - destruct Hidx as (x & Hx & Hpx & Hfind & _). rewrite Hfind. split.
    + split; discriminate.
    + split; [discriminate|]. intros Hall. exfalso.
      rewrite (Hall x) in Hpx; [discriminate Hpx|].
      apply list_elem_of_In, list_elem_of_lookup. eauto.
  - rewrite Hidx. split; [tauto|]. split; [|reflexivity].
    intros _ note Hin. now apply (find_none _ _ Hidx).
Qed.

(** * More of the adapter *)

(** X20. The fallback policy of the service.  Only the two reads fall
    back to the mock store, and only in development mode: a failed
    [getAllNotes] then resolves with the whole mock store, in its order,
    and a failed [getNote] for an id the mock store does not hold rejects
    with [Note not found] in place of the error of the request.  In
    production mode both reject with the error of the request.
    [createNote], [updateNote] and [deleteNote] reject with the error of
    the request in every mode. *)
Theorem service_falls_back_on_reads_only
    (apiClient_get : string -> api.AxiosOutcome)
    (apiClient_post apiClient_put : string -> JSValue -> api.AxiosOutcome)
    (apiClient_delete : string -> api.AxiosOutcome)
    (br : api.Browser) (data : api.MockNotes) (id : string) (note : Obj)
    (error : api.AxiosError) :
  (apiClient_get "/notes" = api.Rejected error ->
   api.noteService.getAllNotes apiClient_get br data
   = if api.development br then api.Fulfilled (JArr (map JObj data))
     else api.RejectedAxios error)
  /\ (apiClient_get ("/notes/" ++ id) = api.Rejected error ->
      (forall note', In note' data -> api.has_id id note' = false) ->
      api.noteService.getNote apiClient_get br id data
      = if api.development br then api.RejectedError "Note not found"
        else api.RejectedAxios error)
  /\ (apiClient_post "/notes" (JObj note) = api.Rejected error ->
      api.noteService.createNote apiClient_post note
      = api.RejectedAxios error)
  /\ (apiClient_put ("/notes/" ++ id) (JObj note) = api.Rejected error ->
      api.noteService.updateNote apiClient_put id note
      = api.RejectedAxios error)
  /\ (apiClient_delete ("/notes/" ++ id) = api.Rejected error ->
      api.noteService.deleteNote apiClient_delete id
      = api.RejectedAxios error).
Proof.
  conjuncts.
  - intros H. unfold api.noteService.getAllNotes. now rewrite H.
  - intros H Habsent. unfold api.noteService.getNote, api.mockNoteById.
    rewrite H, (find_absent _ _ Habsent). reflexivity.
  - intros H. unfold api.noteService.createNote. now rewrite H.
  - intros H. unfold api.noteService.updateNote. now rewrite H.
  - intros H. unfold api.noteService.deleteNote. now rewrite H.
Qed.

(** X21. The configured service without a backend URL.  Every
    operation is served by the mock store, whatever the client would
    answer.  [deleteNote] resolves, and on the store it leaves [getNote] of
    the same id rejects with [Note not found] and [getAllNotes] lists the
    remaining notes; [getNote] of an id no note carries rejects with
    [Note not found] and leaves the store as it is. *)
Theorem offline_service_is_the_mock_store
    (REACT_APP_API_URL : option string)
    (apiClient_get : string -> api.AxiosOutcome)
    (apiClient_delete : string -> api.AxiosOutcome)
    (id : string) (data : api.MockNotes) :
  api_configured.offline REACT_APP_API_URL = true ->
  let data' := List.filter (fun note => negb (api.has_id id note)) data in
  api_configured.noteService.deleteNote REACT_APP_API_URL apiClient_delete
    id data
  = (api.Fulfilled JUndefined, data')
  /\ api_configured.noteService.getNote REACT_APP_API_URL apiClient_get
       id data'
     = (api.RejectedError "Note not found", data')
  /\ api_configured.noteService.getAllNotes REACT_APP_API_URL apiClient_get
       data'
     = (api.Fulfilled (JArr (map JObj data')), data')
  /\ (forall note, In note data' <-> In note data /\ api.has_id id note = false)
  /\ ((forall note, In note data -> api.has_id id note = false) ->
      api_configured.noteService.getNote REACT_APP_API_URL apiClient_get
        id data
      = (api.RejectedError "Note not found", data)).
Proof.
  intros Hoff data'.
  unfold api_configured.noteService.deleteNote,
    api_configured.noteService.getNote,
    api_configured.noteService.getAllNotes.
  rewrite Hoff. conjuncts.
  - reflexivity.
  - unfold api.mockNoteById, data'. now rewrite find_filter_same.
  - reflexivity.
  - intros note. unfold data'. rewrite filter_In, negb_true_iff. tauto.
  - intros Habsent. unfold api.mockNoteById.
    now rewrite (find_absent _ _ Habsent).
Qed.

Lemma offline_service_is_the_mock_store_witness :
  let remaining : api.MockNotes :=
    [ [("id", JStr "2"); ("title", JStr "How to use Noter");
       ("content", JStr "Create, edit, and delete notes easily. Your notes will be stored in the cloud and accessible from anywhere.");
       ("createdAt", JStr "2024-05-01T09:59:00.001Z");
       ("updatedAt", JStr "2024-05-01T09:59:00.001Z")] ] in
  api_configured.offline None = true
  /\ api_configured.noteService.deleteNote None Sample.apiClient_get
       "1" Sample.mock_data
     = (api.Fulfilled JUndefined, remaining)
  /\ api_configured.noteService.getNote None Sample.apiClient_get
       "1" remaining
     = (api.RejectedError "Note not found", remaining).
Proof.
  intros remaining.
  assert (Hoff : api_configured.offline None = true) by reflexivity.
  destruct (offline_service_is_the_mock_store None Sample.apiClient_get
              Sample.apiClient_get "1" Sample.mock_data Hoff)
    as (Hdel & Hget & _).
  split; [exact Hoff|]. split; [exact Hdel|exact Hget].
Defined.

(** X22. The configured service with a backend URL.  Every operation
    settles as the request does and leaves the mock store as it is: there
    is no fallback, so a rejected request, a 404 among them, reaches the
    caller as the error of the request. *)
Theorem online_service_never_uses_the_mock_store
    (REACT_APP_API_URL : option string)
    (apiClient_get : string -> api.AxiosOutcome)
    (apiClient_post apiClient_put : string -> JSValue -> api.AxiosOutcome)
    (apiClient_delete : string -> api.AxiosOutcome)
    (br : api.Browser) (id : string) (note : Obj) (data : api.MockNotes) :
  api_configured.offline REACT_APP_API_URL = false ->
  api_configured.noteService.getAllNotes REACT_APP_API_URL apiClient_get data
  = (api_configured.of_axios (apiClient_get "/notes"), data)
  /\ api_configured.noteService.getNote REACT_APP_API_URL apiClient_get id data
     = (api_configured.of_axios (apiClient_get ("/notes/" ++ id)), data)
  /\ api_configured.noteService.createNote REACT_APP_API_URL apiClient_post
       br note data
     = (api_configured.of_axios (apiClient_post "/notes" (JObj note)), data)
  /\ api_configured.noteService.updateNote REACT_APP_API_URL apiClient_put
       br id note data
     = (api_configured.of_axios
          (apiClient_put ("/notes/" ++ id) (JObj note)), data)
  /\ snd (api_configured.noteService.deleteNote REACT_APP_API_URL
            apiClient_delete id data) = data
  /\ (forall error,
        apiClient_get ("/notes/" ++ id) = api.Rejected error ->
        fst (api_configured.noteService.getNote REACT_APP_API_URL
               apiClient_get id data)
        = api.RejectedAxios error)
  /\ (forall error,
        apiClient_delete ("/notes/" ++ id) = api.Rejected error ->
        fst (api_configured.noteService.deleteNote REACT_APP_API_URL
               apiClient_delete id data)
        = api.RejectedAxios error).
Proof.
  intros Hon.
  unfold api_configured.noteService.getAllNotes,
    api_configured.noteService.getNote,
    api_configured.noteService.createNote,
    api_configured.noteService.updateNote,
    api_configured.noteService.deleteNote.
  rewrite Hon. conjuncts; try reflexivity.
  - intros error ->. reflexivity.
  - intros error ->. reflexivity.
Qed.

Lemma online_service_never_uses_the_mock_store_witness :
  let url := Some "https://api.example.com/prod" in
  api_configured.offline url = false
  /\ api_configured.noteService.getNote url Sample.apiClient_get
       "1" Sample.mock_data
     = (api.RejectedAxios
          {| api.message := "Request failed with status code 404";
             api.response_status := Some 404 |},
        Sample.mock_data).
Proof.
  intros url.
  assert (Hon : api_configured.offline url = false) by reflexivity.
  destruct (online_service_never_uses_the_mock_store url Sample.apiClient_get
              (fun _ _ => Sample.apiClient_get "/notes/1")
              (fun _ _ => Sample.apiClient_get "/notes/1")
              Sample.apiClient_get Sample.dev "1" [] Sample.mock_data Hon)
    as (_ & Hget & _).
  split; [exact Hon|]. rewrite Hget. reflexivity.
Defined.

(** * The preview of a note *)

Lemma length_append (a b : string) :
  String.length (a ++ b) = (String.length a + String.length b)%nat.
Proof. induction a as [|c a IH]; simpl; [reflexivity|now f_equal]. Qed.

Lemma length_substring_0 (n : nat) (s : string) :
  (n <= String.length s)%nat -> String.length (String.substring 0 n s) = n.
Proof.
  revert s. induction n as [|n IH]; intros [|c s] H; cbn in *;
    try reflexivity; try lia.
  rewrite IH; [reflexivity|lia].
Qed.

Lemma substring_0_append (a b : string) :
  String.substring 0 (String.length a) (a ++ b) = a.
Proof.
  induction a as [|c a IH]; simpl.
  - destruct b; reflexivity.
  - now f_equal.
Qed.

Lemma substring_0_split (n : nat) (s : string) :
  exists rest,
    s = String.substring 0 n s ++ rest
    /\ String.length rest = (String.length s - n)%nat.
Proof.
  revert s. induction n as [|n IH]; intros [|c s]; simpl.
  - exists "". split; reflexivity.
  - exists (String c s). split; reflexivity.
  - exists "". split; reflexivity.
  - destruct (IH s) as (rest & Hs & Hl). exists rest.
    split; [|exact Hl].
    change (String c s = String c (String.substring 0 n s ++ rest)).
    f_equal. exact Hs.
Qed.

(** X23. [truncateContent] returns a content of at most [maxLength]
    characters as it is.  A longer one becomes its first [maxLength]
    characters followed by three dots, [maxLength + 3] characters in all:
    the preview of a content of [maxLength + 1] characters is two
    characters longer than the content.  No preview exceeds
    [maxLength + 3] characters, and truncating a preview again with the
    same bound changes nothing. *)
Theorem truncateContent_keeps_a_prefix (content : string) (maxLength : nat) :
  let preview := NoteItem.truncateContent content maxLength in
  ((String.length content <= maxLength)%nat -> preview = content)
  /\ ((maxLength < String.length content)%nat ->
      preview = String.substring 0 maxLength content ++ "..."
      /\ String.length preview = (maxLength + 3)%nat
      /\ exists rest,
           content = String.substring 0 maxLength content ++ rest
           /\ rest <> "")
  /\ (String.length content = S maxLength ->
      String.length preview = (String.length content + 2)%nat)
  /\ (String.length preview <= maxLength + 3)%nat
  /\ NoteItem.truncateContent preview maxLength = preview.
Proof.
  cbv zeta. unfold NoteItem.truncateContent.
  destruct (Nat.leb_spec (String.length content) maxLength) as [Hle|Hlt].
  - conjuncts; try lia.
    + reflexivity.
    + apply Nat.leb_le in Hle. now rewrite Hle.
  - assert (Hlen : String.length (String.substring 0 maxLength content ++ "...")
                   = (maxLength + 3)%nat).
    { rewrite length_append, length_substring_0 by lia. reflexivity. }
    conjuncts; try lia.
    + intros _. conjuncts; [reflexivity|exact Hlen|].
      destruct (substring_0_split maxLength content) as (rest & Hs & Hl).
      exists rest. split; [exact Hs|]. intros ->. cbn in Hl. lia.
    + rewrite Hlen.
      destruct (Nat.leb_spec (maxLength + 3) maxLength) as [Habs|_]; [lia|].
      f_equal.
      rewrite <- (length_substring_0 maxLength content) at 1 by lia.
      apply substring_0_append.
Qed.

(** * The name of the ECR repository *)

Example repoName_of_a_project :
  BuildAndPush.repoName (list_ascii_of_string "noter")
    (list_ascii_of_string "GetAllNotes")
  = list_ascii_of_string "noter/getallnotes".
Proof. reflexivity. Qed.

Example repoName_of_an_odd_folder :
  BuildAndPush.repoName (list_ascii_of_string "  ")
    (list_ascii_of_string ".My  Notes (v2)!/")
  = list_ascii_of_string "my-notes-v2".
Proof. reflexivity. Qed.

Module BuildAndPushFacts.
Import BuildAndPush.

Lemma allowed_is_lower (c : ascii) : allowed c = true -> ToLower_char c = c.
Proof.
  destruct c as [[] [] [] [] [] [] [] []]; vm_compute;
    first [reflexivity|discriminate].
Qed.

Lemma trimmed_is_allowed (c : ascii) : trimmed c = true -> allowed c = true.
Proof.
  destruct c as [[] [] [] [] [] [] [] []]; vm_compute;
    first [reflexivity|discriminate].
Qed.

Lemma replace_disallowed_allowed (s : text) :
  Forall (fun c => allowed c = true) (replace_disallowed s).
Proof.
  unfold replace_disallowed. apply Forall_forall. intros c Hin.
  apply list_elem_of_In, in_map_iff in Hin as (c0 & <- & _).
  destruct (allowed c0) eqn:H; [exact H|reflexivity].
Qed.

Lemma collapse_hyphens_cons (c : ascii) (s : text) :
  is_hyphen c = false ->
  collapse_hyphens (c :: s) = c :: collapse_hyphens s.
Proof. intros H. cbn. now rewrite H. Qed.

Lemma collapse_hyphens_keeps (P : ascii -> Prop) (s : text) :
  Forall P s -> Forall P (collapse_hyphens s).
Proof.
  induction 1 as [|c s Hc Hs IH]; [constructor|].
  cbn [collapse_hyphens].
  destruct (is_hyphen c); [|now constructor].
  destruct s as [|c' s']; [now constructor|].
  destruct (is_hyphen c'); [exact IH|now constructor].
Qed.

Lemma single_hyphens_cons (c c' : ascii) (s : text) :
  single_hyphens (c :: c' :: s)
  = negb (is_hyphen c && is_hyphen c') && single_hyphens (c' :: s).
Proof. reflexivity. Qed.

Lemma collapse_hyphens_single (s : text) :
  single_hyphens (collapse_hyphens s) = true.
Proof.
  induction s as [|c s IH]; [reflexivity|].
  cbn [collapse_hyphens].
  destruct (is_hyphen c) eqn:Hc.
  - destruct s as [|c' s']; [reflexivity|].
    destruct (is_hyphen c') eqn:Hc'; [exact IH|].
    rewrite (collapse_hyphens_cons c' s' Hc') in *.
    now rewrite single_hyphens_cons, Hc, Hc', IH.
  - destruct (collapse_hyphens s) as [|c' s'] eqn:Hs; [reflexivity|].
    now rewrite single_hyphens_cons, Hc, IH.
Qed.

Lemma collapse_hyphens_id (s : text) :
  single_hyphens s = true -> collapse_hyphens s = s.
Proof.
  induction s as [|c s IH]; [reflexivity|].
  destruct s as [|c' s'].
  - intros _. cbn. now destruct (is_hyphen c).
  - rewrite single_hyphens_cons. intros H.
    apply andb_prop in H as [Hpair Hs].
    specialize (IH Hs).
    change (collapse_hyphens (c :: c' :: s'))
      with (if is_hyphen c
            then (if is_hyphen c' then collapse_hyphens (c' :: s')
                  else c :: collapse_hyphens (c' :: s'))
            else c :: collapse_hyphens (c' :: s')).
    rewrite IH.
    destruct (is_hyphen c); [|reflexivity].
    destruct (is_hyphen c'); [discriminate Hpair|reflexivity].
Qed.

Lemma single_hyphens_tail (c : ascii) (s : text) :
  single_hyphens (c :: s) = true -> single_hyphens s = true.
Proof.
  destruct s as [|c' s']; [reflexivity|]. rewrite single_hyphens_cons.
  intros H. now apply andb_prop in H as [_ H].
Qed.

Lemma TrimStart_suffix (s : text) :
  exists dropped, s = (dropped ++ TrimStart s)%list
                  /\ Forall (fun c => trimmed c = true) dropped.
Proof.
  induction s as [|c s (dropped & Hs & Hd)]; cbn.
  - exists []. split; [reflexivity|constructor].
  - destruct (trimmed c) eqn:Hc.
    + exists (c :: dropped). split; [cbn; now f_equal|now constructor].
    + exists []. split; [reflexivity|constructor].
Qed.

Lemma TrimEnd_prefix (s : text) :
  exists dropped, s = (TrimEnd s ++ dropped)%list
                  /\ Forall (fun c => trimmed c = true) dropped.
Proof.
  induction s as [|c s (dropped & Hs & Hd)]; cbn.
  - exists []. split; [reflexivity|constructor].
  - destruct (TrimEnd s) as [|k kept] eqn:Hk.
    + cbn in Hs. subst dropped. destruct (trimmed c) eqn:Hc.
      * exists (c :: s). split; [reflexivity|now constructor].
      * exists s. split; [reflexivity|exact Hd].
    + exists dropped. split; [cbn; now f_equal|exact Hd].
Qed.

Lemma single_hyphens_suffix (a b : text) :
  single_hyphens (a ++ b) = true -> single_hyphens b = true.
Proof.
  induction a as [|c a IH]; [trivial|].
  intros H. apply IH. now apply (single_hyphens_tail c).
Qed.

Lemma single_hyphens_prefix (a b : text) :
  single_hyphens (a ++ b) = true -> single_hyphens a = true.
Proof.
  induction a as [|c a IH]; [reflexivity|].
  destruct a as [|c' a'].
  - reflexivity.
  - cbn [app]. rewrite !single_hyphens_cons. intros H.
    apply andb_prop in H as [Hp Hs].
    rewrite Hp. cbn [andb]. apply IH. exact Hs.
Qed.

Lemma Forall_suffix (P : ascii -> Prop) (a b : text) :
  Forall P (a ++ b) -> Forall P b.
Proof. intros H. now apply Forall_app in H as [_ H]. Qed.

Lemma Forall_prefix (P : ascii -> Prop) (a b : text) :
  Forall P (a ++ b) -> Forall P a.
Proof. intros H. now apply Forall_app in H as [H _]. Qed.

Lemma TrimStart_head (s : text) (c : ascii) (t : text) :
  TrimStart s = c :: t -> trimmed c = false.
Proof.
  induction s as [|c0 s IH]; cbn; [discriminate|].
  destruct (trimmed c0) eqn:H0; [exact IH|].
  intros [= <- _]. exact H0.
Qed.

Lemma TrimEnd_head (s : text) (c : ascii) (t : text) :
  TrimEnd s = c :: t -> exists t', s = c :: t'.
Proof.
  destruct s as [|c0 s]; cbn; [discriminate|].
  destruct (TrimEnd s); [destruct (trimmed c0)|]; intros [= <- _]; eauto.
Qed.

Lemma last_default (a : ascii) (l : text) (d d' : ascii) :
  List.last (a :: l) d = List.last (a :: l) d'.
Proof.
  revert a. induction l as [|b l IH]; intros a; [reflexivity|].
  change (List.last (b :: l) d = List.last (b :: l) d'). apply IH.
Qed.

Lemma last_cons (c a : ascii) (l : text) :
  List.last (a :: l) c = List.last l a.
Proof.
  revert a. induction l as [|b l IH]; intros a; [reflexivity|].
  change (List.last (b :: l) c = List.last (b :: l) a). apply last_default.
Qed.

Lemma TrimEnd_last (s : text) (c : ascii) (t : text) :
  TrimEnd s = c :: t -> trimmed (List.last t c) = false.
Proof.
  revert c t. induction s as [|c0 s IH]; intros c t; cbn; [discriminate|].
  destruct (TrimEnd s) as [|k kept] eqn:Hk.
  - destruct (trimmed c0) eqn:H0; [discriminate|].
    intros [= <- <-]. exact H0.
  - intros [= <- <-]. specialize (IH k kept eq_refl).
    now rewrite last_cons.
Qed.

Lemma TrimStart_id (c : ascii) (t : text) :
  trimmed c = false -> TrimStart (c :: t) = c :: t.
Proof. intros H. cbn. now rewrite H. Qed.

Lemma TrimEnd_id (c : ascii) (t : text) :
  trimmed (List.last t c) = false -> TrimEnd (c :: t) = c :: t.
Proof.
  revert c. induction t as [|c' t IH]; intros c H.
  - cbn in *. now rewrite H.
  - rewrite last_cons in H.
    specialize (IH c' H).
    change (TrimEnd (c :: c' :: t))
      with (match TrimEnd (c' :: t) with
            | [] => if trimmed c then [] else [c]
            | kept => c :: kept
            end).
    now rewrite IH.
Qed.

Lemma Trim_shape (s : text) :
  exists before after,
    s = (before ++ Trim s ++ after)%list
    /\ match Trim s with
       | [] => True
       | c :: t => trimmed c = false /\ trimmed (List.last t c) = false
       end.
Proof.
  unfold Trim.
  destruct (TrimStart_suffix s) as (before & Hs & _).
  destruct (TrimEnd_prefix (TrimStart s)) as (after & He & _).
  exists before, after. split; [now rewrite <- He|].
  destruct (TrimEnd (TrimStart s)) as [|c t] eqn:Hk; [exact I|].
  split; [|now apply (TrimEnd_last (TrimStart s))].
  destruct (TrimEnd_head _ _ _ Hk) as (t' & Ht').
  now apply (TrimStart_head s c t').
Qed.

Lemma Trim_id (s : text) :
  match s with
  | [] => True
  | c :: t => trimmed c = false /\ trimmed (List.last t c) = false
  end ->
  Trim s = s.
Proof.
  destruct s as [|c t]; [reflexivity|]. intros [Hc Hl].
  unfold Trim. rewrite (TrimStart_id c t Hc). now apply TrimEnd_id.
Qed.

Lemma repoName_shape (RepositoryNamespace name : text) :
  Forall (fun c => allowed c = true) (repoName RepositoryNamespace name)
  /\ single_hyphens (repoName RepositoryNamespace name) = true
  /\ match repoName RepositoryNamespace name with
     | [] => True
     | c :: t => trimmed c = false /\ trimmed (List.last t c) = false
     end.
Proof.
  unfold repoName.
  set (raw := if IsNullOrWhiteSpace RepositoryNamespace then name
              else (RepositoryNamespace ++ "/"%char :: name)%list).
  set (collapsed := collapse_hyphens (replace_disallowed (ToLower raw))).
  assert (Hall : Forall (fun c => allowed c = true) collapsed)
    by apply collapse_hyphens_keeps, replace_disallowed_allowed.
  assert (Hsingle : single_hyphens collapsed = true)
    by apply collapse_hyphens_single.
  destruct (Trim_shape collapsed) as (before & after & Hs & Hends).
  rewrite Hs in Hall, Hsingle. conjuncts.
  - eapply Forall_prefix, Forall_suffix, Hall.
  - eapply single_hyphens_prefix, single_hyphens_suffix, Hsingle.
  - exact Hends.
Qed.

End BuildAndPushFacts.

Lemma single_hyphens_no_pair (s pre post : BuildAndPush.text) :
  BuildAndPush.single_hyphens s = true ->
  s <> (pre ++ BuildAndPush.hyphen :: BuildAndPush.hyphen :: post)%list.
Proof.
  intros Hs ->. apply BuildAndPushFacts.single_hyphens_suffix in Hs.
  rewrite BuildAndPushFacts.single_hyphens_cons in Hs. discriminate Hs.
Qed.

Lemma ToLower_allowed (s : BuildAndPush.text) :
  Forall (fun c => BuildAndPush.allowed c = true) s ->
  BuildAndPush.replace_disallowed (BuildAndPush.ToLower s) = s.
Proof.
  induction 1 as [|c s Hc Hs IH]; [reflexivity|].
  unfold BuildAndPush.replace_disallowed, BuildAndPush.ToLower in *.
  cbn [map]. rewrite IH.
  rewrite (BuildAndPushFacts.allowed_is_lower c Hc). now rewrite Hc.
Qed.

(** X24. The repository name the script derives is made of the
    characters [a-z], [0-9], [/], [_], [.] and [-] only, whatever the
    namespace and the folder name are; no hyphen in it is followed by a
    hyphen; and it neither starts nor ends with a hyphen, a slash or a
    dot. *)
Theorem repoName_is_sanitized (RepositoryNamespace name : BuildAndPush.text) :
  let repoName := BuildAndPush.repoName RepositoryNamespace name in
  (forall c, In c repoName -> BuildAndPush.allowed c = true)
  /\ (forall pre post,
        repoName
        <> (pre ++ BuildAndPush.hyphen :: BuildAndPush.hyphen :: post)%list)
  /\ (forall c t,
        repoName = c :: t ->
        BuildAndPush.trimmed c = false
        /\ BuildAndPush.trimmed (List.last t c) = false).
Proof.
  cbv zeta.
  destruct (BuildAndPushFacts.repoName_shape RepositoryNamespace name)
    as (Hall & Hsingle & Hends).
  conjuncts.
  - intros c Hin. rewrite Forall_forall in Hall.
    apply Hall. now apply list_elem_of_In.
  - intros pre post. now apply single_hyphens_no_pair.
  - intros c t Heq. now rewrite Heq in Hends.
Qed.

(** X25. A name that has the shape already is left as it is: with a
    blank namespace, a text of allowed characters without a double hyphen
    that neither starts nor ends with a hyphen, a slash or a dot is its own
    repository name.  So deriving the name a second time, from the name
    derived first, changes nothing. *)
Theorem repoName_keeps_a_sanitized_name
    (blank name : BuildAndPush.text) :
  BuildAndPush.IsNullOrWhiteSpace blank = true ->
  Forall (fun c => BuildAndPush.allowed c = true) name ->
  BuildAndPush.single_hyphens name = true ->
  match name with
  | [] => True
  | c :: t => BuildAndPush.trimmed c = false
              /\ BuildAndPush.trimmed (List.last t c) = false
  end ->
  BuildAndPush.repoName blank name = name
  /\ forall RepositoryNamespace folder,
       BuildAndPush.repoName blank
         (BuildAndPush.repoName RepositoryNamespace folder)
       = BuildAndPush.repoName RepositoryNamespace folder.
Proof.
  intros Hblank.
  assert (Hfix : forall s,
             Forall (fun c => BuildAndPush.allowed c = true) s ->
             BuildAndPush.single_hyphens s = true ->
             match s with
             | [] => True
             | c :: t => BuildAndPush.trimmed c = false
                         /\ BuildAndPush.trimmed (List.last t c) = false
             end ->
             BuildAndPush.repoName blank s = s).
  { intros s Hall Hsingle Hends. unfold BuildAndPush.repoName.
    rewrite Hblank, (ToLower_allowed s Hall).
    rewrite (BuildAndPushFacts.collapse_hyphens_id s Hsingle).
    now apply BuildAndPushFacts.Trim_id. }
  intros Hall Hsingle Hends. split; [now apply Hfix|].
  intros ns folder.
  destruct (BuildAndPushFacts.repoName_shape ns folder) as (H1 & H2 & H3).
  now apply Hfix.
Qed.

Lemma repoName_keeps_a_sanitized_name_witness :
  let name := list_ascii_of_string "noter/get-all_notes.v2" in
  BuildAndPush.IsNullOrWhiteSpace (list_ascii_of_string " ") = true
  /\ Forall (fun c => BuildAndPush.allowed c = true) name
  /\ BuildAndPush.single_hyphens name = true
  /\ BuildAndPush.repoName (list_ascii_of_string " ") name = name.
Proof.
  intros name.
  assert (Hblank : BuildAndPush.IsNullOrWhiteSpace (list_ascii_of_string " ")
                   = true) by reflexivity.
  assert (Hall : Forall (fun c => BuildAndPush.allowed c = true) name).
  { apply Forall_forall. intros c Hin.
    apply list_elem_of_In in Hin. cbn in Hin.
    repeat destruct Hin as [<-|Hin]; try reflexivity. destruct Hin. }
  assert (Hsingle : BuildAndPush.single_hyphens name = true) by reflexivity.
  split; [exact Hblank|]. split; [exact Hall|]. split; [exact Hsingle|].
  exact (proj1 (repoName_keeps_a_sanitized_name (list_ascii_of_string " ")
                  name Hblank Hall Hsingle (conj eq_refl eq_refl))).
Defined.

(** X26. The derived name can be empty, and the script does not check
    for it: with a blank namespace, a folder name each of whose characters
    is, once in lower case, either outside the allowed class or a hyphen,
    a slash or a dot yields the empty text as the repository name. *)
Theorem repoName_can_be_empty (blank name : BuildAndPush.text) :
  BuildAndPush.IsNullOrWhiteSpace blank = true ->
  Forall (fun c =>
            BuildAndPush.allowed (BuildAndPush.ToLower_char c) = false
            \/ BuildAndPush.trimmed (BuildAndPush.ToLower_char c) = true)
    name ->
  BuildAndPush.repoName blank name = [].
Proof.
  intros Hblank Hname. unfold BuildAndPush.repoName. rewrite Hblank.
  assert (Hall : Forall (fun c => BuildAndPush.trimmed c = true)
                   (BuildAndPush.collapse_hyphens
                      (BuildAndPush.replace_disallowed
                         (BuildAndPush.ToLower name)))).
  { apply BuildAndPushFacts.collapse_hyphens_keeps.
    unfold BuildAndPush.replace_disallowed, BuildAndPush.ToLower.
    induction Hname as [|c s Hc Hs IH]; [constructor|].
    cbn [map]. constructor; [|exact IH].
    destruct Hc as [Hc|Hc].
    - now rewrite Hc.
    - now rewrite (BuildAndPushFacts.trimmed_is_allowed _ Hc). }
  unfold BuildAndPush.Trim.
  set (s := BuildAndPush.collapse_hyphens _) in *.
  assert (Hstart : BuildAndPush.TrimStart s = []).
  { induction Hall as [|c s' Hc Hs IH]; [reflexivity|].
    cbn. now rewrite Hc. }
  now rewrite Hstart.
Qed.

Lemma repoName_can_be_empty_witness :
  let name := list_ascii_of_string "(...)" in
  BuildAndPush.IsNullOrWhiteSpace [] = true
  /\ Forall (fun c =>
               BuildAndPush.allowed (BuildAndPush.ToLower_char c) = false
               \/ BuildAndPush.trimmed (BuildAndPush.ToLower_char c) = true)
       name
  /\ BuildAndPush.repoName [] name = [].
Proof.
  intros name.
  assert (Hblank : BuildAndPush.IsNullOrWhiteSpace [] = true) by reflexivity.
  assert (Hname : Forall (fun c =>
              BuildAndPush.allowed (BuildAndPush.ToLower_char c) = false
              \/ BuildAndPush.trimmed (BuildAndPush.ToLower_char c) = true)
            name).
  { repeat constructor; (left; reflexivity) || (right; reflexivity). }
  split; [exact Hblank|]. split; [exact Hname|].
  exact (repoName_can_be_empty [] name Hblank Hname).
Defined.

(** * Notes under overlapping requests *)

Lemma drawn_once (h : list Invocation) (rt rt' : Runtime)
    (event event' : Event.t) :
  NoDup (drawn_uuids h) ->
  In (InvokeCreate rt event) h ->
  In (InvokeCreate rt' event') h ->
  uuidv4 rt = uuidv4 rt' ->
  InvokeCreate rt event = InvokeCreate rt' event'.
Proof.
  induction h as [|i h IH]; intros Hnd Hin Hin' Heq; [destruct Hin|].
  assert (Hdrawn : forall rt0 event0,
             In (InvokeCreate rt0 event0) h -> In (uuidv4 rt0) (drawn_uuids h)).
  { intros rt0 event0. apply in_drawn_uuids. }
  destruct Hin as [->|Hin], Hin' as [Hi|Hin'].
  - exact Hi.
  - exfalso. cbn in Hnd. apply NoDup_cons in Hnd as [Hnot _].
    apply Hnot, list_elem_of_In. rewrite Heq. now apply (Hdrawn rt' event').
  - exfalso. subst i. cbn in Hnd. apply NoDup_cons in Hnd as [Hnot _].
    apply Hnot, list_elem_of_In. rewrite <- Heq. now apply (Hdrawn rt event).
  - apply IH; try assumption.
    destruct i; cbn in Hnd; try exact Hnd.
    now apply NoDup_cons in Hnd as [_ Hnd].
Qed.

(** X27. [createdAt] is written by the create handler alone.  However
    the invocations of a history overlap, the [createdAt] of an item under
    an id is the clock reading of a create invocation that drew the id, or
    the item has none (the item an update left when a delete overtook it).
    So when [uuidv4()] has returned every value once, every [createdAt]
    ever stored under an id is the same: no request modifies it. *)
Theorem createdAt_is_never_modified
    (JSON_parse : string -> option JSValue) (rejects : Rejects)
    (h : list Invocation) (schedule : list nat) (id : string) (item : Obj) :
  snd (overlap JSON_parse rejects schedule h ∅) !! id = Some item ->
  (obj_get "createdAt" item = JUndefined
   \/ exists rt event,
        In (InvokeCreate rt event) h
        /\ uuidv4 rt = id
        /\ obj_get "createdAt" item = JStr (toISOString rt))
  /\ (NoDup (drawn_uuids h) ->
      forall schedule' item' createdAt createdAt',
        snd (overlap JSON_parse rejects schedule' h ∅) !! id = Some item' ->
        obj_get "createdAt" item = JStr createdAt ->
        obj_get "createdAt" item' = JStr createdAt' ->
        createdAt = createdAt').
Proof.
  intros Hitem.
  assert (Hcreated : forall schedule0 item0 c,
             snd (overlap JSON_parse rejects schedule0 h ∅) !! id = Some item0 ->
             obj_get "createdAt" item0 = JStr c ->
             exists rt event,
               In (InvokeCreate rt event) h
               /\ uuidv4 rt = id /\ toISOString rt = c).
  { intros schedule0 item0 c H0 Hc.
    destruct (overlap_stored _ _ _ _ _ _ H0) as (_ & _ & _ & _ & _ & Hca).
    destruct Hca as [Hnone|(c' & Hc' & Hby)]; [congruence|].
    rewrite Hc in Hc'. injection Hc' as <-. exact Hby. }
  split.
  - destruct (overlap_stored _ _ _ _ _ _ Hitem) as (_ & _ & _ & _ & _ & Hca).
    destruct Hca as [Hnone|(c & Hc & rt & event & Hin & Hid & Hts)];
      [now left|right].
    exists rt, event. rewrite Hts. auto.
  - intros Hnd schedule' item' c c' Hitem' Hc Hc'.
    destruct (Hcreated _ _ _ Hitem Hc) as (rt & event & Hin & Hid & <-).
    destruct (Hcreated _ _ _ Hitem' Hc') as (rt' & event' & Hin' & Hid' & <-).
    assert (E : InvokeCreate rt event = InvokeCreate rt' event').
    { apply (drawn_once h); try assumption. congruence. }
    now injection E as -> _.
Qed.

Lemma createdAt_is_never_modified_witness :
  let id := uuidv4 Sample.rt1 in
  let h :=
    [InvokeCreate Sample.rt1
       (Sample.event "POST" None
          (JObj [("title", JStr "Groceries"); ("content", JStr "milk")]));
     InvokeUpdate Sample.rt2
       (Sample.event "PUT" (Some id) (JObj [("content", JStr "x")]))] in
  let updatedNote :=
    note_of id (JStr "Groceries") (JStr "x")
      (toISOString Sample.rt1) (toISOString Sample.rt2) in
  snd (overlap Sample.JSON_parse limits [0; 1; 1]%nat h ∅) !! id
  = Some updatedNote
  /\ (obj_get "createdAt" updatedNote = JUndefined
      \/ exists rt event,
           In (InvokeCreate rt event) h
           /\ uuidv4 rt = id
           /\ obj_get "createdAt" updatedNote = JStr (toISOString rt)).
Proof.
  intros id h updatedNote.
  assert (Hitem : snd (overlap Sample.JSON_parse limits [0; 1; 1]%nat h ∅) !! id
                  = Some updatedNote) by reflexivity.
  split; [exact Hitem|].
  exact (proj1 (createdAt_is_never_modified Sample.JSON_parse limits h
                  [0; 1; 1]%nat id updatedNote Hitem)).
Defined.

Lemma interleave_cons {A} (rejects : Rejects) (i : nat) (schedule : list nat)
    (pool : list (Prog A)) (c : Prog A) (db : Table) :
  pool !! i = Some c ->
  interleave rejects (i :: schedule) pool db
  = interleave rejects schedule (<[i := fst (advance rejects c db)]> pool)
      (snd (advance rejects c db)).
Proof.
  intros Hc. cbn [interleave]. rewrite Hc.
  now destruct (advance rejects c db).
Qed.

Lemma advance_get {A} (rejects : Rejects) (id : string)
    (k : Result (option Obj) -> Prog A) (db : Table) :
  rejects (Get id) db = None ->
  advance rejects (AwaitGet id k) db = (k (Ok (db !! id)), db).
Proof. intros H. cbn [advance]. unfold send_get, send. now rewrite H. Qed.

Lemma advance_delete {A} (rejects : Rejects) (id : string)
    (k : Result unit -> Prog A) (db : Table) :
  rejects (Delete id) db = None ->
  advance rejects (AwaitDelete id k) db = (k (Ok tt), delete id db).
Proof. intros H. cbn [advance]. unfold send_delete, send. now rewrite H. Qed.

Lemma advance_update {A} (rejects : Rejects) (id : string) (sets : Obj)
    (k : Result Obj -> Prog A) (db : Table) :
  rejects (Update id sets) db = None ->
  let Key : Obj := [("id", JStr id)] in
  let Attributes := spread sets (default Key (db !! id)) in
  advance rejects (AwaitUpdate id sets k) db
  = (k (Ok Attributes), <[id := Attributes]> db).
Proof. intros H. cbn [advance]. unfold send_update, send. now rewrite H. Qed.

(** X28. The existence check of the update handler does not keep an
    update from creating a note.  The check and the update are two
    commands, and the update carries no condition: when a delete of the
    same note is served between the two, the update, for every body that
    passes the field check, creates the item anew from the key and its own
    assignments and is answered 200.  The item has no [createdAt], and no
    [title] or [content] the body does not define.  Served one after the
    other in the same order, the delete finds the updated note and leaves
    no item. *)
Theorem update_can_recreate_a_deleted_note
    (rejects : Rejects) (JSON_parse : string -> option JSValue) (rt : Runtime)
    (update delete_ : Event.t) (id text : string) (o item : Obj)
    (db : Table) :
  Event.httpMethod update <> "OPTIONS" ->
  Event.path_id update = Some id ->
  Event.present_body update = Some text ->
  JSON_parse text = Some (JObj o) ->
  Event.httpMethod delete_ <> "OPTIONS" ->
  Event.path_id delete_ = Some id ->
  db !! id = Some item ->
  let title := obj_get "title" o in
  let content := obj_get "content" o in
  negb (truthy title) && is_undefined content = false ->
  let sets := UpdateNote.update_sets rt title content in
  let recreated := spread sets [("id", JStr id)] in
  rejects (Get id) db = None ->
  rejects (Delete id) db = None ->
  rejects (Update id sets) (delete id db) = None ->
  interleave rejects [0; 1; 1; 0]%nat
    [UpdateNote.handler JSON_parse rt update; DeleteNote.handler delete_] db
  = ([Ret (responseHelper.success (JObj recreated) 200);
      Ret (responseHelper.success
             (JObj [("message", JStr "Note deleted successfully")]) 204)],
     <[id := recreated]> (delete id db))
  /\ obj_get "id" recreated = JStr id
  /\ obj_get "updatedAt" recreated = JStr (toISOString rt)
  /\ obj_get "createdAt" recreated = JUndefined
  /\ obj_get "title" recreated = title
  /\ obj_get "content" recreated = content
  /\ (rejects (Update id sets) db = None ->
      rejects (Get id) (<[id := spread sets item]> db) = None ->
      rejects (Delete id) (<[id := spread sets item]> db) = None ->
      snd (interleave rejects [0; 0; 1; 1]%nat
             [UpdateNote.handler JSON_parse rt update;
              DeleteNote.handler delete_] db) !! id = None).
Proof.
  intros Hmu Hpu Hb Hparse Hmd Hpd Hitem title content Hfields sets recreated
    Hget Hdelete Hupsert.
  pose proof (path_id_nonempty _ _ Hpu) as Hid.
  apply String.eqb_neq in Hid.
  apply eqb_OPTIONS in Hmu, Hmd.
  assert (Hupdate_run :
            UpdateNote.handler JSON_parse rt update
            = AwaitGet id (fun r =>
                try_catch
                  (let* updatedNote :=
                     (let* exists_ :=
                        (let* Item := settled r in
                         ret (match Item with
                              | Some _ => true
                              | None => false
                              end)) in
                      if negb exists_ then throw "Note not found"
                      else UpdateCommand id sets) in
                   ret (responseHelper.success (JObj updatedNote) 200))
                  (fun message =>
                     if String.eqb message "Note ID is required" then
                       ret (responseHelper.error message 400)
                     else if String.eqb message "Note not found" then
                       ret (responseHelper.error message 404)
                     else if String.eqb message UpdateNote.no_field_message then
                       ret (responseHelper.error message 400)
                     else ret (responseHelper.error message 500)))).
  { unfold UpdateNote.handler. rewrite Hmu, Hpu, Hb, Hparse.
    unfold UpdateNote.updateNote, UpdateNote.noteExists. rewrite Hid.
    cbn [destructure_title_content prop]. fold title. fold content.
    rewrite Hfields. reflexivity. }
  assert (Hdelete_run :
            DeleteNote.handler delete_
            = AwaitGet id (fun r =>
                try_catch
                  ((let* exists_ :=
                      (let* Item := settled r in
                       ret (match Item with
                            | Some _ => true
                            | None => false
                            end)) in
                    if negb exists_ then throw "Note not found"
                    else DeleteCommand id);;
                   ret (responseHelper.success
                          (JObj [("message",
                                  JStr "Note deleted successfully")]) 204))
                  (fun message =>
                     if String.eqb message "Note ID is required" then
                       ret (responseHelper.error message 400)
                     else if String.eqb message "Note not found" then
                       ret (responseHelper.error message 404)
                     else ret (responseHelper.error message 500)))).
  { unfold DeleteNote.handler. rewrite Hmd, Hpd.
    unfold DeleteNote.deleteNote, DeleteNote.noteExists.
    apply String.eqb_neq in Hid. apply String.eqb_neq in Hid.
    rewrite Hid. reflexivity. }
  rewrite Hupdate_run, Hdelete_run.
  conjuncts.
  - erewrite (interleave_cons _ 0%nat) by reflexivity.
    rewrite advance_get by exact Hget.
    cbn [fst snd insert list_insert]. rewrite Hitem.
    cbn [settled bind try_catch ret negb UpdateCommand].
    erewrite (interleave_cons _ 1%nat) by reflexivity.
    rewrite advance_get by exact Hget.
    cbn [fst snd insert list_insert]. rewrite Hitem.
    cbn [settled bind try_catch ret negb DeleteCommand].
    erewrite (interleave_cons _ 1%nat) by reflexivity.
    rewrite advance_delete by exact Hdelete.
    cbn [fst snd insert list_insert settled bind try_catch ret].
    erewrite (interleave_cons _ 0%nat) by reflexivity.
    rewrite advance_update by exact Hupsert.
    cbv zeta. rewrite lookup_delete_eq.
    cbn [fst snd insert list_insert settled bind try_catch ret default].
    reflexivity.
  - unfold recreated, sets. now rewrite update_sets_other by discriminate.
  - apply update_sets_updatedAt.
  - unfold recreated, sets. now rewrite update_sets_other by discriminate.
  - unfold recreated, sets. rewrite update_sets_title.
    destruct title; reflexivity.
  - unfold recreated, sets. rewrite update_sets_content.
    destruct content; reflexivity.
  - intros Hupdate Hget' Hdelete'.
    erewrite (interleave_cons _ 0%nat) by reflexivity.
    rewrite advance_get by exact Hget.
    cbn [fst snd insert list_insert]. rewrite Hitem.
    cbn [settled bind try_catch ret negb UpdateCommand].
    erewrite (interleave_cons _ 0%nat) by reflexivity.
    rewrite advance_update by exact Hupdate.
    cbv zeta. rewrite Hitem.
    cbn [fst snd insert list_insert settled bind try_catch ret default].
    erewrite (interleave_cons _ 1%nat) by reflexivity.
    rewrite advance_get by exact Hget'.
    cbn [fst snd insert list_insert]. rewrite lookup_insert_eq.
    cbn [settled bind try_catch ret negb DeleteCommand].
    erewrite (interleave_cons _ 1%nat) by reflexivity.
    rewrite advance_delete by exact Hdelete'.
    cbn [fst snd insert list_insert settled bind try_catch ret interleave].
    apply lookup_delete_eq.
Qed.

Lemma update_can_recreate_a_deleted_note_witness :
  let id := uuidv4 Sample.rt1 in
  let o : Obj := [("content", JStr "x")] in
  let update := Sample.event "PUT" (Some id) (JObj o) in
  let delete_ := Sample.event "DELETE" (Some id) JUndefined in
  let text := default "" (Sample.text_of (JObj o)) in
  let sets : Obj :=
    [("updatedAt", JStr (toISOString Sample.rt2)); ("content", JStr "x")] in
  let recreated : Obj :=
    [("id", JStr id);
     ("updatedAt", JStr (toISOString Sample.rt2));
     ("content", JStr "x")] in
  Event.httpMethod update <> "OPTIONS"
  /\ Event.path_id update = Some id
  /\ Event.present_body update = Some text
  /\ Sample.JSON_parse text = Some (JObj o)
  /\ Event.httpMethod delete_ <> "OPTIONS"
  /\ Event.path_id delete_ = Some id
  /\ Sample.db1 !! id = Some Sample.groceries
  /\ limits (Get id) Sample.db1 = None
  /\ limits (Delete id) Sample.db1 = None
  /\ limits (Update id sets) (delete id Sample.db1) = None
  /\ interleave limits [0; 1; 1; 0]%nat
       [UpdateNote.handler Sample.JSON_parse Sample.rt2 update;
        DeleteNote.handler delete_] Sample.db1
     = ([Ret (responseHelper.success (JObj recreated) 200);
         Ret (responseHelper.success
                (JObj [("message", JStr "Note deleted successfully")]) 204)],
        <[id := recreated]> (delete id Sample.db1)).
Proof.
  intros id o update delete_ text sets recreated.
  assert (Hmu : Event.httpMethod update <> "OPTIONS") by discriminate.
  assert (Hpu : Event.path_id update = Some id) by reflexivity.
  assert (Hb : Event.present_body update = Some text) by reflexivity.
  assert (Hparse : Sample.JSON_parse text = Some (JObj o)) by reflexivity.
  assert (Hmd : Event.httpMethod delete_ <> "OPTIONS") by discriminate.
  assert (Hpd : Event.path_id delete_ = Some id) by reflexivity.
  assert (Hitem : Sample.db1 !! id = Some Sample.groceries) by reflexivity.
  assert (Hget : limits (Get id) Sample.db1 = None) by reflexivity.
  assert (Hdelete : limits (Delete id) Sample.db1 = None) by reflexivity.
  assert (Hupsert : limits (Update id sets) (delete id Sample.db1) = None)
    by reflexivity.
  split; [exact Hmu|]. split; [exact Hpu|]. split; [exact Hb|].
  split; [exact Hparse|]. split; [exact Hmd|]. split; [exact Hpd|].
  split; [exact Hitem|]. split; [exact Hget|]. split; [exact Hdelete|].
  split; [exact Hupsert|].
  exact (proj1 (update_can_recreate_a_deleted_note limits Sample.JSON_parse
                  Sample.rt2 update delete_ id text o Sample.groceries
                  Sample.db1 Hmu Hpu Hb Hparse Hmd Hpd Hitem eq_refl
                  Hget Hdelete Hupsert)).
Defined.
